(** * The OpenCode auto-loader metadata store

    A shallow embedding of the persistence layer of the auto-loader
    (class [OpenCodeAutoLoader]): schema validation and repair, the delta
    journal, the delta applier and compaction; then the commands on the
    snapshot file and the session updates of the loader object.

    Modelling conventions.
    - In-memory JavaScript data is a tree of type [value].  A number is a
      binary64 floating-point number, the primitive [float]: [NaN], the
      infinities and negative zero are numbers, [+] rounds and overflows as
      the machine does, and a number is printed as Number::toString prints
      it.
    - A function that mutates its argument in place and returns it is a
      function from the old contents to the new contents.  The module
      [Store] gives the replay of the journal on objects that live in a
      store, where two variables can name one object.
    - [DEFAULT_ESSENTIAL] is the constant of the source as the program
      starts, its [projects] empty: the functions on contents describe a
      process in which nothing has written to that array.  Only [Store]
      follows the one array that all default snapshots share, and there a
      replay that starts from no snapshot is seen to write to it.
    - [new Date().toISOString()] is the argument [now] of each operation.
    - A file holds either the text that [JSON.stringify] writes for a
      document (kept as the document; reading it gives the document as
      JSON text holds it) or text that [JSON.parse] rejects; the journal is
      kept line by line.  JSON text with a number beyond the range of the
      doubles, which [JSON.parse] reads as an infinity, is not among the
      files.
    - [console.log] appends a line to the console of the [world].
    - A compressed file is kept by the text that decompression gives back.
    - Code that goes through [__proto__], assigns to the length or to a
      named property of an Array, or goes on from a member inherited from a
      prototype leaves this data model: its result is [Exotic], and nothing
      is stated about it. *)

From Stdlib Require Import ZArith Ascii String List Bool Lia DecimalString Floats.
From stdpp Require Import base list strings option pretty.

Local Open Scope Z_scope.
Local Open Scope string_scope.
Local Open Scope list_scope.

(** ** Values *)

(** A number is a binary64 floating-point number, the primitive [float]:
    [NaN], the two infinities and the two zeros are among them, and [+]
    rounds as the machine does. *)
Unset Elimination Schemes.
Inductive value : Type :=
  | VUndef
  | VNull
  | VBool (b : bool)
  | VNum (x : float)
  | VStr (s : string)
  | VArr (elems : list value)
  | VObj (props : list (string * value)).
Set Elimination Schemes.

(** Induction over the tree, with the hypothesis for every element of an
    array and every property value of an object. *)
Definition value_ind (P : value -> Prop)
    (HUndef : P VUndef) (HNull : P VNull)
    (HBool : forall b, P (VBool b)) (HNum : forall x, P (VNum x))
    (HStr : forall s, P (VStr s))
    (HArr : forall l, Forall P l -> P (VArr l))
    (HObj : forall ps, Forall (fun kv => P (snd kv)) ps -> P (VObj ps)) :
  forall v, P v :=
  fix go (v : value) : P v :=
    match v with
    | VUndef => HUndef
    | VNull => HNull
    | VBool b => HBool b
    | VNum x => HNum x
    | VStr s => HStr s
    | VArr l =>
        HArr l ((fix elems (l : list value) : Forall P l :=
                   match l with
                   | [] => @List.Forall_nil _ P
                   | x :: l' => @List.Forall_cons _ P x l' (go x) (elems l')
                   end) l)
    | VObj ps =>
        HObj ps ((fix props (ps : list (string * value)) :
                    Forall (fun kv => P (snd kv)) ps :=
                    match ps with
                    | [] => @List.Forall_nil _ _
                    | kv :: ps' => @List.Forall_cons _ _ kv ps' (go (snd kv)) (props ps')
                    end) ps)
    end.

(** The results of [typeof] that data can have (no functions, symbols or
    bigints occur in parsed JSON). *)
Inductive jstype : Type :=
  | TyUndefined | TyObject | TyBoolean | TyNumber | TyString.

Definition typeof (v : value) : jstype :=
  match v with
  | VUndef => TyUndefined
  | VNull | VArr _ | VObj _ => TyObject
  | VBool _ => TyBoolean
  | VNum _ => TyNumber
  | VStr _ => TyString
  end.

Definition is_object (v : value) : bool :=
  match typeof v with TyObject => true | _ => false end.

Definition is_number (v : value) : bool :=
  match typeof v with TyNumber => true | _ => false end.

Definition is_string (v : value) : bool :=
  match typeof v with TyString => true | _ => false end.

(** [Array.isArray]. *)
Definition isArray (v : value) : bool :=
  match v with VArr _ => true | _ => false end.

(** ToBoolean: what [if (v)], [!v] and [v || w] test.  The numbers that
    are falsy are [NaN] and the two zeros. *)
Definition truthy (v : value) : bool :=
  match v with
  | VUndef | VNull => false
  | VBool b => b
  | VNum x =>
      match Prim2SF x with
      | S754_zero _ | S754_nan => false
      | _ => true
      end
  | VStr s => negb (String.eqb s "")
  | VArr _ | VObj _ => true
  end.

(** [a || b]. *)
Definition js_or (a b : value) : value := if truthy a then a else b.

(** ** Property access *)

Fixpoint lookup_prop {A} (k : string) (ps : list (string * A)) : option A :=
  match ps with
  | [] => None
  | (k', v) :: ps' => if String.eqb k' k then Some v else lookup_prop k ps'
  end.

Fixpoint assign_prop {A} (k : string) (v : A) (ps : list (string * A))
  : list (string * A) :=
  match ps with
  | [] => [(k, v)]
  | (k', v') :: ps' =>
      if String.eqb k' k then (k, v) :: ps' else (k', v') :: assign_prop k v ps'
  end.

Fixpoint remove_prop {A} (k : string) (ps : list (string * A))
  : list (string * A) :=
  match ps with
  | [] => []
  | (k', v') :: ps' =>
      if String.eqb k' k then remove_prop k ps' else (k', v') :: remove_prop k ps'
  end.

(** A property key that is an array index: the canonical decimal form of
    an integer below 2^32 - 1. *)
Definition array_index (k : string) : option nat :=
  match NilZero.uint_of_string k with
  | Some d =>
      let n := N.of_uint d in
      if String.eqb (pretty n) k && (n <? 4294967295)%N
      then Some (N.to_nat n) else None
  | None => None
  end.

(** The number of elements of an array, as a number. *)
Definition number_of_nat (n : nat) : float :=
  PrimFloat.of_uint63 (Uint63.of_Z (Z.of_nat n)).

(** [t[k]] read.  A key the data does not own reads as [undefined]: the
    members inherited from [Object.prototype] and [Array.prototype] are
    functions, which every test made by this program ([!x],
    [typeof x !== 'object'], [Array.isArray(x)], [typeof x === 'number'])
    treats like [undefined].  The accessor [__proto__] is the exception and
    is kept out of the applier's paths (see [applySingleDelta]).  On the
    primitives the program only reads its own fixed field names. *)
Definition get (t : value) (k : string) : value :=
  match t with
  | VObj ps => default VUndef (lookup_prop k ps)
  | VArr l =>
      match array_index k with
      | Some i => default VUndef (l !! i)
      | None => if String.eqb k "length" then VNum (number_of_nat (length l)) else VUndef
      end
  | _ => VUndef
  end.

(** What a statement can do besides finishing normally. *)
Inductive js_error : Type := TypeError | SyntaxError | IOError.

(** The result of running code: a value, a thrown error, or [Exotic] when
    the code leaves the data model (a named property written on an Array,
    a path through [__proto__]): then nothing is known about what it did. *)
Inductive outcome (A : Type) : Type :=
  | Normal (a : A)
  | Throws (e : js_error)
  | Exotic.
Arguments Normal {A} a.
Arguments Throws {A} e.
Arguments Exotic {A}.

Definition obind {A B} (m : outcome A) (f : A -> outcome B) : outcome B :=
  match m with
  | Normal a => f a
  | Throws e => Throws e
  | Exotic => Exotic
  end.

Notation "'let?' x := m 'in' k" := (obind m (fun x => k))
  (at level 10, x name, m at level 100, k at level 200).

(** [l[i] = v] on an array: within the length the slot is replaced, beyond
    it the array grows and the skipped slots read as [undefined]. *)
Definition store_index {A} (undefined : A) (i : nat) (v : A) (l : list A) : list A :=
  if (i <? length l)%nat then <[i := v]> l
  else l ++ replicate (i - length l) undefined ++ [v].

(** [t[k] = v] in strict mode (class bodies are strict); the result is the
    new contents of [t].  A key of an array that is not an index is its
    length, which the assignment resizes or rejects with a RangeError, or
    the name of a property, which JSON text does not hold: the assignment
    then leaves the data model. *)
Definition put (t : value) (k : string) (v : value) : outcome value :=
  match t with
  | VObj ps => Normal (VObj (assign_prop k v ps))
  | VArr l =>
      match array_index k with
      | Some i => Normal (VArr (store_index VUndef i v l))
      | None => Exotic
      end
  | _ => Throws TypeError
  end.

(** [delete t[k]] in strict mode. *)
Definition del (t : value) (k : string) : outcome value :=
  match t with
  | VObj ps => Normal (VObj (remove_prop k ps))
  | VArr l =>
      match array_index k with
      | Some i => Normal (VArr (if (i <? length l)%nat then <[i := VUndef]> l else l))
      | None => if String.eqb k "length" then Throws TypeError else Normal t
      end
  | VUndef | VNull => Throws TypeError
  | _ => Normal t
  end.

(** ** Conversions used by [+] *)

Fixpoint join (sep : string) (l : list string) : string :=
  match l with
  | [] => ""
  | [s] => s
  | s :: l' => s +:+ sep +:+ join sep l'
  end.

(** *** Number::toString

    A finite number other than zero is printed with the fewest decimal
    digits that read back as the same number and, among those, the digits
    closest to it.  The number is [m * 2^e] with [0 < m]; numbers round to
    it from the interval between the midpoints to its two neighbours, the
    midpoints included when [m] is even. *)

(** The ceiling of [a / b], for [0 < b]. *)
Definition cdiv (a b : Z) : Z := - ((- a) / b).

(** The integer [s] with [s * 10^q] in the rounding interval of [m * 2^e]
    that is closest to [m * 2^e], if there is one.  All quantities are
    taken in units of [2^(e-2)], in which the number is [4m], the upper
    midpoint [4m + 2] and the lower midpoint [4m - 2], or [4m - 1] where
    [m] is the least mantissa [2^52] and the neighbour below is half as
    far. *)
Definition decimal_at (m e q : Z) : option Z :=
  let a := e - 2 in
  let den := 10 ^ (Z.max q 0) * 2 ^ (Z.max (- a) 0) in
  let scale := 2 ^ (Z.max a 0) * 10 ^ (Z.max (- q) 0) in
  let below := if Z.eqb m (2 ^ 52) && Z.ltb (-1074) e then 1 else 2 in
  let lo := (4 * m - below) * scale in
  let hi := (4 * m + 2) * scale in
  let x := 4 * m * scale in
  let s_min := Z.max 1 (if Z.even m then cdiv lo den else lo / den + 1) in
  let s_max := if Z.even m then hi / den else cdiv hi den - 1 in
  if (s_max <? s_min)%Z then None
  else
    let f := x / den in
    let r := x mod den in
    let nearest :=
      if (2 * r <? den)%Z then f
      else if (den <? 2 * r)%Z then f + 1
      else if Z.even f then f else f + 1 in
    Some (Z.min s_max (Z.max s_min nearest)).

(** The search for the largest [q] that has such an [s], downwards from
    [q]; at [q = min e 0] the number itself is [s * 10^q], which ends the
    search at the latest. *)
Fixpoint shortest_from (fuel : nat) (m e q : Z) : Z * Z :=
  match decimal_at m e q with
  | Some s => (s, q)
  | None =>
      match fuel with
      | O => (m * 2 ^ (Z.max e 0) * 5 ^ (Z.max (- e) 0), Z.min e 0)
      | S fuel' => shortest_from fuel' m e (q - 1)
      end
  end.

(** The search starts above the decimal exponent of the number, which is
    below [2^(log2 m + 1 + e)]. *)
Definition shortest_decimal (m e : Z) : Z * Z :=
  let q0 := (Z.log2 m + 1 + e) * 30103 / 100000 + 1 in
  shortest_from (Z.to_nat (q0 - Z.min e 0)) m e q0.

Definition zeros (n : Z) : string :=
  string_of_list_ascii (repeat "0"%char (Z.to_nat n)).

(** The layout of the digits [s] with the decimal point [n = k + q] places
    after the first digit: plain up to 21 places, with leading zeros down
    to six, in exponent form beyond. *)
Definition format_decimal (s q : Z) : string :=
  let ds := pretty s in
  let k := Z.of_nat (String.length ds) in
  let n := k + q in
  if (k <=? n)%Z && (n <=? 21)%Z then ds +:+ zeros (n - k)
  else if (0 <? n)%Z && (n <=? 21)%Z then
    substring 0 (Z.to_nat n) ds +:+ "." +:+ substring (Z.to_nat n) (Z.to_nat (k - n)) ds
  else if (-6 <? n)%Z && (n <=? 0)%Z then "0." +:+ zeros (- n) +:+ ds
  else
    let e := n - 1 in
    let es := (if (0 <=? e)%Z then "+" else "-") +:+ pretty (Z.abs e) in
    if Z.eqb k 1 then ds +:+ "e" +:+ es
    else substring 0 1 ds +:+ "." +:+ substring 1 (Z.to_nat (k - 1)) ds +:+ "e" +:+ es.

Definition number_to_string (x : float) : string :=
  match Prim2SF x with
  | S754_nan => "NaN"
  | S754_zero _ => "0"
  | S754_infinity false => "Infinity"
  | S754_infinity true => "-Infinity"
  | S754_finite neg m e =>
      let '(s, q) := shortest_decimal (Zpos m) e in
      (if neg then "-" else "") +:+ format_decimal s q
  end.

(** ToString.  An object that owns a [toString] property (never a function
    in parsed data) cannot be converted: [None] stands for the TypeError. *)
Fixpoint to_str (v : value) : option string :=
  match v with
  | VUndef => Some "undefined"
  | VNull => Some "null"
  | VBool true => Some "true"
  | VBool false => Some "false"
  | VNum x => Some (number_to_string x)
  | VStr s => Some s
  | VArr l =>
      join "," <$>
        (fix elems (l : list value) : option (list string) :=
           match l with
           | [] => Some []
           | x :: l' =>
               match (match x with
                      | VUndef | VNull => Some ""
                      | _ => to_str x
                      end), elems l' with
               | Some s, Some ss => Some (s :: ss)
               | _, _ => None
               end
           end) l
  | VObj ps =>
      match lookup_prop "toString" ps with
      | Some _ => None
      | None => Some "[object Object]"
      end
  end.

(** ToNumber on the primitives that are not strings. *)
Definition to_number (v : value) : float :=
  match v with
  | VNum x => x
  | VBool true => 1
  | VBool false | VNull => 0
  | _ => nan
  end.

(** Operands that make [+] a string concatenation: strings, and objects
    and arrays, whose primitive form is a string. *)
Definition concatenates (v : value) : bool :=
  match v with
  | VStr _ | VArr _ | VObj _ => true
  | _ => false
  end.

(** [a + b]. *)
Definition js_add (a b : value) : outcome value :=
  if concatenates a || concatenates b then
    match to_str a, to_str b with
    | Some s, Some t => Normal (VStr (s +:+ t))
    | _, _ => Throws TypeError
    end
  else Normal (VNum (to_number a + to_number b)).

(** ** JSON text *)

(** The properties that [JSON.stringify] writes: those whose value is not
    [undefined], each value converted by [f]. *)
Definition keep_defined (f : value -> value)
  : list (string * value) -> list (string * value) :=
  fix go (ps : list (string * value)) : list (string * value) :=
    match ps with
    | [] => []
    | (k, VUndef) :: ps' => go ps'
    | (k, x) :: ps' => (k, f x) :: go ps'
    end.

(** [JSON.parse(JSON.stringify(x))] for a number: [NaN] and the infinities
    are written as [null], and negative zero as [0]. *)
Definition json_number (x : float) : value :=
  match Prim2SF x with
  | S754_nan | S754_infinity _ => VNull
  | S754_zero _ => VNum 0
  | S754_finite _ _ _ => VNum x
  end.

(** [JSON.parse(JSON.stringify(v))] for [v] other than [undefined]: a
    property whose value is [undefined] is dropped, an [undefined] array
    element becomes [null]. *)
Fixpoint json_roundtrip (v : value) : value :=
  match v with
  | VUndef => VNull
  | VNum x => json_number x
  | VArr l => VArr (map json_roundtrip l)
  | VObj ps => VObj (keep_defined json_roundtrip ps)
  | _ => v
  end.

(** ** The schema *)

Definition SCHEMA_VERSION : float := 3.

Definition DEFAULT_ESSENTIAL : value :=
  VObj [("lastSession", VStr "Unknown");
        ("stack", VStr "Node.js + npm + Vite + TypeScript + TanStack");
        ("projects", VArr []);
        ("sessionCount", VNum 0)].

Definition createDefaultMetadata (now : string) : value :=
  VObj [("version", VNum SCHEMA_VERSION);
        ("lastUpdated", VStr now);
        ("essential", DEFAULT_ESSENTIAL)].

(** The [errors] array of [validateMetadata], for a truthy [data]. *)
Definition validation_errors (data : value) : list string :=
  (if negb (is_object data) then ["Metadata is not an object"] else []) ++
  (if negb (truthy (get data "version")) || negb (is_number (get data "version"))
   then ["Missing or invalid version"] else []) ++
  (if negb (truthy (get data "lastUpdated")) || negb (is_string (get data "lastUpdated"))
   then ["Missing or invalid lastUpdated"] else []) ++
  (if negb (truthy (get data "essential")) || negb (is_object (get data "essential"))
   then ["Missing or invalid essential section"]
   else
     let e := get data "essential" in
     (if negb (truthy (get e "lastSession")) || negb (is_string (get e "lastSession"))
      then ["Missing or invalid essential.lastSession"] else []) ++
     (if negb (truthy (get e "stack")) || negb (is_string (get e "stack"))
      then ["Missing or invalid essential.stack"] else []) ++
     (if negb (isArray (get e "projects"))
      then ["Missing or invalid essential.projects"] else [])).

(** [data] goes through [validateMetadata] unchanged: it is there and the
    validator finds no violation. *)
Definition passes_validation (data : value) : bool :=
  truthy data && bool_decide (validation_errors data = []).

(** [a.slice(-10)]. *)
Definition slice_last10 (l : list value) : list value :=
  drop (length l - 10)%nat l.

(** [o[k1][k2] = v] where [o[k1]] is an object. *)
Definition set_in (o : value) (k1 k2 : string) (v : value) : value :=
  match o, get o k1 with
  | VObj ps, VObj qs => VObj (assign_prop k1 (VObj (assign_prop k2 v qs)) ps)
  | _, _ => o
  end.

(** [o[k] = v] where [o] is an object. *)
Definition set_top (o : value) (k : string) (v : value) : value :=
  match o with
  | VObj ps => VObj (assign_prop k v ps)
  | _ => o
  end.

Definition repairMetadata (now : string) (corruptedData : value) : value :=
  let repaired :=
    VObj [("version", VNum SCHEMA_VERSION);
          ("lastUpdated", VStr now);
          ("essential", DEFAULT_ESSENTIAL)] in
  if truthy corruptedData && is_object corruptedData then
    let repaired :=
      if truthy (get corruptedData "version")
      then set_top repaired "version" (get corruptedData "version")
      else repaired in
    let repaired :=
      if truthy (get corruptedData "lastUpdated")
      then set_top repaired "lastUpdated" (get corruptedData "lastUpdated")
      else repaired in
    let essential := get corruptedData "essential" in
    let repaired :=
      if truthy essential && is_object essential then
        let repaired :=
          if truthy (get essential "lastSession")
          then set_in repaired "essential" "lastSession" (get essential "lastSession")
          else repaired in
        let repaired :=
          if truthy (get essential "stack")
          then set_in repaired "essential" "stack" (get essential "stack")
          else repaired in
        let repaired :=
          if isArray (get essential "projects")
          then set_in repaired "essential" "projects" (get essential "projects")
          else repaired in
        if is_number (get essential "sessionCount")
        then set_in repaired "essential" "sessionCount" (get essential "sessionCount")
        else repaired
      else repaired in
    match get corruptedData "sessionHistory" with
    | VArr h => set_top repaired "sessionHistory" (VArr (slice_last10 h))
    | _ => repaired
    end
  else repaired.

(** ** The delta applier *)

(** [s.split('.')]. *)
Fixpoint split_dot (s : string) : list string :=
  match s with
  | EmptyString => [""]
  | String c s' =>
      if Ascii.eqb c (Ascii.ascii_of_nat 46) then "" :: split_dot s'
      else match split_dot s' with
           | [] => [String c ""]
           | h :: t => String c h :: t
           end
  end.

(** The three operations that [switch (delta.op)] knows. *)
Definition known_op (op : value) : bool :=
  match op with
  | VStr s => String.eqb s "set" || String.eqb s "add" || String.eqb s "remove"
  | _ => false
  end.

(** The [switch (delta.op)] of [applySingleDelta], on the parent [target];
    the comparison with each case label is strict equality.  A known
    operation on the key [__proto__] goes through the accessor of
    [Object.prototype] and leaves the model. *)
Definition apply_op (target : value) (lastKey : string) (op v : value)
  : outcome value :=
  match op with
  | VStr s =>
      if known_op op && String.eqb lastKey "__proto__" then Exotic
      else if String.eqb s "set" then put target lastKey v
      else if String.eqb s "add" then
        match get target lastKey with
        | VArr l => put target lastKey (VArr (l ++ [v]))
        | VNum _ as cur =>
            let? sum := js_add cur v in put target lastKey sum
        | _ => put target lastKey v
        end
      else if String.eqb s "remove" then del target lastKey
      else Normal target
  | _ => Normal target
  end.

(** The navigation loop of [applySingleDelta] followed by the switch:
    [keys] are the segments [path[1]] to [path[length - 2]].  A missing or
    non-object child is replaced by [{}] before the descent; the final
    [put] writes the mutated child back into its parent.  A segment
    [__proto__] would reach [Object.prototype] and leaves the model. *)
Fixpoint apply_at (target : value) (keys : list string) (lastKey : string)
    (op v : value) : outcome value :=
  match keys with
  | [] => apply_op target lastKey op v
  | key :: keys' =>
      if String.eqb key "__proto__" then Exotic else
      let child := get target key in
      if negb (truthy child) || negb (is_object child) then
        let? target := put target key (VObj []) in
        let? child := apply_at (VObj []) keys' lastKey op v in
        put target key child
      else
        let? child := apply_at child keys' lastKey op v in
        put target key child
  end.

Definition applySingleDelta (now : string) (base delta : value) : outcome value :=
  let base :=
    if negb (truthy base) || negb (is_object base)
    then createDefaultMetadata now else base in
  match delta with
  | VUndef | VNull => Throws TypeError
  | _ =>
      match get delta "field" with
      | VStr field =>
          let path := split_dot field in
          let keys := removelast (tail path) in
          let lastKey := List.last path "" in
          apply_at base keys lastKey (get delta "op") (get delta "value")
      | _ => Throws TypeError
      end
  end.

(** ** Files and console *)

(** A file: the text [JSON.stringify(v)] ([JSON.parse] gives
    [json_roundtrip v]), or text that [JSON.parse] rejects. *)
Inductive file : Type :=
  | JsonText (v : value)
  | OtherText.

Record world : Type := mkWorld {
  metadata_json : option file;        (* context-metadata.json *)
  metadata_gz : option file;          (* context-metadata.json.gz, unzipped *)
  deltas_jsonl : option (list file);  (* context-deltas.jsonl, line by line *)
  console : list string
}.

(** Code that reads and writes a state [S] and may throw: the state is
    kept when an error is thrown. *)
Definition St (S A : Type) : Type := S -> outcome A * S.

Definition ret {S A} (a : A) : St S A := fun w => (Normal a, w).

Definition bind {S A B} (m : St S A) (f : A -> St S B) : St S B :=
  fun w =>
    match m w with
    | (Normal a, w') => f a w'
    | (Throws e, w') => (Throws e, w')
    | (Exotic, w') => (Exotic, w')
    end.

Definition throw {S A} (e : js_error) : St S A := fun w => (Throws e, w).

Definition lift {S A} (o : outcome A) : St S A := fun w => (o, w).

(** [try { body } catch (error) { handler }]. *)
Definition try_catch {S A} (body : St S A) (handler : St S A) : St S A :=
  fun w =>
    match body w with
    | (Throws _, w') => handler w'
    | r => r
    end.

Definition read_state {S} : St S S := fun w => (Normal w, w).

(** Code over the files and the console. *)
Definition M (A : Type) : Type := St world A.

Notation "'do' x <- m ; k" := (bind m (fun x => k))
  (at level 10, x name, m at level 100, k at level 200).

Definition read_world : M world := read_state.

(** [console.log]; the leading pictograph of each message and the
    [error.message] argument are left out. *)
Definition add_line (s : string) (w : world) : world :=
  mkWorld (metadata_json w) (metadata_gz w) (deltas_jsonl w) (console w ++ [s]).

Definition log (s : string) : M unit := fun w => (Normal tt, add_line s w).

Definition write_metadata_json (v : value) : M unit :=
  fun w => (Normal tt,
            mkWorld (Some (JsonText v)) (metadata_gz w) (deltas_jsonl w) (console w)).

(** [fs.appendFileSync(deltaPath, JSON.stringify(delta) + '\n')]. *)
Definition append_delta (delta : value) : M unit :=
  fun w => (Normal tt,
            mkWorld (metadata_json w) (metadata_gz w)
                    (Some (default [] (deltas_jsonl w) ++ [JsonText delta]))
                    (console w)).

(** [fs.unlinkSync(deltaPath)]: fails when the file is not there. *)
Definition unlink_deltas : M unit :=
  fun w =>
    match deltas_jsonl w with
    | Some _ => (Normal tt, mkWorld (metadata_json w) (metadata_gz w) None (console w))
    | None => (Throws IOError, w)
    end.

(** [JSON.parse] of a file's or a line's text. *)
Definition parse (f : file) : M value :=
  match f with
  | JsonText v => ret (json_roundtrip v)
  | OtherText => throw SyntaxError
  end.

(** ** The store *)

Definition loadMetadata : M value :=
  try_catch
    (do w <- read_world;
     match metadata_gz w with
     | Some f =>
         do metadata <- parse f;
         do _ <- log "Loaded metadata (compressed)";
         ret metadata
     | None =>
         match metadata_json w with
         | Some f =>
             do metadata <- parse f;
             do _ <- log "Loaded metadata (fast path)";
             ret metadata
         | None => ret VNull
         end
     end)
    (ret VNull).

(** [repairMetadata] with its console line. *)
Definition repairMetadata_logged (now : string) (corruptedData : value) : M value :=
  do _ <- log "Metadata repaired";
  ret (repairMetadata now corruptedData).

Fixpoint log_all (ls : list string) : M unit :=
  match ls with
  | [] => ret tt
  | l :: ls' => do _ <- log l; log_all ls'
  end.

Definition validateMetadata (now : string) (data : value) : M value :=
  if negb (truthy data) then
    do _ <- log "No metadata found, creating new";
    ret (createDefaultMetadata now)
  else
    let errors := validation_errors data in
    if (0 <? length errors)%nat then
      do _ <- log "Metadata validation failed:";
      do _ <- log_all (map (fun e => "   - " +:+ e) errors);
      do _ <- log "Auto-repairing metadata...";
      repairMetadata_logged now data
    else
      do _ <- log "Metadata validated successfully";
      ret data.

(** The [for (const line of lines)] loop of [applyDeltasToMetadata]. *)
Fixpoint replay (now : string) (result : value) (lines : list file) : M value :=
  match lines with
  | [] => ret result
  | line :: rest =>
      do delta <- parse line;
      do result <- lift (applySingleDelta now result delta);
      replay now result rest
  end.

(** The same loop without the world: it reads no file and writes no
    line. *)
Fixpoint fold_deltas (now : string) (result : value) (lines : list file)
  : outcome value :=
  match lines with
  | [] => Normal result
  | JsonText d :: rest =>
      let? result := applySingleDelta now result (json_roundtrip d) in
      fold_deltas now result rest
  | OtherText :: _ => Throws SyntaxError
  end.

(** The journal file with no text but white space is [Some []]. *)
Definition applyDeltasToMetadata (now : string) (baseMetadata : value) : M value :=
  do w <- read_world;
  match deltas_jsonl w with
  | None => ret baseMetadata
  | Some lines =>
      try_catch
        (match lines with
         | [] => ret baseMetadata
         | _ =>
             let result :=
               if truthy baseMetadata then json_roundtrip baseMetadata else VNull in
             let result :=
               if negb (truthy result) then createDefaultMetadata now else result in
             do result <- replay now result lines;
             do _ <- log ("Applied " +:+ pretty (length lines) +:+ " deltas");
             ret result
         end)
        (do _ <- log "Error applying deltas:";
         ret baseMetadata)
  end.

(** The step 'Update timestamp and session count' of [compactDeltas]:
    [metadata.lastUpdated = now] and, when [metadata.essential] is truthy,
    [essential.sessionCount = (essential.sessionCount || 0) + 1]. *)
Definition finalize_compaction (now : string) (metadata : value) : outcome value :=
  let? metadata := put metadata "lastUpdated" (VStr now) in
  if truthy (get metadata "essential") then
    let essential := get metadata "essential" in
    let? count :=
      js_add (js_or (get essential "sessionCount") (VNum 0)) (VNum 1) in
    let? essential := put essential "sessionCount" count in
    put metadata "essential" essential
  else Normal metadata.

Definition compactDeltas (now : string) : M unit :=
  try_catch
    (do w <- read_world;
     do metadata <-
       match metadata_json w with
       | Some f => parse f
       | None => ret (createDefaultMetadata now)
       end;
     do metadata <- applyDeltasToMetadata now metadata;
     do metadata <- lift (finalize_compaction now metadata);
     do _ <- write_metadata_json metadata;
     do _ <- unlink_deltas;
     log "Deltas compacted to base context")
    (log "Error compacting deltas:").

Definition checkAndCompactDeltas (now : string) : M unit :=
  do w <- read_world;
  match deltas_jsonl w with
  | None => ret tt
  | Some lines =>
      try_catch
        (match lines with
         | [] => ret tt
         | _ =>
             let lineCount := length lines in
             if (50 <=? lineCount)%nat then
               do _ <- log "Compacting deltas...";
               compactDeltas now
             else ret tt
         end)
        (ret tt)
  end.

Definition saveDelta (now : string) (operation field v : value) : M unit :=
  let delta :=
    VObj [("timestamp", VStr now); ("op", operation); ("field", field); ("value", v)] in
  try_catch
    (do _ <- append_delta delta;
     do _ <-
       match to_str operation, to_str field with
       | Some o, Some f => log ("Delta saved: " +:+ o +:+ " " +:+ f)
       | _, _ => throw TypeError
       end;
     checkAndCompactDeltas now)
    (log "Could not save delta:").

(** The metadata steps of [initialize] once context files are known to
    exist: load the snapshot, apply the pending deltas, validate.  This is
    the load operation of the Metadata Service. *)
Definition initialize_metadata (now : string) : M value :=
  do metadata <- loadMetadata;
  do metadataWithDeltas <- applyDeltasToMetadata now metadata;
  validateMetadata now metadataWithDeltas.

(** ** Documents used in the statements *)

(** A document with the four top-level fields of a repaired snapshot. *)
Definition repaired_doc (V L A B P N : value) (hist : list (string * value))
  : value :=
  VObj ([("version", V); ("lastUpdated", L);
         ("essential",
          VObj [("lastSession", A); ("stack", B);
                ("projects", P); ("sessionCount", N)])] ++ hist).

(** The shape of every repaired document: the fields in order, with values
    that the guards of [repairMetadata] let through. *)
Definition repaired_shape (now : string) (r : value) : Prop :=
  exists V L A B p N hist,
    r = repaired_doc V L A B (VArr p) N hist
    /\ truthy V = true
    /\ (truthy L = true \/ L = VStr now)
    /\ truthy A = true
    /\ truthy B = true
    /\ is_number N = true
    /\ (hist = [] \/
        exists h, hist = [("sessionHistory", VArr h)] /\ (length h <= 10)%nat).

(** The corrupted document of the repository's test
    'should repair corrupted metadata'. *)
Definition corrupted_test_metadata : value :=
  VObj [("version", VStr "invalid");
        ("lastUpdated", VNull);
        ("essential", VObj [("lastSession", VStr "2026-01-17")])].

(** Repair as the specification words it: a fresh default, each field of
    the candidate kept when it passes its own type check (the checks of the
    validator: non-empty strings, an array, a number), the version always
    the current constant and [lastUpdated] always the current time. *)
Definition repair_as_specified (now : string) (candidate : value) : value :=
  let e := get candidate "essential" in
  let nonempty_string x := is_string x && truthy x in
  repaired_doc
    (VNum SCHEMA_VERSION)
    (VStr now)
    (if nonempty_string (get e "lastSession")
     then get e "lastSession" else VStr "Unknown")
    (if nonempty_string (get e "stack")
     then get e "stack"
     else VStr "Node.js + npm + Vite + TypeScript + TanStack")
    (if isArray (get e "projects") then get e "projects" else VArr [])
    (if is_number (get e "sessionCount") then get e "sessionCount" else VNum 0)
    match get candidate "sessionHistory" with
    | VArr h => [("sessionHistory", VArr (slice_last10 h))]
    | _ => []
    end.

(** A candidate with an old [lastUpdated]. *)
Definition stale_candidate : value :=
  VObj [("lastUpdated", VStr "2026-01-15T10:00:00Z");
        ("essential", VObj [("lastSession", VStr "2026-01-01")])].

(** The candidate of the specification's scenario. *)
Definition scenario_candidate : value :=
  VObj [("essential", VObj [("lastSession", VStr "2026-01-01")])].

(** The sessionHistory entry that repair adds. *)
Definition salvaged_history (c : value) : list (string * value) :=
  match get c "sessionHistory" with
  | VArr h => [("sessionHistory", VArr (slice_last10 h))]
  | _ => []
  end.

(** The first value the fold works on: the deep copy of a truthy base,
    a fresh default otherwise. *)
Definition fold_start (now : string) (baseMetadata : value) : value :=
  let result := if truthy baseMetadata then json_roundtrip baseMetadata else VNull in
  if negb (truthy result) then createDefaultMetadata now else result.

(** The world without its journal file. *)
Definition without_journal (w : world) : world :=
  mkWorld (metadata_json w) (metadata_gz w) None (console w).

(** A valid snapshot. *)
Definition sample_snapshot : value := createDefaultMetadata "2026-01-17T08:00:00.000Z".

(** A delta with an operation that the switch does not know and a field of
    three segments. *)
Definition touch_delta : value :=
  VObj [("timestamp", VStr "2026-01-17T09:00:00.000Z"); ("op", VStr "touch");
        ("field", VStr "essential.cache.hits"); ("value", VNum 1)].

(** A delta that adds, to the session count, an object that cannot be
    converted to a primitive. *)
Definition unconvertible_add_delta : value :=
  VObj [("timestamp", VStr "2026-01-17T09:00:00.000Z"); ("op", VStr "add");
        ("field", VStr "metadata.essential.sessionCount");
        ("value", VObj [("toString", VNum 1)])].

(** The values that can hold properties. *)
Definition container (v : value) : bool :=
  match v with VArr _ | VObj _ => true | _ => false end.

(** The document [compactDeltas] starts from: the plain snapshot file
    when there is one, a fresh default otherwise. *)
Definition compaction_base (now : string) (w : world) : outcome value :=
  match metadata_json w with
  | Some (JsonText v) => Normal (json_roundtrip v)
  | Some OtherText => Throws SyntaxError
  | None => Normal (createDefaultMetadata now)
  end.

(** The delta of [updateMetadata('essential.lastSession', '2026-01-18')]. *)
Definition set_session_delta : value :=
  VObj [("timestamp", VStr "2026-01-18T10:00:00.000Z"); ("op", VStr "set");
        ("field", VStr "essential.lastSession"); ("value", VStr "2026-01-18")].

(** A journal whose second line is cut short, over a valid snapshot. *)
Definition corrupted_journal_world : world :=
  mkWorld (Some (JsonText sample_snapshot)) None
          (Some [JsonText set_session_delta; OtherText]) [].

(** A journal with one delta, over a valid snapshot. *)
Definition pending_world : world :=
  mkWorld (Some (JsonText sample_snapshot)) None
          (Some [JsonText set_session_delta]) [].

(** A delta that adds a project: the two segments after the first lead to
    [essential.projects]. *)
Definition add_project_delta : value :=
  VObj [("timestamp", VStr "2026-01-18T10:00:00.000Z"); ("op", VStr "add");
        ("field", VStr "metadata.essential.projects");
        ("value", VStr "iron-tracker")].

(** A delta that removes the version: its field has one segment, which is
    the key. *)
Definition remove_version_delta : value :=
  VObj [("timestamp", VStr "2026-01-18T10:00:00.000Z"); ("op", VStr "remove");
        ("field", VStr "version")].

(** A journal with that delta, over a valid snapshot. *)
Definition remove_version_world : world :=
  mkWorld (Some (JsonText sample_snapshot)) None
          (Some [JsonText remove_version_delta]) [].

(** The same snapshot and journal, with a compressed snapshot beside the
    plain one. *)
Definition pending_world_gz : world :=
  mkWorld (Some (JsonText sample_snapshot)) (Some (JsonText sample_snapshot))
          (Some [JsonText set_session_delta]) [].

(** The largest number; adding it to itself gives [Infinity]. *)
Definition max_number : float := 0x1.fffffffffffffp+1023.

(** A valid snapshot whose version is the largest number, and a journal
    that adds the largest number to the version. *)
Definition overflow_world : world :=
  mkWorld
    (Some (JsonText (VObj [("version", VNum max_number);
                           ("lastUpdated", VStr "2026-01-17T08:00:00.000Z");
                           ("essential", DEFAULT_ESSENTIAL)])))
    None
    (Some [JsonText (VObj [("timestamp", VStr "2026-01-18T10:00:00.000Z");
                           ("op", VStr "add"); ("field", VStr "version");
                           ("value", VNum max_number)])])
    [].

(** A default snapshot on disk and no journal. *)
Definition fresh_world : world :=
  mkWorld (Some (JsonText sample_snapshot)) None None [].

(** The two updates of the specification's scenario. *)
Definition scenario_updates : M unit :=
  do _ <- saveDelta "2026-01-18T10:00:00.000Z"
            (VStr "add") (VStr "essential.projects") (VStr "iron-tracker");
  saveDelta "2026-01-18T10:00:01.000Z"
    (VStr "add") (VStr "essential.sessionCount") (VNum 1).

(** What the validator accepts, field by field. *)
Definition nonempty_string (x : value) : Prop := exists s, x = VStr s /\ s <> "".

Definition valid_snapshot (d : value) : Prop :=
  exists ps es n pr,
    d = VObj ps
    /\ get d "version" = VNum n /\ truthy (VNum n) = true
    /\ nonempty_string (get d "lastUpdated")
    /\ get d "essential" = VObj es
    /\ nonempty_string (get (VObj es) "lastSession")
    /\ nonempty_string (get (VObj es) "stack")
    /\ get (VObj es) "projects" = VArr pr.

(** ** Updates *)

(** One call [saveDelta(operation, field, value)] with a string operation
    and a string field, at the time [u_now]. *)
Record update : Type := mkUpdate {
  u_now : string;
  u_op : string;
  u_field : string;
  u_value : value
}.

Definition save (u : update) : M unit :=
  saveDelta (u_now u) (VStr (u_op u)) (VStr (u_field u)) (u_value u).

(** A sequence of such calls. *)
Fixpoint saveDeltas (us : list update) : M unit :=
  match us with
  | [] => ret tt
  | u :: us' => do _ <- save u; saveDeltas us'
  end.

(** The journal lines, none when the file is not there. *)
Definition journal (w : world) : list file := default [] (deltas_jsonl w).

(** The world after the append and the console line of one [saveDelta],
    before the compaction check. *)
Definition record_delta (u : update) (w : world) : world :=
  add_line ("Delta saved: " +:+ u_op u +:+ " " +:+ u_field u)
    (snd (append_delta
            (VObj [("timestamp", VStr (u_now u)); ("op", VStr (u_op u));
                   ("field", VStr (u_field u)); ("value", u_value u)]) w)).

(** The same for a sequence of calls. *)
Definition record_deltas (us : list update) (w : world) : world :=
  fold_left (fun w u => record_delta u w) us w.

(** An update of the session count. *)
Definition count_update : update :=
  mkUpdate "2026-01-18T10:00:00.000Z" "set" "essential.sessionCount" (VNum 7).

(** The snapshot of [pending_world] with its journal replayed. *)
Definition pending_folded : value :=
  VObj [("version", VNum 3);
        ("lastUpdated", VStr "2026-01-17T08:00:00.000Z");
        ("essential", DEFAULT_ESSENTIAL);
        ("lastSession", VStr "2026-01-18")].

(** The same snapshot after the finalization step of compaction. *)
Definition pending_compacted : value :=
  VObj [("version", VNum 3);
        ("lastUpdated", VStr "2026-01-18T11:00:00.000Z");
        ("essential",
         VObj [("lastSession", VStr "Unknown");
               ("stack", VStr "Node.js + npm + Vite + TypeScript + TanStack");
               ("projects", VArr []);
               ("sessionCount", VNum 1)]);
        ("lastSession", VStr "2026-01-18")].

(** ** The same replay on a store of objects

    The functions above give the contents of the data; here objects and
    arrays live in a store and values refer to them, so that two variables
    can name one object.  This is what [applyDeltasToMetadata] relies on
    when it replays the journal on [JSON.parse(JSON.stringify(baseMetadata))]
    rather than on [baseMetadata] itself. *)
Module Store.

Abbreviation loc := nat (only parsing).

Inductive prim : Type :=
  | PUndef | PNull | PBool (b : bool) | PNum (x : float) | PStr (s : string).

(** A value: a primitive, or a reference to an object or array. *)
Inductive rval : Type :=
  | Prim (p : prim)
  | Ref (l : loc).

Inductive cell : Type :=
  | Obj (props : list (string * rval))
  | Arr (elems : list rval).

(** The store: the object at location [l] is the [l]-th cell; a new object
    takes the next location. *)
Abbreviation heap := (list cell) (only parsing).

Definition value_of_prim (p : prim) : value :=
  match p with
  | PUndef => VUndef
  | PNull => VNull
  | PBool b => VBool b
  | PNum x => VNum x
  | PStr s => VStr s
  end.

(** ToBoolean: a reference is an object, hence truthy. *)
Definition truthy_r (r : rval) : bool :=
  match r with
  | Prim p => truthy (value_of_prim p)
  | Ref _ => true
  end.

(** Building in the store the objects of a parsed document. *)
Definition alloc_list (f : value -> heap -> heap * rval)
  : list value -> heap -> heap * list rval :=
  fix go (l : list value) (h : heap) : heap * list rval :=
    match l with
    | [] => (h, [])
    | x :: l' =>
        let '(h1, r) := f x h in
        let '(h2, rs) := go l' h1 in
        (h2, r :: rs)
    end.

Definition alloc_props (f : value -> heap -> heap * rval)
  : list (string * value) -> heap -> heap * list (string * rval) :=
  fix go (ps : list (string * value)) (h : heap) : heap * list (string * rval) :=
    match ps with
    | [] => (h, [])
    | (k, x) :: ps' =>
        let '(h1, r) := f x h in
        let '(h2, rs) := go ps' h1 in
        (h2, (k, r) :: rs)
    end.

Fixpoint alloc_tree (v : value) (h : heap) : heap * rval :=
  match v with
  | VUndef => (h, Prim PUndef)
  | VNull => (h, Prim PNull)
  | VBool b => (h, Prim (PBool b))
  | VNum x => (h, Prim (PNum x))
  | VStr s => (h, Prim (PStr s))
  | VArr l =>
      let '(h', rs) := alloc_list alloc_tree l h in
      (h' ++ [Arr rs], Ref (length h'))
  | VObj ps =>
      let '(h', rs) := alloc_props alloc_tree ps h in
      (h' ++ [Obj rs], Ref (length h'))
  end.

(** Reading a value of the store as a document, to the depth [fuel];
    [None] when the depth is exceeded or a reference leads nowhere. *)
Fixpoint read_tree (fuel : nat) (h : heap) (r : rval) : option value :=
  match r with
  | Prim p => Some (value_of_prim p)
  | Ref l =>
      match fuel with
      | O => None
      | S fuel' =>
          match h !! l with
          | Some (Arr rs) => VArr <$> mapM (read_tree fuel' h) rs
          | Some (Obj ps) =>
              VObj <$> mapM (fun kv => pair (fst kv) <$> read_tree fuel' h (snd kv)) ps
          | None => None
          end
      end
  end.

(** [t[k]] for the object at [t]. *)
Definition hget (h : heap) (t : loc) (k : string) : rval :=
  match h !! t with
  | Some (Obj ps) => default (Prim PUndef) (lookup_prop k ps)
  | Some (Arr rs) =>
      match array_index k with
      | Some i => default (Prim PUndef) (rs !! i)
      | None =>
          if String.eqb k "length" then Prim (PNum (number_of_nat (length rs)))
          else Prim PUndef
      end
  | None => Prim PUndef
  end.

Definition alloc (c : cell) : St heap loc :=
  fun h => (Normal (length h), h ++ [c]).

(** The objects of a parsed document, new in the store. *)
Definition place (v : value) : St heap rval :=
  fun h => let '(h', r) := alloc_tree v h in (Normal r, h').

(** [t[k] = r], in place. *)
Definition hput (t : loc) (k : string) (r : rval) : St heap unit :=
  fun h =>
    match h !! t with
    | Some (Obj ps) => (Normal tt, <[t := Obj (assign_prop k r ps)]> h)
    | Some (Arr rs) =>
        match array_index k with
        | Some i => (Normal tt, <[t := Arr (store_index (Prim PUndef) i r rs)]> h)
        | None => (Exotic, h)
        end
    | None => (Throws TypeError, h)
    end.

(** [delete t[k]], in place. *)
Definition hdel (t : loc) (k : string) : St heap unit :=
  fun h =>
    match h !! t with
    | Some (Obj ps) => (Normal tt, <[t := Obj (remove_prop k ps)]> h)
    | Some (Arr rs) =>
        match array_index k with
        | Some i =>
            (Normal tt,
             if (i <? length rs)%nat then <[t := Arr (<[i := Prim PUndef]> rs)]> h else h)
        | None =>
            if String.eqb k "length" then (Throws TypeError, h) else (Normal tt, h)
        end
    | None => (Throws TypeError, h)
    end.

(** [a.push(r)], in place. *)
Definition push (a : loc) (r : rval) : St heap unit :=
  fun h =>
    match h !! a with
    | Some (Arr rs) => (Normal tt, <[a := Arr (rs ++ [r])]> h)
    | _ => (Throws TypeError, h)
    end.

Section Loader.

(** The location of the array [DEFAULT_ESSENTIAL.projects]: the spread
    [{ ...DEFAULT_ESSENTIAL }] copies the reference, so every default
    snapshot shares this one array. *)
Variable default_projects : loc.

Definition createDefaultMetadata (now : string) : St heap loc :=
  do essential <-
    alloc (Obj [("lastSession", Prim (PStr "Unknown"));
                ("stack", Prim (PStr "Node.js + npm + Vite + TypeScript + TanStack"));
                ("projects", Ref default_projects);
                ("sessionCount", Prim (PNum 0))]);
  alloc (Obj [("version", Prim (PNum SCHEMA_VERSION));
              ("lastUpdated", Prim (PStr now));
              ("essential", Ref essential)]).

(** The navigation loop of [applySingleDelta]: [target = target[key]]
    follows the reference, after [target[key] = {}] when it is missing or
    not an object. *)
Fixpoint navigate (target : loc) (keys : list string) : St heap loc :=
  match keys with
  | [] => ret target
  | key :: keys' =>
      if String.eqb key "__proto__" then lift Exotic else
      do h <- read_state;
      match hget h target key with
      | Ref child => navigate child keys'
      | Prim _ =>
          do child <- alloc (Obj []);
          do _ <- hput target key (Ref child);
          navigate child keys'
      end
  end.

(** The switch of [applySingleDelta].  The delta was parsed from its line
    just before; the objects of [delta.value] enter the store where the
    switch stores the value. *)
Definition apply_op (target : loc) (lastKey : string) (op v : value)
  : St heap unit :=
  match op with
  | VStr s =>
      if known_op op && String.eqb lastKey "__proto__" then lift Exotic
      else if String.eqb s "set" then
        do r <- place v; hput target lastKey r
      else if String.eqb s "add" then
        do h <- read_state;
        match hget h target lastKey with
        | Ref a =>
            match h !! a with
            | Some (Arr _) => do r <- place v; push a r
            | _ => do r <- place v; hput target lastKey r
            end
        | Prim (PNum _ as p) =>
            do sum <- lift (js_add (value_of_prim p) v);
            do r <- place sum;
            hput target lastKey r
        | Prim _ => do r <- place v; hput target lastKey r
        end
      else if String.eqb s "remove" then hdel target lastKey
      else ret tt
  | _ => ret tt
  end.

Definition applySingleDelta (now : string) (base : rval) (delta : value)
  : St heap rval :=
  do base <-
    match base with
    | Ref b => ret b
    | Prim _ => createDefaultMetadata now
    end;
  match delta with
  | VUndef | VNull => throw TypeError
  | _ =>
      match get delta "field" with
      | VStr field =>
          let path := split_dot field in
          let keys := removelast (tail path) in
          let lastKey := List.last path "" in
          do target <- navigate base keys;
          do _ <- apply_op target lastKey (get delta "op") (get delta "value");
          ret (Ref base)
      | _ => throw TypeError
      end
  end.

(** [JSON.parse(JSON.stringify(r))]: the document read from the store and
    built anew.  Reading deeper than the number of objects in the store
    means going round a cycle, on which [JSON.stringify] throws. *)
Definition deep_copy (r : rval) : St heap rval :=
  do h <- read_state;
  match read_tree (S (length h)) h r with
  | Some t => place (json_roundtrip t)
  | None => throw TypeError
  end.

Fixpoint replay (now : string) (result : rval) (lines : list file)
  : St heap rval :=
  match lines with
  | [] => ret result
  | JsonText d :: rest =>
      do result <- applySingleDelta now result (json_roundtrip d);
      replay now result rest
  | OtherText :: _ => throw SyntaxError
  end.

(** [applyDeltasToMetadata] with the journal file as an argument and the
    console left out. *)
Definition applyDeltasToMetadata (now : string) (deltas : option (list file))
    (baseMetadata : rval) : St heap rval :=
  match deltas with
  | None => ret baseMetadata
  | Some lines =>
      try_catch
        (match lines with
         | [] => ret baseMetadata
         | _ =>
             do result <-
               (if truthy_r baseMetadata then deep_copy baseMetadata
                else ret (Prim PNull));
             do result <-
               (if negb (truthy_r result)
                then do fresh <- createDefaultMetadata now; ret (Ref fresh)
                else ret result);
             replay now result lines
         end)
        (ret baseMetadata)
  end.

End Loader.

Section Fresh.

(** A store [h0]: everything at or beyond its length is new. *)
Variable h0 : heap.

Definition fresh_r (r : rval) : Prop :=
  match r with
  | Ref l => (length h0 <= l)%nat
  | Prim _ => True
  end.

Definition fresh_cell (c : cell) : Prop :=
  match c with
  | Obj ps => Forall (fun kv => fresh_r (snd kv)) ps
  | Arr rs => Forall fresh_r rs
  end.

(** The old store is intact, and the new objects refer to new objects
    only. *)
Definition extends (h : heap) : Prop :=
  exists ext, h = h0 ++ ext /\ Forall fresh_cell ext.

(** Code that keeps the old store intact, and whose result satisfies [Q]. *)
Definition keeps {A} (Q : A -> Prop) (m : St heap A) : Prop :=
  forall h, extends h ->
    extends (snd (m h)) /\ forall a, fst (m h) = Normal a -> Q a.

End Fresh.

(** A store without dangling references: every reference in it, and [r],
    leads to an object of the store. *)
Definition bounded_r (n : nat) (r : rval) : Prop :=
  match r with
  | Ref l => (l < n)%nat
  | Prim _ => True
  end.

Definition bounded_cell (n : nat) (c : cell) : Prop :=
  match c with
  | Obj ps => Forall (fun kv => bounded_r n (snd kv)) ps
  | Arr rs => Forall (bounded_r n) rs
  end.

Definition closed (h : heap) : Prop := Forall (bounded_cell (length h)) h.

End Store.

(** Every segment of [keys] names an object or array already there, so
    that the navigation loop of [applySingleDelta] creates nothing. *)
Fixpoint path_present (target : value) (keys : list string) : bool :=
  match keys with
  | [] => true
  | key :: keys' =>
      negb (String.eqb key "__proto__")
      && truthy (get target key) && is_object (get target key)
      && path_present (get target key) keys'
  end.

(** ** Reading a snapshot along a path *)

(** Reading along a path, [t[k1][k2]...], where a step from a value that
    is not an object or an array reads [undefined]. *)
Definition get_path (t : value) (ks : list string) : value := fold_left get ks t.

(** The path that [applySingleDelta] follows for a field: the segments
    after the first, or the only segment. *)
Definition delta_path (field : string) : list string :=
  removelast (tail (split_dot field)) ++ [List.last (split_dot field) ""].

(** The snapshot that [applySingleDelta] works on. *)
Definition effective_base (now : string) (base : value) : value :=
  if negb (truthy base) || negb (is_object base) then createDefaultMetadata now else base.

(** The object that the navigation loop of [applySingleDelta] arrives at,
    as it is before the switch. *)
Fixpoint nav (target : value) (keys : list string) : value :=
  match keys with
  | [] => target
  | key :: keys' =>
      let child := get target key in
      if negb (truthy child) || negb (is_object child) then nav (VObj []) keys'
      else nav child keys'
  end.

(** A segment that the applier follows within the data model from
    [target]: not [__proto__], and an index when [target] is an array (any
    other key of an array is its length or a property that JSON text does
    not hold). *)
Definition plain_key (target : value) (key : string) : bool :=
  negb (String.eqb key "__proto__")
  && match target with
     | VArr _ => match array_index key with Some _ => true | None => false end
     | _ => true
     end.

(** Every segment of the navigation is such a segment of the object it is
    applied to. *)
Fixpoint plain_walk (target : value) (keys : list string) : bool :=
  match keys with
  | [] => true
  | key :: keys' =>
      plain_key target key
      && (let child := get target key in
          if negb (truthy child) || negb (is_object child)
          then plain_walk (VObj []) keys'
          else plain_walk child keys')
  end.

(** The same for the whole path, the key of the switch included. *)
Definition plain_path (target : value) (keys : list string) (lastKey : string) : bool :=
  plain_walk target keys && plain_key (nav target keys) lastKey.

(** The chain of empty objects for segments that were not there:
    [{ k1: { k2: ... {} } }]. *)
Fixpoint nest (keys : list string) : value :=
  match keys with
  | [] => VObj []
  | key :: keys' => VObj [(key, nest keys')]
  end.

(** The contents of [t] after [t[k] = v], where the assignment goes
    through. *)
Definition write (t : value) (k : string) (v : value) : value :=
  match put t k v with
  | Normal t' => t'
  | _ => t
  end.

(** A snapshot with the intermediate objects of a path: the objects that
    are there are kept, and where a segment is missing or holds no object
    the chain of empty objects for the remaining segments is stored. *)
Fixpoint with_path (target : value) (keys : list string) : value :=
  match keys with
  | [] => target
  | key :: keys' =>
      let child := get target key in
      if negb (truthy child) || negb (is_object child)
      then write target key (nest keys')
      else write target key (with_path child keys')
  end.

(** ** Saving the snapshot and the commands on the snapshot file *)

(** The line feed that ends some console messages. *)
Definition newline : string := String (Ascii.ascii_of_nat 10) "".

(** [`${v}`] in a template literal. *)
Definition template (v : value) : M string :=
  match to_str v with
  | Some s => ret s
  | None => throw TypeError
  end.

(** [fs.writeFileSync(compressedPath, zlib.gzipSync(...))]: the file is
    kept by what [gunzipSync] gives back. *)
Definition write_metadata_gz (v : value) : M unit :=
  fun w => (Normal tt,
            mkWorld (metadata_json w) (Some (JsonText v)) (deltas_jsonl w) (console w)).

(** [JSON.stringify(undefined)] is [undefined], which [Buffer.from]
    rejects with a TypeError. *)
Definition saveMetadata (metadata : value) : M unit :=
  try_catch
    (do _ <- match metadata with
             | VUndef => throw TypeError
             | _ => ret tt
             end;
     do _ <- write_metadata_gz metadata;
     do _ <- write_metadata_json metadata;
     log "Metadata saved (compressed + plain)")
    (log "Could not save metadata:").

(** The command [--validate]. *)
Definition validateContext (now : string) : M unit :=
  do _ <- log ("Validating context..." +:+ newline);
  do w <- read_world;
  match metadata_json w with
  | None => log "No metadata file found"
  | Some f =>
      try_catch
        (do metadata <- parse f;
         do validated <- validateMetadata now metadata;
         if truthy validated then
           do _ <- log "Context is valid";
           do version <- template (get validated "version");
           do _ <- log ("   Version: " +:+ version);
           do lastUpdated <- template (get validated "lastUpdated");
           do _ <- log ("   Last updated: " +:+ lastUpdated);
           do sessions <-
             template (js_or (get (get validated "essential") "sessionCount") (VNum 0));
           log ("   Sessions: " +:+ sessions)
         else ret tt)
        (log "Context validation failed:")
  end.

(** The command [--repair]. *)
Definition repairContext (now : string) : M unit :=
  do _ <- log ("Repairing context..." +:+ newline);
  do w <- read_world;
  match metadata_json w with
  | None => log "No metadata file to repair"
  | Some f =>
      try_catch
        (do corrupted <- parse f;
         do repaired <- repairMetadata_logged now corrupted;
         do _ <- write_metadata_json repaired;
         do _ <- log "Context repaired";
         do version <- template (get repaired "version");
         do _ <- log ("   Version: " +:+ version);
         do lastSession <- template (get (get repaired "essential") "lastSession");
         log ("   Last session: " +:+ lastSession))
        (log "Could not repair context:")
  end.

(** A document that [JSON.parse] can return: no [undefined], no [NaN]. *)
Definition json_clean (v : value) : Prop := json_roundtrip v = v.

(** ** The loader object *)

(** The fields of the loader that the update operations use, the session
    history file, and the files of the store. *)
Record loader : Type := mkLoader {
  this_metadata : value;          (* this.metadata *)
  this_sessionContext : value;    (* this.sessionContext *)
  session_history : option file;  (* session-history.json *)
  files : world
}.

(** Code of the store, run by the loader. *)
Definition on_files {A} (m : M A) : St loader A :=
  fun s =>
    let '(o, w) := m (files s) in
    (o, mkLoader (this_metadata s) (this_sessionContext s) (session_history s) w).

Definition set_metadata (v : value) : St loader unit :=
  fun s => (Normal tt, mkLoader v (this_sessionContext s) (session_history s) (files s)).

Definition write_history (v : value) : St loader unit :=
  fun s =>
    (Normal tt,
     mkLoader (this_metadata s) (this_sessionContext s) (Some (JsonText v)) (files s)).

(** The names that every object inherits from [Object.prototype]. *)
Definition object_prototype_names : list string :=
  ["constructor"; "__proto__"; "hasOwnProperty"; "isPrototypeOf";
   "propertyIsEnumerable"; "toLocaleString"; "toString"; "valueOf";
   "__defineGetter__"; "__defineSetter__"; "__lookupGetter__"; "__lookupSetter__"].

(** [target[key]] where the result is used as an object: on [undefined]
    and [null] it is a TypeError.  A member inherited from a prototype is a
    function, or the accessor [__proto__]; going on from it leaves the data
    model, and so does reading a key that an array or a primitive does not
    own, as the members of their prototypes vary with the engine. *)
Definition read_member (target : value) (key : string) : outcome value :=
  match target with
  | VUndef | VNull => Throws TypeError
  | VObj ps =>
      match lookup_prop key ps with
      | Some v => Normal v
      | None =>
          if existsb (String.eqb key) object_prototype_names then Exotic
          else Normal VUndef
      end
  | VArr l =>
      match array_index key with
      | Some i =>
          match l !! i with
          | Some v => Normal v
          | None => Normal VUndef
          end
      | None => if String.eqb key "length" then Normal (VNum (number_of_nat (length l)))
                else Exotic
      end
  | _ => Exotic
  end.

(** The loop [target = target[keys[i]]] of [updateMetadata] and the
    assignment [target[lastKey] = value] after it; the result is the new
    contents of the first [target]. *)
Fixpoint assign_in (target : value) (keys : list string) (lastKey : string)
    (v : value) : outcome value :=
  match keys with
  | [] =>
      match target with
      | VUndef | VNull => Throws TypeError
      | _ => if String.eqb lastKey "__proto__" then Exotic else put target lastKey v
      end
  | key :: keys' =>
      let? child := read_member target key in
      let? child := assign_in child keys' lastKey v in
      put target key child
  end.

(** [field.startsWith] on a value that is not a string is a TypeError; the
    assignment in place is written back into [this.metadata]. *)
Definition updateMetadata (now : string) (field v : value) : St loader unit :=
  do _ <- on_files (saveDelta now (VStr "set") field v);
  do s <- read_state;
  if truthy (this_metadata s) then
    match field with
    | VStr f =>
        if String.prefix "essential." f then
          let keys := split_dot f in
          do essential <-
            lift (assign_in (get (this_metadata s) "essential")
                    (removelast (tail keys)) (List.last keys "") v);
          do metadata <- lift (put (this_metadata s) "essential" essential);
          set_metadata metadata
        else ret tt
    | _ => throw TypeError
    end
  else ret tt.

(** [history.push] on a value that is not an array is a TypeError. *)
Definition addToHistory (now : string) (entry : value) : St loader unit :=
  do history <-
    try_catch
      (do s <- read_state;
       match session_history s with
       | Some f => on_files (parse f)
       | None => ret (VArr [])
       end)
      (ret (VArr []));
  match history with
  | VArr h =>
      let h := h ++ [entry] in
      let h := if (10 <? length h)%nat then slice_last10 h else h in
      try_catch
        (do _ <- write_history (VArr h);
         on_files (saveDelta now (VStr "set") (VStr "sessionHistory") (VArr h)))
        (on_files (log "Could not save session history"))
  | _ => throw TypeError
  end.

(** [s.split('T')[0]]: the text before the first T. *)
Fixpoint before_T (s : string) : string :=
  match s with
  | EmptyString => ""
  | String c s' =>
      if Ascii.eqb c (Ascii.ascii_of_nat 84) then "" else String c (before_T s')
  end.

Definition saveNewSession (now : string) (sessionType summary : value)
  : St loader unit :=
  let timestamp := VStr now in
  do _ <- updateMetadata now (VStr "essential.lastSession") (VStr (before_T now));
  do s <- read_state;
  do count <-
    lift (js_add (js_or (get (get (this_metadata s) "essential") "sessionCount")
                    (VNum 0))
            (VNum 1));
  do _ <- updateMetadata now (VStr "essential.sessionCount") count;
  do s <- read_state;
  let historyEntry :=
    VObj [("timestamp", timestamp); ("sessionType", sessionType);
          ("summary", summary);
          ("previousContext",
           VStr (if truthy (this_sessionContext s) then "loaded" else "none"))] in
  do _ <- addToHistory now historyEntry;
  on_files (log "Session saved with delta tracking").

(** The history that [addToHistory] starts from. *)
Definition stored_history (s : loader) : value :=
  match session_history s with
  | Some (JsonText v) => json_roundtrip v
  | _ => VArr []
  end.

(** * Properties *)

(** ** Repair *)

Lemma slice_last10_length (l : list value) : (length (slice_last10 l) <= 10)%nat.
Proof. unfold slice_last10. rewrite length_drop. lia. Qed.

Lemma slice_last10_short (l : list value) :
  (length l <= 10)%nat -> slice_last10 l = l.
Proof.
  intros H. unfold slice_last10.
  replace (length l - 10)%nat with 0%nat by lia. reflexivity.
Qed.

Section RepairSteps.
Variables (V L A B P N : value) (hist : list (string * value)).

(** Each guarded assignment of [repairMetadata] replaces one field. *)
Lemma repair_step_version (b : bool) (x : value) :
  (if b then set_top (repaired_doc V L A B P N []) "version" x
   else repaired_doc V L A B P N [])
  = repaired_doc (if b then x else V) L A B P N [].
Proof. destruct b; reflexivity. Qed.

Lemma repair_step_lastUpdated (b : bool) (x : value) :
  (if b then set_top (repaired_doc V L A B P N []) "lastUpdated" x
   else repaired_doc V L A B P N [])
  = repaired_doc V (if b then x else L) A B P N [].
Proof. destruct b; reflexivity. Qed.

Lemma repair_step_lastSession (b : bool) (x : value) :
  (if b then set_in (repaired_doc V L A B P N []) "essential" "lastSession" x
   else repaired_doc V L A B P N [])
  = repaired_doc V L (if b then x else A) B P N [].
Proof. destruct b; reflexivity. Qed.

Lemma repair_step_stack (b : bool) (x : value) :
  (if b then set_in (repaired_doc V L A B P N []) "essential" "stack" x
   else repaired_doc V L A B P N [])
  = repaired_doc V L A (if b then x else B) P N [].
Proof. destruct b; reflexivity. Qed.

Lemma repair_step_projects (b : bool) (x : value) :
  (if b then set_in (repaired_doc V L A B P N []) "essential" "projects" x
   else repaired_doc V L A B P N [])
  = repaired_doc V L A B (if b then x else P) N [].
Proof. destruct b; reflexivity. Qed.

Lemma repair_step_sessionCount (b : bool) (x : value) :
  (if b then set_in (repaired_doc V L A B P N []) "essential" "sessionCount" x
   else repaired_doc V L A B P N [])
  = repaired_doc V L A B P (if b then x else N) [].
Proof. destruct b; reflexivity. Qed.

Lemma repair_step_history (h : list value) :
  set_top (repaired_doc V L A B P N []) "sessionHistory" (VArr h)
  = repaired_doc V L A B P N [("sessionHistory", VArr h)].
Proof. reflexivity. Qed.

(** Reading the fields back. *)
Lemma repaired_doc_fields :
  get (repaired_doc V L A B P N hist) "version" = V
  /\ get (repaired_doc V L A B P N hist) "lastUpdated" = L
  /\ get (repaired_doc V L A B P N hist) "essential"
     = VObj [("lastSession", A); ("stack", B);
             ("projects", P); ("sessionCount", N)]
  /\ get (repaired_doc V L A B P N hist) "sessionHistory"
     = default VUndef (lookup_prop "sessionHistory" hist).
Proof. repeat split; reflexivity. Qed.
End RepairSteps.

(** [repairMetadata] in closed form: every field of the output is either
    the default or the candidate's, by the guard of that field alone. *)
Lemma repairMetadata_closed_form (now : string) (c : value) :
  let ok := truthy c && is_object c in
  let e := get c "essential" in
  let eok := ok && (truthy e && is_object e) in
  repairMetadata now c
  = repaired_doc
      (if ok && truthy (get c "version") then get c "version"
       else VNum SCHEMA_VERSION)
      (if ok && truthy (get c "lastUpdated") then get c "lastUpdated"
       else VStr now)
      (if eok && truthy (get e "lastSession") then get e "lastSession"
       else VStr "Unknown")
      (if eok && truthy (get e "stack") then get e "stack"
       else VStr "Node.js + npm + Vite + TypeScript + TanStack")
      (if eok && isArray (get e "projects") then get e "projects" else VArr [])
      (if eok && is_number (get e "sessionCount") then get e "sessionCount"
       else VNum 0)
      (if ok then salvaged_history c else []).
Proof.
  cbv zeta. unfold repairMetadata, salvaged_history.
  change (VObj [("version", VNum SCHEMA_VERSION); ("lastUpdated", VStr now);
                ("essential", DEFAULT_ESSENTIAL)])
    with (repaired_doc (VNum SCHEMA_VERSION) (VStr now) (VStr "Unknown")
            (VStr "Node.js + npm + Vite + TypeScript + TanStack")
            (VArr []) (VNum 0) []).
  destruct (truthy c && is_object c); cbn [andb]; [|reflexivity].
  rewrite repair_step_version, repair_step_lastUpdated.
  destruct (truthy (get c "essential") && is_object (get c "essential"));
    cbn [andb].
  - rewrite repair_step_lastSession, repair_step_stack, repair_step_projects,
      repair_step_sessionCount.
    destruct (get c "sessionHistory"); reflexivity.
  - destruct (get c "sessionHistory"); reflexivity.
Qed.

Lemma repairMetadata_shape (now : string) (c : value) :
  repaired_shape now (repairMetadata now c).
Proof.
  rewrite repairMetadata_closed_form. cbv zeta.
  set (ok := truthy c && is_object c).
  set (eok := ok && (truthy (get c "essential") && is_object (get c "essential"))).
  assert (HP : exists p,
    (if eok && isArray (get (get c "essential") "projects")
     then get (get c "essential") "projects" else VArr []) = VArr p).
  { destruct eok; cbn [andb]; [|eauto].
    destruct (get (get c "essential") "projects"); cbn; eauto. }
  destruct HP as [p ->].
  do 7 eexists. split; [reflexivity|].
  split; [destruct (ok && truthy (get c "version")) eqn:E; [|reflexivity];
          apply andb_true_iff in E; tauto|].
  split; [destruct (ok && truthy (get c "lastUpdated")) eqn:E; [left|right; reflexivity];
          apply andb_true_iff in E; tauto|].
  split; [destruct (eok && truthy (get (get c "essential") "lastSession")) eqn:E;
          [|reflexivity]; apply andb_true_iff in E; tauto|].
  split; [destruct (eok && truthy (get (get c "essential") "stack")) eqn:E;
          [|reflexivity]; apply andb_true_iff in E; tauto|].
  split; [destruct (eok && is_number (get (get c "essential") "sessionCount")) eqn:E;
          [|reflexivity]; apply andb_true_iff in E; tauto|].
  destruct ok; [|left; reflexivity].
  unfold salvaged_history. destruct (get c "sessionHistory"); auto.
  right. eexists. split; [reflexivity|apply slice_last10_length].
Qed.

Lemma repairMetadata_fixed (now : string) (r : value) :
  repaired_shape now r -> repairMetadata now r = r.
Proof.
  intros (V & L & A & B & p & N & hist & -> & HV & HL & HA & HB & HN & Hh).
  rewrite repairMetadata_closed_form. cbv zeta.
  destruct (repaired_doc_fields V L A B (VArr p) N hist) as (-> & -> & -> & HH).
  unfold salvaged_history. rewrite HH.
  change (truthy (repaired_doc V L A B (VArr p) N hist)
          && is_object (repaired_doc V L A B (VArr p) N hist)) with true.
  cbn [andb truthy is_object typeof get lookup_prop String.eqb Ascii.eqb
       Bool.eqb default isArray].
  cbv [id]. rewrite HV, HA, HB, HN.
  replace (if truthy L then L else VStr now) with L
    by (destruct HL as [-> | ->]; [reflexivity|destruct (truthy (VStr now)); reflexivity]).
  destruct Hh as [-> | (h & -> & Hlen)]; cbn; [reflexivity|].
  rewrite slice_last10_short by assumption. reflexivity.
Qed.

(** C8: repairing a repaired document changes nothing, for every input
    (null, empty object, any garbage), the clock reading being the same. *)
Theorem repairMetadata_idempotent (now : string) (X : value) :
  repairMetadata now (repairMetadata now X) = repairMetadata now X.
Proof. apply repairMetadata_fixed, repairMetadata_shape. Qed.

(** C5: on the corrupted document of the repository's own test, repair
    keeps the string version, and its output does not pass the validator. *)
Theorem repairMetadata_keeps_invalid_version (now : string) :
  get (repairMetadata now corrupted_test_metadata) "version" = VStr "invalid"
  /\ In "Missing or invalid version"
        (validation_errors (repairMetadata now corrupted_test_metadata))
  /\ passes_validation (repairMetadata now corrupted_test_metadata) = false.
Proof.
  rewrite repairMetadata_closed_form.
  split; [reflexivity|]. split; [left; reflexivity|reflexivity].
Qed.

(** C6, as stated, fails: a candidate's [lastUpdated] that is a time
    stamp survives repair, where the claim has the current time. *)
Lemma repairMetadata_not_as_specified :
  let now := "2026-11-02T09:00:00.000Z" in
  repairMetadata now stale_candidate <> repair_as_specified now stale_candidate
  /\ get (repairMetadata now stale_candidate) "lastUpdated"
     = VStr "2026-01-15T10:00:00Z"
  /\ get (repair_as_specified now stale_candidate) "lastUpdated" = VStr now.
Proof.
  cbv zeta. split; [|split; vm_compute; reflexivity].
  vm_compute. discriminate.
Qed.

(** C6 (amended): what repair salvages.  The output is a fresh default
    snapshot in which, from an object candidate, [lastUpdated],
    [essential.lastSession] and [essential.stack] are the candidate's when
    they are non-empty strings, [essential.projects] when it is an array,
    [essential.sessionCount] when it is a number, and [sessionHistory] the
    last ten entries when it is an array; [lastUpdated] is the current
    time, [lastSession] and [stack] the defaults, and the version the
    current constant where the candidate has no truthy value.  On the
    scenario candidate the output is the default with [lastSession]
    preserved. *)
Theorem repairMetadata_salvage (now : string) (c : value) :
  let ok := truthy c && is_object c in
  let e := get c "essential" in
  let eok := ok && (truthy e && is_object e) in
  (exists V L A B,
     repairMetadata now c
     = repaired_doc V L A B
         (if eok && isArray (get e "projects") then get e "projects" else VArr [])
         (if eok && is_number (get e "sessionCount") then get e "sessionCount"
          else VNum 0)
         (if ok then salvaged_history c else [])
     /\ (if ok && truthy (get c "version") then True else V = VNum SCHEMA_VERSION)
     /\ (if ok && truthy (get c "lastUpdated")
         then is_string (get c "lastUpdated") = true -> L = get c "lastUpdated"
         else L = VStr now)
     /\ (if eok && truthy (get e "lastSession")
         then is_string (get e "lastSession") = true -> A = get e "lastSession"
         else A = VStr "Unknown")
     /\ (if eok && truthy (get e "stack")
         then is_string (get e "stack") = true -> B = get e "stack"
         else B = VStr "Node.js + npm + Vite + TypeScript + TanStack"))
  /\ repairMetadata now scenario_candidate
     = VObj [("version", VNum SCHEMA_VERSION);
             ("lastUpdated", VStr now);
             ("essential",
              VObj [("lastSession", VStr "2026-01-01");
                    ("stack", VStr "Node.js + npm + Vite + TypeScript + TanStack");
                    ("projects", VArr []);
                    ("sessionCount", VNum 0)])].
Proof.
  cbv zeta. split; [|rewrite repairMetadata_closed_form; reflexivity].
  rewrite repairMetadata_closed_form. cbv zeta.
  do 4 eexists. split; [reflexivity|].
  split; [destruct (truthy c && is_object c && truthy (get c "version")); auto|].
  split; [destruct (truthy c && is_object c && truthy (get c "lastUpdated")); auto|].
  split; match goal with |- if ?g then _ else _ => destruct g; auto end.
Qed.

(** ** Reading what was written *)

Lemma lookup_assign_same {A} k (v : A) ps :
  lookup_prop k (assign_prop k v ps) = Some v.
Proof.
  induction ps as [|[k' v'] ps IH]; cbn.
  - rewrite String.eqb_refl. reflexivity.
  - destruct (String.eqb k' k) eqn:E; cbn.
    + rewrite String.eqb_refl. reflexivity.
    + rewrite E. exact IH.
Qed.

Lemma lookup_assign_other {A} k k' (v : A) ps :
  k <> k' -> lookup_prop k' (assign_prop k v ps) = lookup_prop k' ps.
Proof.
  intros Hne. induction ps as [|[k0 v0] ps IH]; cbn.
  - destruct (String.eqb k k') eqn:E; [apply String.eqb_eq in E; contradiction|reflexivity].
  - destruct (String.eqb k0 k) eqn:E; cbn.
    + apply String.eqb_eq in E. subst k0.
      destruct (String.eqb k k') eqn:E'; [apply String.eqb_eq in E'; contradiction|reflexivity].
    + destruct (String.eqb k0 k'); [reflexivity|exact IH].
Qed.

Lemma get_assign_same k v ps : get (VObj (assign_prop k v ps)) k = v.
Proof. cbn. rewrite lookup_assign_same. reflexivity. Qed.

Lemma get_assign_other k k' v ps :
  k <> k' -> get (VObj (assign_prop k v ps)) k' = get (VObj ps) k'.
Proof. intros H. cbn. rewrite lookup_assign_other by assumption. reflexivity. Qed.

(** A property that is there and defined survives serialization. *)
Lemma lookup_keep_defined k x ps :
  lookup_prop k ps = Some x -> x <> VUndef ->
  lookup_prop k (keep_defined json_roundtrip ps) = Some (json_roundtrip x).
Proof.
  intros Hl Hx. induction ps as [|[k' v'] ps IH]; cbn in *; [discriminate|].
  destruct (String.eqb k' k) eqn:E.
  - injection Hl as ->. destruct x; try contradiction; cbn; rewrite E; reflexivity.
  - specialize (IH Hl). destruct v'; cbn; rewrite ?E; exact IH.
Qed.

Lemma get_roundtrip_defined ps k x :
  get (VObj ps) k = x -> x <> VUndef ->
  get (json_roundtrip (VObj ps)) k = json_roundtrip x.
Proof.
  cbn. intros H Hx. destruct (lookup_prop k ps) as [y|] eqn:E; cbn in H; subst.
  - rewrite (lookup_keep_defined _ _ _ E Hx). reflexivity.
  - contradiction.
Qed.

Lemma get_array_named l k :
  array_index k = None -> String.eqb k "length" = false -> get (VArr l) k = VUndef.
Proof. intros H1 H2. cbn. rewrite H1, H2. reflexivity. Qed.

Lemma store_index_lookup {A} (u : A) i v l : store_index u i v l !! i = Some v.
Proof.
  unfold store_index. destruct (Nat.ltb_spec i (length l)).
  - apply list_lookup_insert_eq. assumption.
  - rewrite lookup_app_r by assumption.
    rewrite lookup_app_r by (rewrite length_replicate; lia).
    rewrite length_replicate. replace (i - length l - (i - length l))%nat with 0%nat by lia.
    reflexivity.
Qed.

(** Reading back what was assigned. *)
Lemma get_put_same t k v t' : put t k v = Normal t' -> get t' k = v.
Proof.
  destruct t as [| | | | |l|ps]; cbn; try discriminate.
  - destruct (array_index k) as [i|] eqn:E; [|discriminate].
    intros [= <-]. cbn. rewrite E, store_index_lookup. reflexivity.
  - intros [= <-]. apply get_assign_same.
Qed.

Lemma assign_assign {A} k (v1 v2 : A) ps :
  assign_prop k v2 (assign_prop k v1 ps) = assign_prop k v2 ps.
Proof.
  induction ps as [|[k' v'] ps IH]; cbn.
  - rewrite String.eqb_refl. reflexivity.
  - destruct (String.eqb k' k) eqn:E; cbn.
    + rewrite String.eqb_refl. reflexivity.
    + rewrite E, IH. reflexivity.
Qed.

Lemma container_not_replaced c :
  container c = true -> negb (truthy c) || negb (is_object c) = false.
Proof. destruct c; try discriminate; reflexivity. Qed.

Lemma store_index_twice {A} (u : A) i a b l :
  store_index u i b (store_index u i a l) = store_index u i b l.
Proof.
  unfold store_index at 2 3. destruct (Nat.ltb_spec i (length l)) as [Hlt|Hge].
  - unfold store_index. rewrite length_insert.
    destruct (Nat.ltb_spec i (length l)); [|lia].
    apply list_insert_insert_eq.
  - unfold store_index. rewrite !length_app, length_replicate. cbn [length].
    destruct (Nat.ltb_spec i (length l + (i - length l + 1))); [|lia].
    rewrite insert_app_r_alt by assumption.
    rewrite insert_app_r_alt by (rewrite length_replicate; lia).
    rewrite length_replicate. replace (i - length l - (i - length l))%nat with 0%nat by lia.
    reflexivity.
Qed.

(** The second of two assignments to one key is the one that stays. *)
Lemma put_put t k a b t1 : put t k a = Normal t1 -> put t1 k b = put t k b.
Proof.
  destruct t as [| | | | |l|ps]; cbn [put]; try discriminate.
  - destruct (array_index k) as [i|] eqn:E; [|discriminate].
    intros [= <-]. cbn [put]. rewrite E, store_index_twice. reflexivity.
  - intros [= <-]. cbn [put]. rewrite assign_assign. reflexivity.
Qed.

(** ** The delta applier *)

Lemma known_op_false_apply_op target lastKey op v :
  known_op op = false -> apply_op target lastKey op v = Normal target.
Proof.
  unfold apply_op. intros H. destruct op; try reflexivity.
  rewrite H. cbn [andb]. cbn [known_op] in H.
  apply orb_false_iff in H as [H Hr]. apply orb_false_iff in H as [Hs Ha].
  rewrite Hs, Ha, Hr. reflexivity.
Qed.

Lemma truthy_object_container v :
  negb (truthy v) || negb (is_object v) = false -> container v = true.
Proof.
  intros H. apply orb_false_iff in H as [H1 H2].
  destruct v; try reflexivity; cbn in H1, H2; discriminate.
Qed.

Lemma put_container t k v :
  container t = true ->
  (exists t', put t k v = Normal t' /\ container t' = true) \/ put t k v = Exotic.
Proof.
  destruct t; try discriminate; intros _; cbn.
  - destruct (array_index k); eauto.
  - eauto.
Qed.

Lemma split_dot_nonempty s : split_dot s <> [].
Proof.
  destruct s as [|c s]; cbn; [discriminate|].
  destruct (Ascii.eqb c _); [discriminate|].
  destruct (split_dot s); discriminate.
Qed.

Lemma short_path_no_navigation (path : list string) :
  (length path <= 2)%nat -> removelast (tail path) = [].
Proof.
  destruct path as [|a [|b [|c path]]]; cbn; intros H; try reflexivity; lia.
Qed.

Lemma assign_prop_same {A} k (v : A) ps :
  lookup_prop k ps = Some v -> assign_prop k v ps = ps.
Proof.
  induction ps as [|[k' v'] ps IH]; cbn; [discriminate|].
  destruct (String.eqb k' k) eqn:E.
  - intros [= ->]. apply String.eqb_eq in E. subst. reflexivity.
  - intros H. rewrite IH by assumption. reflexivity.
Qed.

(** Writing back the object that is already there changes nothing. *)
Lemma put_same target key :
  truthy (get target key) = true -> is_object (get target key) = true ->
  put target key (get target key) = Normal target.
Proof.
  destruct target as [| | | | |l|ps]; cbn; try discriminate.
  - destruct (array_index key) as [i|].
    + destruct (l !! i) as [x|] eqn:E; cbn; [|discriminate].
      intros _ _. unfold store_index.
      pose proof (lookup_lt_Some _ _ _ E) as Hlt.
      destruct (Nat.ltb_spec i (length l)); [|lia].
      rewrite list_insert_id by assumption. reflexivity.
    + destruct (String.eqb key "length"); discriminate.
  - destruct (lookup_prop key ps) as [x|] eqn:E; cbn; [|discriminate].
    intros _ _. rewrite assign_prop_same by assumption. reflexivity.
Qed.

Lemma apply_at_unknown_present keys : forall target lastKey op v,
  known_op op = false -> path_present target keys = true ->
  apply_at target keys lastKey op v = Normal target.
Proof.
  induction keys as [|key keys IH]; intros target lastKey op v Hop Hp;
    cbn [apply_at].
  - apply known_op_false_apply_op. assumption.
  - cbn [path_present] in Hp.
    apply andb_true_iff in Hp as [Hp Hrest].
    apply andb_true_iff in Hp as [Hp Ho].
    apply andb_true_iff in Hp as [Hk Ht].
    apply negb_true_iff in Hk. rewrite Hk, Ht, Ho. cbn [negb orb].
    rewrite IH by assumption. cbn [obind]. apply put_same; assumption.
Qed.

(** C7, as stated, fails: an operation outside set/add/remove still creates
    the missing intermediate object of its path, and an add can throw. *)
Lemma applySingleDelta_not_noop_not_total :
  (exists r, applySingleDelta "2026-01-17T09:00:01.000Z" sample_snapshot touch_delta
             = Normal r
             /\ r <> sample_snapshot
             /\ get sample_snapshot "cache" = VUndef
             /\ get r "cache" = VObj [])
  /\ applySingleDelta "2026-01-17T09:00:01.000Z" sample_snapshot
       unconvertible_add_delta = Throws TypeError.
Proof.
  split; [|vm_compute; reflexivity].
  eexists. split; [vm_compute; reflexivity|].
  split; [discriminate|]. split; reflexivity.
Qed.

(** An assignment to a plain key goes through. *)
Lemma put_plain t k v :
  container t = true -> plain_key t k = true ->
  put t k v = Normal (write t k v) /\ container (write t k v) = true
  /\ plain_key (write t k v) k = true.
Proof.
  unfold plain_key, write. intros Hc Hk. apply andb_true_iff in Hk as [Hp Hi].
  destruct t; try discriminate; cbn [put].
  - destruct (array_index k); [|discriminate]. rewrite Hp. auto.
  - rewrite Hp. auto.
Qed.

Lemma get_write t k v :
  container t = true -> plain_key t k = true -> get (write t k v) k = v.
Proof.
  intros Hc Hk. destruct (put_plain t k v Hc Hk) as (E & _).
  eapply get_put_same. exact E.
Qed.

Lemma write_write t k a b :
  container t = true -> plain_key t k = true ->
  put (write t k a) k b = Normal (write t k b).
Proof.
  intros Hc Hk. destruct (put_plain t k a Hc Hk) as (Ea & _).
  destruct (put_plain t k b Hc Hk) as (Eb & _).
  rewrite (put_put _ _ _ b _ Ea). exact Eb.
Qed.

(** On an empty object the navigation builds the chain of empty objects. *)
Lemma apply_at_nest keys : forall lastKey op v,
  known_op op = false -> plain_walk (VObj []) keys = true ->
  apply_at (VObj []) keys lastKey op v = Normal (nest keys).
Proof.
  induction keys as [|key keys IH]; intros lastKey op v Hop Hw; cbn [apply_at nest].
  - apply known_op_false_apply_op. assumption.
  - cbn [plain_walk get lookup_prop default truthy negb orb] in Hw.
    apply andb_true_iff in Hw as [Hk Hw].
    unfold plain_key in Hk. rewrite andb_true_r in Hk.
    apply negb_true_iff in Hk. rewrite Hk.
    cbn [get lookup_prop default truthy negb orb put assign_prop obind].
    rewrite (IH lastKey op v Hop Hw). cbn [obind put assign_prop].
    rewrite String.eqb_refl. reflexivity.
Qed.

(** With an operation outside set/add/remove the applier only builds the
    intermediate objects of its path. *)
Lemma apply_at_unknown keys : forall target lastKey op v,
  known_op op = false -> container target = true -> plain_walk target keys = true ->
  apply_at target keys lastKey op v = Normal (with_path target keys)
  /\ container (with_path target keys) = true.
Proof.
  induction keys as [|key keys IH]; intros target lastKey op v Hop Hc Hw;
    cbn [apply_at with_path].
  - split; [apply known_op_false_apply_op|]; assumption.
  - cbn [plain_walk] in Hw. apply andb_true_iff in Hw as [Hk Hw].
    pose proof Hk as Hk'. unfold plain_key in Hk'.
    apply andb_true_iff in Hk' as [Hp _]. apply negb_true_iff in Hp. rewrite Hp.
    cbv zeta in Hw.
    destruct (negb (truthy (get target key)) || negb (is_object (get target key))) eqn:E.
    + destruct (put_plain target key (VObj []) Hc Hk) as (-> & _ & _). cbn [obind].
      rewrite (apply_at_nest keys lastKey op v Hop Hw). cbn [obind].
      rewrite write_write by assumption.
      split; [reflexivity|].
      destruct (put_plain target key (nest keys) Hc Hk) as (_ & E2 & _). exact E2.
    + pose proof (truthy_object_container _ E) as Hchild.
      destruct (IH (get target key) lastKey op v Hop Hchild Hw) as [-> _].
      cbn [obind].
      destruct (put_plain target key (with_path (get target key) keys) Hc Hk)
        as (E1 & E2 & _).
      auto.
Qed.

Lemma nest_present keys : plain_walk (VObj []) keys = true -> path_present (nest keys) keys = true.
Proof.
  induction keys as [|key keys IH]; intros Hw; cbn [nest path_present]; [reflexivity|].
  cbn [plain_walk get lookup_prop default truthy negb orb] in Hw.
  apply andb_true_iff in Hw as [Hk Hw].
  unfold plain_key in Hk. rewrite andb_true_r in Hk. rewrite Hk.
  cbn [get lookup_prop]. rewrite String.eqb_refl. cbn [default andb].
  destruct keys; cbn [nest truthy is_object typeof andb]; apply IH; assumption.
Qed.

Lemma nest_container keys : container (nest keys) = true.
Proof. destruct keys; reflexivity. Qed.

Lemma container_truthy_object c :
  container c = true -> truthy c = true /\ is_object c = true.
Proof. destruct c; try discriminate; auto. Qed.

(** After the navigation every intermediate segment names an object. *)
Lemma with_path_present keys : forall target,
  container target = true -> plain_walk target keys = true ->
  path_present (with_path target keys) keys = true.
Proof.
  induction keys as [|key keys IH]; intros target Hc Hw;
    cbn [with_path path_present]; [reflexivity|].
  cbn [plain_walk] in Hw. apply andb_true_iff in Hw as [Hk Hw].
  pose proof Hk as Hk'. unfold plain_key in Hk'.
  apply andb_true_iff in Hk' as [Hp _]. rewrite Hp. cbv zeta in Hw.
  destruct (negb (truthy (get target key)) || negb (is_object (get target key))) eqn:E.
  - rewrite get_write by assumption.
    destruct (container_truthy_object _ (nest_container keys)) as [-> ->].
    cbn [andb]. apply nest_present. assumption.
  - pose proof (truthy_object_container _ E) as Hchild.
    rewrite get_write by assumption.
    destruct (apply_at_unknown keys (get target key) "" VUndef VUndef eq_refl Hchild Hw)
      as [_ Hcw].
    destruct (container_truthy_object _ Hcw) as [-> ->]. cbn [andb].
    apply IH; assumption.
Qed.

(** C7 (amended): for an object snapshot and a delta whose field is a
    string and whose operation is none of set/add/remove, when no
    intermediate segment of the field is [__proto__] and arrays on the way
    are addressed by an index, the applier returns normally.  What it
    returns is the snapshot with the intermediate objects of the path: the
    objects that are there are kept and empty objects are created where a
    segment is missing or holds no object, so that afterwards every
    intermediate segment names an object.  The snapshot is returned
    unchanged when those objects were all there, in particular when the
    field has at most two segments. *)
Theorem applySingleDelta_unknown_op (now : string) (base delta : value)
    (field : string) :
  truthy base = true -> is_object base = true ->
  get delta "field" = VStr field ->
  known_op (get delta "op") = false ->
  let keys := removelast (tail (split_dot field)) in
  plain_walk base keys = true ->
  applySingleDelta now base delta = Normal (with_path base keys)
  /\ path_present (with_path base keys) keys = true
  /\ (path_present base keys = true -> with_path base keys = base)
  /\ ((length (split_dot field) <= 2)%nat -> with_path base keys = base).
Proof.
  intros Ht Ho Hf Hop keys Hw. subst keys.
  assert (Hc : container base = true).
  { apply truthy_object_container. rewrite Ht, Ho. reflexivity. }
  assert (Hrun : applySingleDelta now base delta
                 = Normal (with_path base (removelast (tail (split_dot field))))).
  { unfold applySingleDelta. rewrite Ht, Ho. cbn [negb orb].
    destruct delta; try discriminate; rewrite Hf; cbv zeta;
      apply apply_at_unknown; assumption. }
  split; [exact Hrun|]. split; [apply with_path_present; assumption|].
  split.
  - intros Hp.
    pose proof (apply_at_unknown_present _ base "" VUndef VUndef eq_refl Hp) as E1.
    destruct (apply_at_unknown _ base "" VUndef VUndef eq_refl Hc Hw) as [E2 _].
    rewrite E1 in E2. injection E2 as <-. reflexivity.
  - intros Hlen. rewrite (short_path_no_navigation _ Hlen). reflexivity.
Qed.

Lemma applySingleDelta_unknown_op_witness :
  let keys := removelast (tail (split_dot "essential.cache.hits")) in
  applySingleDelta "2026-01-17T09:00:01.000Z" sample_snapshot touch_delta
  = Normal (with_path sample_snapshot keys)
  /\ path_present (with_path sample_snapshot keys) keys = true
  /\ (path_present sample_snapshot keys = true
      -> with_path sample_snapshot keys = sample_snapshot)
  /\ ((length (split_dot "essential.cache.hits") <= 2)%nat
      -> with_path sample_snapshot keys = sample_snapshot).
Proof.
  apply (applySingleDelta_unknown_op "2026-01-17T09:00:01.000Z" sample_snapshot
           touch_delta "essential.cache.hits"); reflexivity.
Defined.

(** ** Replaying the journal *)

Lemma replay_fold_deltas (now : string) (lines : list file) :
  forall result w, replay now result lines w = (fold_deltas now result lines, w).
Proof.
  induction lines as [|[d|] rest IH]; intros result w; cbn [replay fold_deltas].
  - reflexivity.
  - unfold bind at 1. cbn [parse ret]. unfold bind at 1. unfold lift at 1.
    destruct (applySingleDelta now result (json_roundtrip d)); cbn [obind];
      auto.
  - reflexivity.
Qed.

(** [applyDeltasToMetadata] by cases on the journal file. *)
Lemma applyDeltasToMetadata_cases (now : string) (base : value) (w : world) :
  applyDeltasToMetadata now base w =
  match deltas_jsonl w with
  | None | Some [] => (Normal base, w)
  | Some lines =>
      match fold_deltas now (fold_start now base) lines with
      | Normal result =>
          (Normal result, add_line ("Applied " +:+ pretty (length lines) +:+ " deltas") w)
      | Throws _ => (Normal base, add_line "Error applying deltas:" w)
      | Exotic => (Exotic, w)
      end
  end.
Proof.
  unfold applyDeltasToMetadata. unfold bind at 1. cbn [read_world read_state].
  destruct (deltas_jsonl w) as [[|line rest]|]; try reflexivity.
  unfold try_catch, bind. rewrite replay_fold_deltas.
  fold (fold_start now base).
  destruct (fold_deltas now (fold_start now base) (line :: rest)); reflexivity.
Qed.

(** A line that is not JSON stops the loop: the fold does not finish
    normally. *)
Lemma fold_deltas_bad_line (now : string) (lines : list file) :
  In OtherText lines ->
  forall result r, fold_deltas now result lines <> Normal r.
Proof.
  induction lines as [|[d|] rest IH]; intros Hin result r; cbn [fold_deltas].
  - destruct Hin.
  - destruct Hin as [Hin|Hin]; [discriminate|].
    destruct (applySingleDelta now result (json_roundtrip d)); cbn [obind];
      try discriminate. apply IH. assumption.
  - discriminate.
Qed.

Lemma In_nonempty {A} (x : A) (l : list A) : In x l -> exists y l', l = y :: l'.
Proof. destruct l; [intros []|eauto]. Qed.

Lemma applyDeltasToMetadata_bad_line (now : string) (base : value) (w : world)
    (lines : list file) :
  deltas_jsonl w = Some lines ->
  In OtherText lines ->
  applyDeltasToMetadata now base w = (Normal base, add_line "Error applying deltas:" w)
  \/ applyDeltasToMetadata now base w = (Exotic, w).
Proof.
  intros Hj Hin. rewrite applyDeltasToMetadata_cases, Hj.
  destruct (In_nonempty _ _ Hin) as (y & l' & ->).
  pose proof (fold_deltas_bad_line now _ Hin (fold_start now base)) as Hn.
  destruct (fold_deltas now (fold_start now base) (y :: l')); auto.
  exfalso. eapply Hn. reflexivity.
Qed.

(** C3, as stated, fails: with a journal whose second line is not JSON the
    fold does not end in an error; the caller gets the base snapshot, the
    very value it gets when there is no journal file. *)
Lemma corrupted_journal_not_surfaced :
  let now := "2026-01-18T11:00:00.000Z" in
  fst (applyDeltasToMetadata now sample_snapshot corrupted_journal_world)
  = Normal sample_snapshot
  /\ fst (applyDeltasToMetadata now sample_snapshot
            (without_journal corrupted_journal_world))
     = Normal sample_snapshot
  /\ forall e, fst (applyDeltasToMetadata now sample_snapshot corrupted_journal_world)
               <> Throws e.
Proof.
  cbv zeta. split; [vm_compute; reflexivity|].
  split; [vm_compute; reflexivity|].
  intros e. vm_compute. discriminate.
Qed.

(** C3 (amended): when a journal line is not JSON the replay is given up
    and the caller receives the base snapshot, as it does when there is no
    journal file; the line on the console is the one difference, and the
    journal file stays. *)
Theorem corrupted_journal_returns_base (now : string) (base : value) (w : world)
    (lines : list file) :
  deltas_jsonl w = Some lines ->
  In OtherText lines ->
  fst (applyDeltasToMetadata now base w) <> Exotic ->
  fst (applyDeltasToMetadata now base w) = Normal base
  /\ fst (applyDeltasToMetadata now base (without_journal w)) = Normal base
  /\ console (snd (applyDeltasToMetadata now base w))
     = console w ++ ["Error applying deltas:"]
  /\ console (snd (applyDeltasToMetadata now base (without_journal w))) = console w
  /\ deltas_jsonl (snd (applyDeltasToMetadata now base w)) = Some lines.
Proof.
  intros Hj Hin Hex.
  destruct (applyDeltasToMetadata_bad_line now base w lines Hj Hin) as [E|E];
    rewrite E in *; [|exfalso; apply Hex; reflexivity].
  rewrite applyDeltasToMetadata_cases. cbn. auto.
Qed.

Lemma corrupted_journal_returns_base_witness :
  fst (applyDeltasToMetadata "t" sample_snapshot corrupted_journal_world)
  = Normal sample_snapshot
  /\ fst (applyDeltasToMetadata "t" sample_snapshot
            (without_journal corrupted_journal_world)) = Normal sample_snapshot
  /\ console (snd (applyDeltasToMetadata "t" sample_snapshot corrupted_journal_world))
     = console corrupted_journal_world ++ ["Error applying deltas:"]
  /\ console (snd (applyDeltasToMetadata "t" sample_snapshot
                     (without_journal corrupted_journal_world)))
     = console corrupted_journal_world
  /\ deltas_jsonl (snd (applyDeltasToMetadata "t" sample_snapshot
                          corrupted_journal_world))
     = Some [JsonText set_session_delta; OtherText].
Proof.
  apply (corrupted_journal_returns_base "t" sample_snapshot corrupted_journal_world
           [JsonText set_session_delta; OtherText]).
  - reflexivity.
  - right. left. reflexivity.
  - vm_compute. discriminate.
Defined.

(** C4: in the scenario the journal has one line per update, but the load
    that follows returns the default [projects] and [sessionCount] inside
    [essential]: the two deltas landed on top-level keys of the snapshot. *)
Theorem scenario_updates_miss_essential :
  let w := snd (scenario_updates fresh_world) in
  let later := "2026-01-18T12:00:00.000Z" in
  fst (scenario_updates fresh_world) = Normal tt
  /\ length <$> deltas_jsonl w = Some 2%nat
  /\ exists snapshot,
       fst (initialize_metadata later w) = Normal snapshot
       /\ get (get snapshot "essential") "projects" = VArr []
       /\ get (get snapshot "essential") "sessionCount" = VNum 0
       /\ get snapshot "projects" = VStr "iron-tracker"
       /\ get snapshot "sessionCount" = VNum 1.
Proof.
  cbv zeta. split; [vm_compute; reflexivity|].
  split; [vm_compute; reflexivity|].
  eexists. split; [vm_compute; reflexivity|].
  repeat split; vm_compute; reflexivity.
Qed.

(** ** Compaction *)

(** C1, as stated, fails: over a valid snapshot with one pending delta, the
    load after compaction differs from the load before it (the session
    count went from 0 to 1, the time stamp moved); so does what
    [loadMetadata] alone reads.  With a compressed snapshot beside the plain
    one it fails in another way: the load reads the compressed snapshot,
    which compaction does not write, and the pending update is gone from
    what it returns.  And where the folded version is [Infinity], which the
    validator accepts and JSON text cannot hold, the load after compaction
    finds no version and repairs the snapshot. *)
Lemma compaction_changes_loaded_snapshot :
  let now := "2026-01-18T11:00:00.000Z" in
  let w' := snd (compactDeltas now pending_world) in
  let wz := snd (compactDeltas now pending_world_gz) in
  let wo := snd (compactDeltas now overflow_world) in
  (exists before after,
     fst (initialize_metadata now pending_world) = Normal before
     /\ fst (initialize_metadata now w') = Normal after
     /\ before <> after
     /\ get (get before "essential") "sessionCount" = VNum 0
     /\ get (get after "essential") "sessionCount" = VNum 1
     /\ fst (loadMetadata pending_world) <> fst (loadMetadata w'))
  /\ (exists before after,
        fst (initialize_metadata now pending_world_gz) = Normal before
        /\ fst (initialize_metadata now wz) = Normal after
        /\ get before "lastSession" = VStr "2026-01-18"
        /\ get after "lastSession" = VUndef)
  /\ (exists before after,
        fst (initialize_metadata now overflow_world) = Normal before
        /\ fst (initialize_metadata now wo) = Normal after
        /\ get before "version" = VNum infinity
        /\ get after "version" = VNum SCHEMA_VERSION).
Proof.
  cbv zeta. split; [|split].
  - do 2 eexists.
    split; [vm_compute; reflexivity|].
    split; [vm_compute; reflexivity|].
    split; [discriminate|].
    split; [vm_compute; reflexivity|].
    split; [vm_compute; reflexivity|].
    vm_compute. discriminate.
  - do 2 eexists.
    split; [vm_compute; reflexivity|].
    split; [vm_compute; reflexivity|].
    split; vm_compute; reflexivity.
  - do 2 eexists.
    split; [vm_compute; reflexivity|].
    split; [vm_compute; reflexivity|].
    split; vm_compute; reflexivity.
Qed.

(** C2, as stated, fails: a journal whose delta removes the key [version]
    is folded and written by compaction as it is; the snapshot on disk then
    has no version and does not pass the validator.  It fails as well where
    the folded snapshot passes the validator: a version that an add has
    brought to [Infinity] is written as [null]. *)
Lemma compaction_persists_invalid_snapshot :
  let now := "2026-01-18T11:00:00.000Z" in
  passes_validation sample_snapshot = true
  /\ (exists persisted,
        metadata_json (snd (compactDeltas now remove_version_world))
        = Some (JsonText persisted)
        /\ get (json_roundtrip persisted) "version" = VUndef
        /\ validation_errors (json_roundtrip persisted) = ["Missing or invalid version"]
        /\ passes_validation (json_roundtrip persisted) = false)
  /\ (exists base folded persisted,
        compaction_base now overflow_world = Normal base
        /\ fst (applyDeltasToMetadata now base overflow_world) = Normal folded
        /\ passes_validation folded = true
        /\ get folded "version" = VNum infinity
        /\ metadata_json (snd (compactDeltas now overflow_world))
           = Some (JsonText persisted)
        /\ get (json_roundtrip persisted) "version" = VNull
        /\ passes_validation (json_roundtrip persisted) = false).
Proof.
  cbv zeta. split; [vm_compute; reflexivity|]. split.
  - eexists. split; [vm_compute; reflexivity|].
    repeat split; vm_compute; reflexivity.
  - do 3 eexists. split; [vm_compute; reflexivity|].
    split; [vm_compute; reflexivity|].
    repeat split; vm_compute; reflexivity.
Qed.

(** ** The validator *)

Lemma cond_nil (c : bool) (m : string) (rest : list string) :
  (if c then [m] else []) ++ rest = [] -> c = false /\ rest = [].
Proof. destruct c; [discriminate|auto]. Qed.

Lemma check_number x :
  negb (truthy x) || negb (is_number x) = false ->
  exists n, x = VNum n /\ truthy (VNum n) = true.
Proof.
  intros H. apply orb_false_iff in H as [H1 H2].
  apply negb_false_iff in H1.
  destruct x; try discriminate. eauto.
Qed.

Lemma check_string x :
  negb (truthy x) || negb (is_string x) = false -> nonempty_string x.
Proof.
  intros H. apply orb_false_iff in H as [H1 H2].
  destruct x; cbn in H1, H2; try discriminate.
  exists s. split; [reflexivity|]. intros ->. discriminate.
Qed.

Lemma number_checked n :
  truthy (VNum n) = true -> negb (truthy (VNum n)) || negb (is_number (VNum n)) = false.
Proof. intros ->. reflexivity. Qed.

Lemma string_checked x :
  nonempty_string x -> negb (truthy x) || negb (is_string x) = false.
Proof.
  intros (s & -> & Hs). cbn.
  destruct (String.eqb_spec s ""); [contradiction|reflexivity].
Qed.

Lemma passes_validation_valid d : passes_validation d = true -> valid_snapshot d.
Proof.
  unfold passes_validation. intros H. apply andb_true_iff in H as [Ht He].
  apply bool_decide_eq_true in He. unfold validation_errors in He.
  apply cond_nil in He as [Ho He]. apply cond_nil in He as [Hv He].
  apply cond_nil in He as [Hl He].
  destruct (negb (truthy (get d "essential")) || negb (is_object (get d "essential")))
    eqn:Hess; [discriminate|].
  apply cond_nil in He as [Hls He]. apply cond_nil in He as [Hst He].
  destruct (isArray (get (get d "essential") "projects")) eqn:Hpr; [|discriminate].
  destruct (check_number _ Hv) as (n & Hn & Hn0).
  destruct d as [| | | | |l|ps]; try discriminate.
  destruct (get (VObj ps) "essential") as [| | | | |l|es] eqn:Ees; try discriminate.
  destruct (get (VObj es) "projects") as [| | | | |pr|] eqn:Epr; try discriminate.
  exists ps, es, n, pr. rewrite Ees.
  repeat split; auto using check_string.
Qed.

Lemma valid_passes_validation d : valid_snapshot d -> passes_validation d = true.
Proof.
  intros (ps & es & n & pr & -> & Hv & Hn & Hl & He & Hls & Hst & Hpr).
  unfold passes_validation. cbn [truthy andb].
  apply bool_decide_eq_true. unfold validation_errors.
  rewrite Hv, He, Hpr, (number_checked n Hn), (string_checked _ Hl),
    (string_checked _ Hls), (string_checked _ Hst).
  reflexivity.
Qed.

(** ** The finalization step of compaction *)

(** On a valid snapshot the step only assigns two fields. *)
Lemma finalize_compaction_valid now F P :
  valid_snapshot F -> finalize_compaction now F = Normal P ->
  exists ps es count,
    F = VObj ps /\ get F "essential" = VObj es
    /\ js_add (js_or (get (VObj es) "sessionCount") (VNum 0)) (VNum 1) = Normal count
    /\ P = VObj (assign_prop "essential" (VObj (assign_prop "sessionCount" count es))
                   (assign_prop "lastUpdated" (VStr now) ps)).
Proof.
  intros (ps & es & n & pr & -> & Hv & Hn & Hl & He & Hls & Hst & Hpr) HP.
  unfold finalize_compaction in HP. cbn [put obind] in HP.
  rewrite get_assign_other in HP by discriminate. rewrite He in HP.
  cbn [truthy] in HP.
  destruct (js_add (js_or (get (VObj es) "sessionCount") (VNum 0)) (VNum 1))
    as [count| |] eqn:Hc; cbn [obind put] in HP; try discriminate.
  injection HP as <-. exists ps, es, count. auto.
Qed.

Lemma roundtrip_nonempty_string x :
  nonempty_string x -> nonempty_string (json_roundtrip x).
Proof. intros (s & -> & Hs). exists s. auto. Qed.

Lemma nonempty_string_defined x : nonempty_string x -> x <> VUndef.
Proof. intros (s & -> & _). discriminate. Qed.

(** Finalizing a valid snapshot and writing it as JSON gives a valid
    snapshot, when the version is a number that JSON text can hold. *)
Lemma finalize_compaction_keeps_valid now F P :
  now <> "" -> valid_snapshot F -> json_clean (get F "version") ->
  finalize_compaction now F = Normal P ->
  valid_snapshot (json_roundtrip P).
Proof.
  intros Hnow HF Hfin HP.
  destruct (finalize_compaction_valid now F P HF HP)
    as (ps & es & count & -> & He & Hc & ->).
  destruct HF as (ps' & es' & n & pr & Eq & Hv & Hn & Hl & He' & Hls & Hst & Hpr).
  injection Eq as <-. rewrite He in He'. injection He' as <-.
  unfold json_clean in Hfin. rewrite Hv in Hfin.
  set (es1 := assign_prop "sessionCount" count es).
  set (ps1 := assign_prop "essential" (VObj es1) (assign_prop "lastUpdated" (VStr now) ps)).
  assert (G1 : get (VObj ps1) "version" = VNum n).
  { unfold ps1. rewrite !get_assign_other by discriminate. exact Hv. }
  assert (G2 : get (VObj ps1) "lastUpdated" = VStr now).
  { unfold ps1. rewrite get_assign_other by discriminate. apply get_assign_same. }
  assert (G3 : get (VObj ps1) "essential" = VObj es1) by apply get_assign_same.
  assert (G4 : get (VObj es1) "lastSession" = get (VObj es) "lastSession").
  { unfold es1. apply get_assign_other. discriminate. }
  assert (G5 : get (VObj es1) "stack" = get (VObj es) "stack").
  { unfold es1. apply get_assign_other. discriminate. }
  assert (G6 : get (VObj es1) "projects" = VArr pr).
  { unfold es1. rewrite get_assign_other by discriminate. exact Hpr. }
  exists (keep_defined json_roundtrip ps1), (keep_defined json_roundtrip es1),
    n, (map json_roundtrip pr).
  split; [reflexivity|].
  rewrite (get_roundtrip_defined ps1 "version" _ G1), Hfin by discriminate.
  rewrite (get_roundtrip_defined ps1 "lastUpdated" _ G2) by discriminate.
  rewrite (get_roundtrip_defined ps1 "essential" _ G3) by discriminate.
  change (VObj (keep_defined json_roundtrip es1)) with (json_roundtrip (VObj es1)).
  rewrite (get_roundtrip_defined es1 "lastSession" _ G4)
    by (apply nonempty_string_defined; exact Hls).
  rewrite (get_roundtrip_defined es1 "stack" _ G5)
    by (apply nonempty_string_defined; exact Hst).
  rewrite (get_roundtrip_defined es1 "projects" _ G6) by discriminate.
  repeat split; auto using roundtrip_nonempty_string.
  exists now. auto.
Qed.

(** ** What compaction writes *)

Lemma applyDeltasToMetadata_files now base w :
  let w1 := snd (applyDeltasToMetadata now base w) in
  metadata_json w1 = metadata_json w /\ metadata_gz w1 = metadata_gz w
  /\ deltas_jsonl w1 = deltas_jsonl w.
Proof.
  rewrite applyDeltasToMetadata_cases.
  destruct (deltas_jsonl w) as [[|line rest]|] eqn:E;
    try destruct (fold_deltas now (fold_start now base) (line :: rest));
    cbn [snd fst add_line metadata_json metadata_gz deltas_jsonl];
    rewrite ?E; auto.
Qed.

(** The value of the fold depends on the journal file alone. *)
Lemma applyDeltasToMetadata_same_journal now base w w' :
  deltas_jsonl w = deltas_jsonl w' ->
  fst (applyDeltasToMetadata now base w) = fst (applyDeltasToMetadata now base w').
Proof.
  intros E. rewrite !applyDeltasToMetadata_cases, E.
  destruct (deltas_jsonl w') as [[|line rest]|];
    try destruct (fold_deltas now (fold_start now base) (line :: rest));
    reflexivity.
Qed.

(** [compactDeltas] by cases on its steps. *)
Lemma compactDeltas_cases (now : string) (w : world) :
  compactDeltas now w =
  match compaction_base now w with
  | Normal base =>
      match applyDeltasToMetadata now base w with
      | (Normal F, w1) =>
          match finalize_compaction now F with
          | Normal P =>
              match deltas_jsonl w1 with
              | Some _ =>
                  (Normal tt,
                   mkWorld (Some (JsonText P)) (metadata_gz w1) None
                     (console w1 ++ ["Deltas compacted to base context"]))
              | None =>
                  (Normal tt,
                   mkWorld (Some (JsonText P)) (metadata_gz w1) None
                     (console w1 ++ ["Error compacting deltas:"]))
              end
          | Throws _ => (Normal tt, add_line "Error compacting deltas:" w1)
          | Exotic => (Exotic, w1)
          end
      | (Throws _, w1) => (Normal tt, add_line "Error compacting deltas:" w1)
      | (Exotic, w1) => (Exotic, w1)
      end
  | Throws _ => (Normal tt, add_line "Error compacting deltas:" w)
  | Exotic => (Exotic, w)
  end.
Proof.
  unfold compactDeltas, compaction_base, try_catch.
  unfold bind at 1. cbn [read_world read_state].
  unfold bind at 1.
  destruct (metadata_json w) as [[v|]|]; cbn [parse ret throw]; try reflexivity;
    (unfold bind at 1;
     match goal with |- context [applyDeltasToMetadata now ?b w] =>
       destruct (applyDeltasToMetadata now b w) as [[F|e|] w1]
     end; try reflexivity;
     unfold bind at 1; unfold lift at 1;
     destruct (finalize_compaction now F) as [P|e|]; try reflexivity;
     unfold bind, write_metadata_json, unlink_deltas, log, add_line;
     cbn [metadata_json metadata_gz deltas_jsonl console];
     destruct (deltas_jsonl w1); reflexivity).
Qed.

Lemma compactDeltas_writes now w base F P :
  compaction_base now w = Normal base ->
  fst (applyDeltasToMetadata now base w) = Normal F ->
  finalize_compaction now F = Normal P ->
  exists w',
    compactDeltas now w = (Normal tt, w')
    /\ metadata_json w' = Some (JsonText P)
    /\ metadata_gz w' = metadata_gz w
    /\ deltas_jsonl w' = None.
Proof.
  intros Hb Hf HP.
  destruct (applyDeltasToMetadata_files now base w) as (_ & Hgz & _).
  rewrite compactDeltas_cases, Hb.
  destruct (applyDeltasToMetadata now base w) as [o w1]. cbn [fst snd] in *.
  subst o. rewrite HP.
  destruct (deltas_jsonl w1); eexists; (split; [reflexivity|]); cbn; auto.
Qed.

Lemma validateMetadata_valid now d w :
  passes_validation d = true -> fst (validateMetadata now d w) = Normal d.
Proof.
  unfold passes_validation, validateMetadata. intros H.
  apply andb_true_iff in H as [Ht He]. apply bool_decide_eq_true in He.
  rewrite Ht, He. reflexivity.
Qed.

Lemma loadMetadata_plain w b :
  metadata_gz w = None -> metadata_json w = Some (JsonText b) ->
  loadMetadata w = (Normal (json_roundtrip b), add_line "Loaded metadata (fast path)" w).
Proof.
  intros Hgz Hj. unfold loadMetadata, try_catch. unfold bind at 1.
  cbn [read_world read_state]. rewrite Hgz, Hj. reflexivity.
Qed.

(** The load when only the plain snapshot file is there. *)
Lemma initialize_metadata_valid now w b F :
  metadata_gz w = None -> metadata_json w = Some (JsonText b) ->
  fst (applyDeltasToMetadata now (json_roundtrip b) w) = Normal F ->
  passes_validation F = true ->
  fst (initialize_metadata now w) = Normal F.
Proof.
  intros Hgz Hj HF Hv. unfold initialize_metadata. unfold bind at 1.
  rewrite (loadMetadata_plain w b Hgz Hj). unfold bind at 1.
  rewrite (applyDeltasToMetadata_same_journal now (json_roundtrip b) w
             (add_line "Loaded metadata (fast path)" w) eq_refl) in HF.
  destruct (applyDeltasToMetadata now (json_roundtrip b)
              (add_line "Loaded metadata (fast path)" w)) as [o w1].
  cbn [fst] in HF. subst o. apply validateMetadata_valid. assumption.
Qed.

Lemma applyDeltasToMetadata_no_journal now base w :
  deltas_jsonl w = None -> applyDeltasToMetadata now base w = (Normal base, w).
Proof. intros H. rewrite applyDeltasToMetadata_cases, H. reflexivity. Qed.

(** When the finalization step fails nothing is written. *)
Lemma compactDeltas_finalize_throws now w base F e :
  compaction_base now w = Normal base ->
  fst (applyDeltasToMetadata now base w) = Normal F ->
  finalize_compaction now F = Throws e ->
  metadata_json (snd (compactDeltas now w)) = metadata_json w
  /\ deltas_jsonl (snd (compactDeltas now w)) = deltas_jsonl w.
Proof.
  intros Hb Hf HP.
  destruct (applyDeltasToMetadata_files now base w) as (Hm & _ & Hj).
  rewrite compactDeltas_cases, Hb.
  destruct (applyDeltasToMetadata now base w) as [o w1]. cbn [fst snd] in *.
  subst o. rewrite HP. cbn. auto.
Qed.

(** A valid snapshot can be finalized unless its session count cannot be
    added to. *)
Lemma finalize_compaction_not_exotic now F :
  valid_snapshot F -> finalize_compaction now F <> Exotic.
Proof.
  intros (ps & es & n & pr & -> & Hv & Hn & Hl & He & _).
  unfold finalize_compaction. cbn [put obind].
  rewrite get_assign_other by discriminate. rewrite He. cbn [truthy].
  unfold js_add.
  destruct (concatenates _ || concatenates _);
    [destruct (to_str _); [destruct (to_str _)|]|]; cbn; discriminate.
Qed.

(** C2 (amended): compaction writes the folded snapshot without running
    the validator.  When the folded snapshot passes the validator and its
    version is a number that JSON text can hold (a finite one:
    [JSON.stringify] writes an infinite number as [null]), the snapshot
    that compaction writes passes the validator when it is read back; and
    when the finalization step throws, the snapshot file is not written at
    all. *)
Theorem compaction_preserves_validity (now : string) (w : world) (base F : value) :
  now <> "" ->
  compaction_base now w = Normal base ->
  fst (applyDeltasToMetadata now base w) = Normal F ->
  passes_validation F = true ->
  json_clean (get F "version") ->
  (exists P,
     finalize_compaction now F = Normal P
     /\ metadata_json (snd (compactDeltas now w)) = Some (JsonText P)
     /\ passes_validation (json_roundtrip P) = true)
  \/ ((exists e, finalize_compaction now F = Throws e)
      /\ metadata_json (snd (compactDeltas now w)) = metadata_json w).
Proof.
  intros Hnow Hb Hf Hv Hfin. apply passes_validation_valid in Hv.
  destruct (finalize_compaction now F) as [P|e|] eqn:HP.
  - left. exists P. split; [reflexivity|].
    destruct (compactDeltas_writes now w base F P Hb Hf HP) as (w' & -> & Hm & _).
    split; [exact Hm|].
    apply valid_passes_validation.
    eapply finalize_compaction_keeps_valid; eassumption.
  - right. split; [eauto|].
    eapply compactDeltas_finalize_throws; eassumption.
  - exfalso. eapply finalize_compaction_not_exotic; eassumption.
Qed.

Lemma compaction_preserves_validity_witness :
  let now := "2026-01-18T11:00:00.000Z" in
  (exists P,
     finalize_compaction now pending_folded = Normal P
     /\ metadata_json (snd (compactDeltas now pending_world)) = Some (JsonText P)
     /\ passes_validation (json_roundtrip P) = true)
  \/ ((exists e, finalize_compaction now pending_folded = Throws e)
      /\ metadata_json (snd (compactDeltas now pending_world))
         = metadata_json pending_world).
Proof.
  apply (compaction_preserves_validity "2026-01-18T11:00:00.000Z" pending_world
           sample_snapshot pending_folded).
  - discriminate.
  - reflexivity.
  - vm_compute. reflexivity.
  - vm_compute. reflexivity.
  - reflexivity.
Defined.

(** C1 (amended): with a snapshot file that holds an object (so that no
    default snapshot is built on the way), no compressed snapshot file, and
    a folded snapshot that passes the validator with a version that JSON
    text can hold, the load after compaction returns the snapshot the load
    before compaction returned, finalized and serialized: [lastUpdated] is
    the compaction time, [essential.sessionCount] is
    [(sessionCount || 0) + 1], every other field is the same. *)
Theorem compaction_then_load (now later : string) (w : world) (b F P : value) :
  now <> "" ->
  metadata_gz w = None ->
  metadata_json w = Some (JsonText b) ->
  container (json_roundtrip b) = true ->
  fst (applyDeltasToMetadata now (json_roundtrip b) w) = Normal F ->
  passes_validation F = true ->
  json_clean (get F "version") ->
  finalize_compaction now F = Normal P ->
  fst (initialize_metadata now w) = Normal F
  /\ fst (initialize_metadata later (snd (compactDeltas now w)))
     = Normal (json_roundtrip P)
  /\ get P "lastUpdated" = VStr now
  /\ js_add (js_or (get (get F "essential") "sessionCount") (VNum 0)) (VNum 1)
     = Normal (get (get P "essential") "sessionCount")
  /\ (forall k, k = "lastUpdated" \/ k = "essential" \/ get P k = get F k)
  /\ (forall k, k = "sessionCount"
                \/ get (get P "essential") k = get (get F "essential") k).
Proof.
  intros Hnow Hgz Hj _ Hf Hv Hfin HP.
  assert (Hb : compaction_base now w = Normal (json_roundtrip b))
    by (unfold compaction_base; rewrite Hj; reflexivity).
  pose proof (passes_validation_valid F Hv) as HF.
  split; [eapply initialize_metadata_valid; eassumption|].
  destruct (compactDeltas_writes now w _ F P Hb Hf HP) as (w' & -> & Hm & Hg & Hd).
  cbn [snd]. rewrite Hgz in Hg.
  split.
  { apply (initialize_metadata_valid later w' P (json_roundtrip P) Hg Hm).
    - rewrite applyDeltasToMetadata_no_journal by assumption. reflexivity.
    - apply valid_passes_validation.
      eapply finalize_compaction_keeps_valid; eassumption. }
  destruct (finalize_compaction_valid now F P HF HP)
    as (ps & es & count & -> & He & Hc & ->).
  rewrite He, get_assign_same, get_assign_same.
  split; [rewrite get_assign_other by discriminate; apply get_assign_same|].
  split; [exact Hc|].
  split.
  - intros k.
    destruct (String.eqb_spec "lastUpdated" k) as [<-|H1]; [auto|].
    destruct (String.eqb_spec "essential" k) as [<-|H2]; [auto|].
    right. right. rewrite !get_assign_other by assumption. reflexivity.
  - intros k.
    destruct (String.eqb_spec "sessionCount" k) as [<-|H1]; [auto|].
    right. apply get_assign_other. assumption.
Qed.

Lemma compaction_then_load_witness :
  fst (initialize_metadata "2026-01-18T11:00:00.000Z" pending_world)
  = Normal pending_folded
  /\ fst (initialize_metadata "2026-01-18T12:00:00.000Z"
            (snd (compactDeltas "2026-01-18T11:00:00.000Z" pending_world)))
     = Normal (json_roundtrip pending_compacted)
  /\ get pending_compacted "lastUpdated" = VStr "2026-01-18T11:00:00.000Z"
  /\ js_add (js_or (get (get pending_folded "essential") "sessionCount") (VNum 0))
            (VNum 1)
     = Normal (get (get pending_compacted "essential") "sessionCount")
  /\ (forall k, k = "lastUpdated" \/ k = "essential"
                \/ get pending_compacted k = get pending_folded k)
  /\ (forall k, k = "sessionCount"
                \/ get (get pending_compacted "essential") k
                   = get (get pending_folded "essential") k).
Proof.
  apply (compaction_then_load "2026-01-18T11:00:00.000Z" "2026-01-18T12:00:00.000Z"
           pending_world sample_snapshot pending_folded pending_compacted).
  - discriminate.
  - reflexivity.
  - reflexivity.
  - reflexivity.
  - vm_compute. reflexivity.
  - vm_compute. reflexivity.
  - reflexivity.
  - vm_compute. reflexivity.
Defined.

(** ** The compaction check *)

Lemma compactDeltas_never_throws now w e : fst (compactDeltas now w) <> Throws e.
Proof.
  rewrite compactDeltas_cases.
  destruct (compaction_base now w) as [base| |]; try discriminate.
  destruct (applyDeltasToMetadata now base w) as [[F| |] w1]; try discriminate.
  destruct (finalize_compaction now F); try discriminate.
  destruct (deltas_jsonl w1); discriminate.
Qed.

(** [saveDelta] with a string operation and field: the append, the console
    line, and compaction when the journal then has 50 lines or more. *)
Lemma save_threshold (u : update) (w : world) :
  save u w =
  if (50 <=? S (length (journal w)))%nat
  then compactDeltas (u_now u) (add_line "Compacting deltas..." (record_delta u w))
  else (Normal tt, record_delta u w).
Proof.
  unfold save, saveDelta, try_catch. unfold bind at 1. cbn [append_delta].
  unfold bind at 1. cbn [to_str log].
  change (add_line ("Delta saved: " +:+ u_op u +:+ " " +:+ u_field u) _)
    with (record_delta u w).
  unfold checkAndCompactDeltas. unfold bind at 1. cbn [read_world read_state].
  assert (Hj : deltas_jsonl (record_delta u w)
               = Some (journal w ++
                       [JsonText (VObj [("timestamp", VStr (u_now u));
                                        ("op", VStr (u_op u));
                                        ("field", VStr (u_field u));
                                        ("value", u_value u)])]))
    by reflexivity.
  rewrite Hj. unfold try_catch.
  destruct (journal w ++ _) as [|line rest] eqn:E.
  { apply app_eq_nil in E as [_ E]. discriminate. }
  rewrite <- E, length_app. cbn [length].
  replace (length (journal w) + 1)%nat with (S (length (journal w))) by lia.
  destruct (50 <=? S (length (journal w)))%nat; [|reflexivity].
  unfold bind at 1. cbn [log].
  pose proof (compactDeltas_never_throws (u_now u)
                (add_line "Compacting deltas..." (record_delta u w))) as Hn.
  destruct (compactDeltas (u_now u) _) as [[[]|e|] w']; cbn in *;
    try reflexivity.
  exfalso. eapply Hn. reflexivity.
Qed.

Lemma journal_record_delta u w :
  length (journal (record_delta u w)) = S (length (journal w)).
Proof. unfold journal, record_delta. cbn. rewrite length_app. cbn. lia. Qed.

Lemma record_deltas_journal us : forall w,
  length (journal (record_deltas us w)) = (length (journal w) + length us)%nat.
Proof.
  induction us as [|u us IH]; intros w; cbn; [lia|].
  unfold record_deltas in IH. rewrite IH, journal_record_delta. lia.
Qed.

Lemma record_deltas_files us : forall w,
  metadata_json (record_deltas us w) = metadata_json w
  /\ metadata_gz (record_deltas us w) = metadata_gz w
  /\ console (record_deltas us w)
     = console w ++
       map (fun u => "Delta saved: " +:+ u_op u +:+ " " +:+ u_field u) us.
Proof.
  induction us as [|u us IH]; intros w; cbn.
  - rewrite app_nil_r. auto.
  - unfold record_deltas in IH. destruct (IH (record_delta u w)) as (-> & -> & ->).
    cbn. rewrite <- app_assoc. auto.
Qed.

(** Below the threshold a run of updates only appends. *)
Lemma saveDeltas_below_threshold us : forall w,
  (length (journal w) + length us < 50)%nat ->
  saveDeltas us w = (Normal tt, record_deltas us w).
Proof.
  induction us as [|u us IH]; intros w Hlen; cbn [saveDeltas]; [reflexivity|].
  cbn [length] in Hlen. unfold bind. rewrite save_threshold.
  destruct (Nat.leb_spec 50 (S (length (journal w)))); [lia|].
  rewrite IH by (rewrite journal_record_delta; lia). reflexivity.
Qed.

(** C9: [saveDelta] checks the journal after its append and runs
    compaction, before it returns, exactly when the journal then has 50
    lines or more.  From a journal that forty-nine updates bring to 49
    lines, those updates only append; the next update, the 50th line, runs
    compaction. *)
Theorem compaction_threshold (us : list update) (u : update) (w : world) :
  (length (journal w) + length us = 49)%nat ->
  (forall u' w',
     save u' w' =
     if (50 <=? S (length (journal w')))%nat
     then compactDeltas (u_now u')
            (add_line "Compacting deltas..." (record_delta u' w'))
     else (Normal tt, record_delta u' w'))
  /\ saveDeltas us w = (Normal tt, record_deltas us w)
  /\ length (journal (record_deltas us w)) = 49%nat
  /\ metadata_json (record_deltas us w) = metadata_json w
  /\ console (record_deltas us w)
     = console w ++
       map (fun u => "Delta saved: " +:+ u_op u +:+ " " +:+ u_field u) us
  /\ save u (record_deltas us w)
     = compactDeltas (u_now u)
         (add_line "Compacting deltas..." (record_delta u (record_deltas us w))).
Proof.
  intros Hlen. split; [intros; apply save_threshold|].
  split; [apply saveDeltas_below_threshold; lia|].
  assert (H49 : length (journal (record_deltas us w)) = 49%nat)
    by (rewrite record_deltas_journal; exact Hlen).
  split; [exact H49|].
  destruct (record_deltas_files us w) as (Hm & _ & Hc).
  split; [exact Hm|]. split; [exact Hc|].
  rewrite save_threshold, H49. reflexivity.
Qed.

Lemma compaction_threshold_witness :
  let us := repeat count_update 49 in
  let w := fresh_world in
  (forall u' w',
     save u' w' =
     if (50 <=? S (length (journal w')))%nat
     then compactDeltas (u_now u')
            (add_line "Compacting deltas..." (record_delta u' w'))
     else (Normal tt, record_delta u' w'))
  /\ saveDeltas us w = (Normal tt, record_deltas us w)
  /\ length (journal (record_deltas us w)) = 49%nat
  /\ metadata_json (record_deltas us w) = metadata_json w
  /\ console (record_deltas us w)
     = console w ++
       map (fun u => "Delta saved: " +:+ u_op u +:+ " " +:+ u_field u) us
  /\ save count_update (record_deltas us w)
     = compactDeltas (u_now count_update)
         (add_line "Compacting deltas..."
            (record_delta count_update (record_deltas us w))).
Proof.
  apply (compaction_threshold (repeat count_update 49) count_update fresh_world).
  reflexivity.
Defined.

(** ** The store: what the replay can reach *)

(** On the sample snapshot the replay on the store builds the document
    that the replay on contents returns. *)
Lemma store_replay_matches_contents :
  let now := "2026-01-18T11:00:00.000Z" in
  let h := fst (Store.alloc_tree sample_snapshot [Store.Arr []]) in
  let run := Store.applyDeltasToMetadata 0%nat now (Some [JsonText set_session_delta])
               (Store.Ref 3%nat) h in
  exists r folded,
    fst run = Normal r
    /\ Store.read_tree 8 (snd run) r = Some folded
    /\ fst (applyDeltasToMetadata now sample_snapshot pending_world) = Normal folded.
Proof.
  cbv zeta. do 2 eexists. split; [vm_compute; reflexivity|].
  split; vm_compute; reflexivity.
Qed.

Module StoreFacts.
Import Store.

(** What [JSON.stringify] reads behind a reference is an array or an
    object, and so is its copy. *)
Lemma read_tree_ref fuel h l t :
  read_tree fuel h (Ref l) = Some t -> container t = true.
Proof.
  destruct fuel as [|fuel]; cbn; [discriminate|].
  destruct (h !! l) as [[ps|rs]|]; cbn; try discriminate.
  - destruct (mapM _ ps); cbn; [intros [= <-]; reflexivity|discriminate].
  - destruct (mapM _ rs); cbn; [intros [= <-]; reflexivity|discriminate].
Qed.

Lemma alloc_tree_container t h :
  container t = true ->
  exists l, snd (alloc_tree (json_roundtrip t) h) = Ref l.
Proof.
  destruct t; try discriminate; intros _; cbn.
  - destruct (alloc_list _ _ _). cbn. eauto.
  - destruct (alloc_props _ _ _). cbn. eauto.
Qed.

Section Frame.

(** The store before the replay. *)
Variable h0 : heap.

Local Abbreviation fresh_r := (Store.fresh_r h0).
Local Abbreviation fresh_cell := (Store.fresh_cell h0).
Local Abbreviation extends := (Store.extends h0).
Local Abbreviation keeps := (Store.keeps h0).

Lemma extends_refl : extends h0.
Proof. exists []. rewrite app_nil_r. auto. Qed.

Lemma extends_length h : extends h -> (length h0 <= length h)%nat.
Proof. intros (ext & -> & _). rewrite length_app. lia. Qed.

Lemma extends_alloc h c : extends h -> fresh_cell c -> extends (h ++ [c]).
Proof.
  intros (ext & -> & Hf) Hc. exists (ext ++ [c]). rewrite app_assoc.
  split; [reflexivity|]. apply Forall_app. auto.
Qed.

Lemma extends_lookup h l c :
  extends h -> (length h0 <= l)%nat -> h !! l = Some c -> fresh_cell c.
Proof.
  intros (ext & -> & Hf) Hl Hc. rewrite lookup_app_r in Hc by assumption.
  eapply Forall_lookup_1; eassumption.
Qed.

Lemma extends_insert h l c :
  extends h -> (length h0 <= l)%nat -> fresh_cell c -> extends (<[l := c]> h).
Proof.
  intros (ext & -> & Hf) Hl Hc. exists (<[(l - length h0)%nat := c]> ext).
  split; [apply insert_app_r_alt; assumption|].
  apply Forall_insert; assumption.
Qed.

Lemma keeps_ret {A} (Q : A -> Prop) a : Q a -> keeps Q (ret a).
Proof. intros Ha h Hh. cbn. split; [assumption|]. intros a' [= <-]. assumption. Qed.

Lemma keeps_throw {A} (Q : A -> Prop) e : keeps Q (throw e).
Proof. intros h Hh. cbn. split; [assumption|]. discriminate. Qed.

Lemma keeps_lift {A} (Q : A -> Prop) (o : outcome A) :
  (forall a, o = Normal a -> Q a) -> keeps Q (lift o).
Proof. intros Ho h Hh. cbn. auto. Qed.

Lemma keeps_bind {A B} (P : A -> Prop) (Q : B -> Prop) m (f : A -> St heap B) :
  keeps P m -> (forall a, P a -> keeps Q (f a)) -> keeps Q (bind m f).
Proof.
  intros Hm Hf h Hh. unfold bind. destruct (Hm h Hh) as [H1 H2].
  destruct (m h) as [[a|e|] h1]; cbn in *.
  - apply Hf; auto.
  - split; [assumption|discriminate].
  - split; [assumption|discriminate].
Qed.

Lemma keeps_try_catch {A} (Q : A -> Prop) (body handler : St heap A) :
  keeps Q body -> keeps Q handler -> keeps Q (try_catch body handler).
Proof.
  intros Hb Hc h Hh. unfold try_catch. destruct (Hb h Hh) as [H1 H2].
  destruct (body h) as [[a|e|] h1]; cbn in *.
  - auto.
  - apply Hc. assumption.
  - split; [assumption|discriminate].
Qed.

Lemma keeps_weaken {A} (P Q : A -> Prop) m :
  keeps P m -> (forall a, P a -> Q a) -> keeps Q m.
Proof. intros Hm HPQ h Hh. destruct (Hm h Hh). split; auto. Qed.

(** Reading the store gives a store that extends the old one. *)
Lemma keeps_read_state : keeps extends read_state.
Proof. intros h Hh. cbn. split; [assumption|]. intros a [= <-]. assumption. Qed.

Lemma keeps_alloc c : fresh_cell c -> keeps (fun l => (length h0 <= l)%nat) (alloc c).
Proof.
  intros Hc h Hh. cbn. split; [apply extends_alloc; assumption|].
  intros a [= <-]. apply extends_length. assumption.
Qed.

(** The objects of a parsed document are new. *)
Lemma alloc_tree_extends v : forall h,
  extends h -> extends (fst (alloc_tree v h)) /\ fresh_r (snd (alloc_tree v h)).
Proof.
  induction v as [| | | | |l IH|ps IH] using value_ind; intros h Hh;
    cbn [alloc_tree]; try (cbn; auto; fail).
  - assert (Hl : extends (fst (alloc_list alloc_tree l h))
                 /\ Forall fresh_r (snd (alloc_list alloc_tree l h))).
    { revert h Hh. induction IH as [|x l Hx _ IHl]; intros h Hh; cbn; [auto|].
      destruct (Hx h Hh) as [H1 H2]. destruct (alloc_tree x h) as [h1 r].
      destruct (IHl h1 H1) as [H3 H4]. destruct (alloc_list alloc_tree l h1) as [h2 rs].
      cbn in *. auto. }
    destruct (alloc_list alloc_tree l h) as [h' rs]. destruct Hl as [H1 H2]. cbn in *.
    split; [apply extends_alloc; assumption|apply extends_length; assumption].
  - assert (Hl : extends (fst (alloc_props alloc_tree ps h))
                 /\ Forall (fun kv => fresh_r (snd kv))
                      (snd (alloc_props alloc_tree ps h))).
    { revert h Hh. induction IH as [|[k x] ps Hx _ IHps]; intros h Hh; cbn; [auto|].
      cbn [snd] in Hx. destruct (Hx h Hh) as [H1 H2]. destruct (alloc_tree x h) as [h1 r].
      destruct (IHps h1 H1) as [H3 H4]. destruct (alloc_props alloc_tree ps h1) as [h2 rs].
      cbn in *. auto. }
    destruct (alloc_props alloc_tree ps h) as [h' rs]. destruct Hl as [H1 H2]. cbn in *.
    split; [apply extends_alloc; assumption|apply extends_length; assumption].
Qed.

Lemma keeps_place v : keeps fresh_r (place v).
Proof.
  intros h Hh. unfold place. destruct (alloc_tree_extends v h Hh) as [H1 H2].
  destruct (alloc_tree v h) as [h' r]. cbn in *. split; [assumption|].
  intros a [= <-]. assumption.
Qed.

Lemma fresh_assign k r ps :
  fresh_r r -> Forall (fun kv : string * rval => fresh_r (snd kv)) ps ->
  Forall (fun kv : string * rval => fresh_r (snd kv)) (assign_prop k r ps).
Proof.
  intros Hr Hps. induction Hps as [|[k' r'] ps Hk Hps IH]; cbn.
  - constructor; [assumption|constructor].
  - destruct (String.eqb k' k); constructor; assumption.
Qed.

Lemma fresh_remove k ps :
  Forall (fun kv : string * rval => fresh_r (snd kv)) ps ->
  Forall (fun kv : string * rval => fresh_r (snd kv)) (remove_prop k ps).
Proof.
  intros Hps. induction Hps as [|[k' r'] ps Hk Hps IH]; cbn; [constructor|].
  destruct (String.eqb k' k); [assumption|constructor; assumption].
Qed.

Lemma fresh_store_index i r rs :
  fresh_r r -> Forall fresh_r rs -> Forall fresh_r (store_index (Prim PUndef) i r rs).
Proof.
  intros Hr Hrs. unfold store_index. destruct (i <? length rs)%nat.
  - apply Forall_insert; assumption.
  - apply Forall_app. split; [assumption|]. apply Forall_app. split.
    + apply Forall_replicate. exact I.
    + constructor; [assumption|constructor].
Qed.

Lemma keeps_hput t k r :
  (length h0 <= t)%nat -> fresh_r r -> keeps (fun _ => True) (hput t k r).
Proof.
  intros Ht Hr h Hh. unfold hput.
  destruct (h !! t) as [[ps|rs]|] eqn:E; cbn.
  - pose proof (extends_lookup h t _ Hh Ht E) as Hc.
    split; [|auto]. apply extends_insert; auto. apply fresh_assign; assumption.
  - pose proof (extends_lookup h t _ Hh Ht E) as Hc.
    destruct (array_index k); cbn; split; auto.
    apply extends_insert; auto. apply fresh_store_index; assumption.
  - auto.
Qed.

Lemma keeps_hdel t k : (length h0 <= t)%nat -> keeps (fun _ => True) (hdel t k).
Proof.
  intros Ht h Hh. unfold hdel.
  destruct (h !! t) as [[ps|rs]|] eqn:E; cbn.
  - pose proof (extends_lookup h t _ Hh Ht E) as Hc.
    split; [|auto]. apply extends_insert; auto. apply fresh_remove; assumption.
  - pose proof (extends_lookup h t _ Hh Ht E) as Hc.
    destruct (array_index k); cbn.
    + split; [|auto].
      match goal with |- context [if ?b then _ else _] => destruct b end;
        [|assumption].
      apply extends_insert; auto. apply Forall_insert; [assumption|exact I].
    + destruct (String.eqb k "length"); cbn; auto.
  - auto.
Qed.

Lemma keeps_push a r :
  (length h0 <= a)%nat -> fresh_r r -> keeps (fun _ => True) (push a r).
Proof.
  intros Ha Hr h Hh. unfold push.
  destruct (h !! a) as [[ps|rs]|] eqn:E; cbn; auto.
  pose proof (extends_lookup h a _ Hh Ha E) as Hc.
  split; [|auto]. apply extends_insert; auto.
  apply Forall_app. split; [assumption|]. constructor; [assumption|constructor].
Qed.

(** A new object refers to new objects. *)
Lemma hget_fresh h t k :
  extends h -> (length h0 <= t)%nat -> fresh_r (hget h t k).
Proof.
  intros Hh Ht. unfold hget. destruct (h !! t) as [[ps|rs]|] eqn:E; [| |exact I].
  - pose proof (extends_lookup h t _ Hh Ht E) as Hc. cbn in Hc. clear E.
    induction Hc as [|[k' r'] ps Hk _ IH]; cbn; [exact I|].
    destruct (String.eqb k' k); [exact Hk|exact IH].
  - pose proof (extends_lookup h t _ Hh Ht E) as Hc. cbn in Hc.
    destruct (array_index k) as [i|].
    + destruct (rs !! i) as [r|] eqn:Ei; cbn; [|exact I].
      eapply Forall_lookup_1; eassumption.
    + destruct (String.eqb k "length"); exact I.
Qed.


Variable default_projects : loc.

Lemma keeps_navigate keys : forall target,
  (length h0 <= target)%nat ->
  keeps (fun l => (length h0 <= l)%nat) (navigate target keys).
Proof.
  induction keys as [|key keys IH]; intros target Ht; cbn [navigate].
  - apply keeps_ret. assumption.
  - destruct (String.eqb key "__proto__"); [apply keeps_lift; discriminate|].
    apply (keeps_bind extends); [apply keeps_read_state|].
    intros h Hh. pose proof (hget_fresh h target key Hh Ht) as Hc.
    destruct (hget h target key) as [p|child]; [|apply IH; exact Hc].
    apply (keeps_bind (fun l => (length h0 <= l)%nat));
      [apply keeps_alloc; constructor|].
    intros child Hchild.
    apply (keeps_bind (fun _ => True)); [apply keeps_hput; assumption|].
    intros _ _. apply IH. assumption.
Qed.

Lemma keeps_place_hput target lastKey v :
  (length h0 <= target)%nat ->
  keeps (fun _ : unit => True) (do r <- place v; hput target lastKey r).
Proof.
  intros Ht. apply (keeps_bind fresh_r); [apply keeps_place|].
  intros r Hr. apply keeps_hput; assumption.
Qed.

Lemma keeps_apply_op target lastKey op v :
  (length h0 <= target)%nat ->
  keeps (fun _ => True) (apply_op target lastKey op v).
Proof.
  intros Ht. unfold apply_op.
  destruct op; try (apply keeps_ret; exact I).
  destruct (known_op (VStr s) && String.eqb lastKey "__proto__");
    [apply keeps_lift; discriminate|].
  destruct (String.eqb s "set"); [apply keeps_place_hput; assumption|].
  destruct (String.eqb s "add").
  - apply (keeps_bind extends); [apply keeps_read_state|].
    intros h Hh. pose proof (hget_fresh h target lastKey Hh Ht) as Hc.
    destruct (hget h target lastKey) as [p|a].
    + destruct p; try (apply keeps_place_hput; assumption);
        (apply (keeps_bind (fun _ => True)); [apply keeps_lift; auto|]);
        intros sum _; apply keeps_place_hput; assumption.
    + destruct (h !! a) as [[ps|rs]|]; try (apply keeps_place_hput; assumption).
      apply (keeps_bind fresh_r); [apply keeps_place|].
      intros r Hr. apply keeps_push; assumption.
  - destruct (String.eqb s "remove"); [apply keeps_hdel; assumption|].
    apply keeps_ret. exact I.
Qed.

(** On a new object the applier works on new objects only, and returns
    the object it was given. *)
Lemma keeps_applySingleDelta now b delta :
  (length h0 <= b)%nat ->
  keeps (fun r => r = Ref b) (applySingleDelta default_projects now (Ref b) delta).
Proof.
  intros Hb. unfold applySingleDelta.
  apply (keeps_bind (fun l => l = b)); [apply keeps_ret; reflexivity|].
  intros ? ->.
  assert (Hbody : forall field,
    keeps (fun r => r = Ref b)
      (do target <- navigate b (removelast (tail (split_dot field)));
       do _ <- apply_op target (List.last (split_dot field) "")
                 (get delta "op") (get delta "value");
       ret (Ref b))).
  { intros field.
    apply (keeps_bind (fun l => (length h0 <= l)%nat));
      [apply keeps_navigate; assumption|].
    intros target Ht.
    apply (keeps_bind (fun _ => True)); [apply keeps_apply_op; assumption|].
    intros _ _. apply keeps_ret. reflexivity. }
  destruct delta; try apply keeps_throw;
    destruct (get _ "field"); try apply keeps_throw; apply Hbody.
Qed.

Lemma keeps_replay now lines : forall b,
  (length h0 <= b)%nat ->
  keeps (fun _ => True) (replay default_projects now (Ref b) lines).
Proof.
  induction lines as [|[d|] rest IH]; intros b Hb; cbn [replay].
  - apply keeps_ret. exact I.
  - apply (keeps_bind (fun r => r = Ref b));
      [apply keeps_applySingleDelta; assumption|].
    intros ? ->. apply IH. assumption.
  - apply keeps_throw.
Qed.

Lemma keeps_deep_copy b :
  keeps (fun r => exists l, r = Ref l /\ (length h0 <= l)%nat) (deep_copy (Ref b)).
Proof.
  unfold deep_copy. apply (keeps_bind extends); [apply keeps_read_state|].
  intros h Hh.
  destruct (read_tree (S (length h)) h (Ref b)) as [t|] eqn:E; [|apply keeps_throw].
  intros h' Hh'. unfold place.
  destruct (alloc_tree_extends (json_roundtrip t) h' Hh') as [H1 H2].
  destruct (alloc_tree_container t h' (read_tree_ref _ _ _ _ E)) as [l Hl].
  destruct (alloc_tree (json_roundtrip t) h') as [h'' r]. cbn in *. subst r.
  split; [assumption|]. intros a [= <-]. eauto.
Qed.

(** The whole fold on a base that is an object: the old store is intact
    whatever the fold did. *)
Lemma keeps_applyDeltasToMetadata now deltas b :
  keeps (fun _ => True)
    (applyDeltasToMetadata default_projects now deltas (Ref b)).
Proof.
  unfold applyDeltasToMetadata.
  destruct deltas as [lines|]; [|apply keeps_ret; exact I].
  apply keeps_try_catch; [|apply keeps_ret; exact I].
  destruct lines as [|line rest]; [apply keeps_ret; exact I|].
  cbn [truthy_r].
  apply (keeps_bind (fun r => exists l, r = Ref l /\ (length h0 <= l)%nat));
    [apply keeps_deep_copy|].
  intros r (l & -> & Hl). cbn [truthy_r negb].
  apply (keeps_bind (fun r => r = Ref l)); [apply keeps_ret; reflexivity|].
  intros ? ->. apply keeps_replay. assumption.
Qed.

End Frame.

Lemma mapM_same {A B} (f g : A -> option B) (l : list A) :
  Forall (fun x => f x = g x) l -> mapM f l = mapM g l.
Proof.
  induction 1 as [|x l Hx _ IH]; cbn; [reflexivity|]. rewrite Hx, IH. reflexivity.
Qed.

(** New objects do not change what is read from an old one. *)
Lemma read_tree_app (h fresh : heap) :
  closed h ->
  forall fuel r, bounded_r (length h) r ->
    read_tree fuel (h ++ fresh) r = read_tree fuel h r.
Proof.
  intros Hc. induction fuel as [|fuel IH]; intros [p|l] Hr; cbn; try reflexivity.
  cbn in Hr. rewrite lookup_app_l by assumption.
  destruct (h !! l) as [[ps|rs]|] eqn:E; [| |reflexivity].
  - pose proof (Forall_lookup_1 _ _ _ _ Hc E) as Hb. cbn in Hb.
    f_equal. apply mapM_same. eapply Forall_impl; [exact Hb|].
    intros kv Hkv. cbn. rewrite IH by assumption. reflexivity.
  - pose proof (Forall_lookup_1 _ _ _ _ Hc E) as Hb. cbn in Hb.
    f_equal. apply mapM_same. eapply Forall_impl; [exact Hb|].
    intros x Hx. apply IH. assumption.
Qed.

(** C10: with no snapshot to start from ([null], as [loadMetadata] returns
    when no snapshot file can be read) and a journal whose second line is
    not JSON, the fold returns the [null] it was given, but the delta before
    the bad line stays applied: it was run on a default snapshot, whose
    [essential.projects] is the one array [DEFAULT_ESSENTIAL.projects], here
    at location 0.  The array holds the project afterwards, and so does
    every default snapshot built from then on. *)
Theorem replay_failure_leaks_into_default :
  let h := [Arr []] in
  let lines := [JsonText add_project_delta; OtherText] in
  let run := applyDeltasToMetadata 0%nat "2026-01-18T11:00:00.000Z" (Some lines)
               (Prim PNull) h in
  fst run = Normal (Prim PNull)
  /\ h !! 0%nat = Some (Arr [])
  /\ snd run !! 0%nat = Some (Arr [Prim (PStr "iron-tracker")])
  /\ exists fresh snapshot,
       fst (createDefaultMetadata 0%nat "2026-01-18T11:00:01.000Z" (snd run))
       = Normal fresh
       /\ read_tree 3 (snd (createDefaultMetadata 0%nat "2026-01-18T11:00:01.000Z"
                              (snd run)))
            (Ref fresh)
          = Some snapshot
       /\ get (get snapshot "essential") "projects" = VArr [VStr "iron-tracker"].
Proof.
  cbv zeta. split; [vm_compute; reflexivity|].
  split; [reflexivity|]. split; [vm_compute; reflexivity|].
  do 2 eexists. split; [vm_compute; reflexivity|].
  split; vm_compute; reflexivity.
Qed.

End StoreFacts.

(** * Further properties *)

(** ** The validator, its console and its results *)

Lemma log_all_lines (ls : list string) : forall w,
  log_all ls w
  = (Normal tt,
     mkWorld (metadata_json w) (metadata_gz w) (deltas_jsonl w) (console w ++ ls)).
Proof.
  induction ls as [|l ls IH]; intros w; cbn [log_all].
  - unfold ret. rewrite app_nil_r. destruct w; reflexivity.
  - unfold bind. cbn [log]. rewrite IH. cbn. rewrite <- app_assoc. reflexivity.
Qed.

(** [validateMetadata] by cases: the value and the console lines. *)
Lemma validateMetadata_cases (now : string) (d : value) (w : world) :
  validateMetadata now d w =
  if negb (truthy d) then
    (Normal (createDefaultMetadata now), add_line "No metadata found, creating new" w)
  else if passes_validation d then
    (Normal d, add_line "Metadata validated successfully" w)
  else
    (Normal (repairMetadata now d),
     mkWorld (metadata_json w) (metadata_gz w) (deltas_jsonl w)
       (console w ++ "Metadata validation failed:"
          :: map (fun e => "   - " +:+ e) (validation_errors d)
          ++ ["Auto-repairing metadata..."; "Metadata repaired"])).
Proof.
  unfold validateMetadata, passes_validation.
  destruct (truthy d); cbn [negb andb]; [|reflexivity].
  destruct (validation_errors d) as [|e es] eqn:E.
  - reflexivity.
  - rewrite bool_decide_eq_false_2 by discriminate.
    cbn [length Nat.ltb Nat.leb].
    unfold bind at 1. cbn [log]. unfold bind at 1. rewrite log_all_lines.
    unfold bind at 1. cbn [log]. unfold repairMetadata_logged, bind. cbn [log ret].
    unfold add_line. cbn [metadata_json metadata_gz deltas_jsonl console].
    rewrite <- !app_assoc. reflexivity.
Qed.

(** X1: [validateMetadata] returns its argument as it is, with the console
    line 'Metadata validated successfully', exactly for the documents of
    [valid_snapshot]: an object whose version is a number other than 0 and
    NaN, whose lastUpdated is a non-empty string, and whose essential is an
    object with non-empty strings lastSession and stack and an array
    projects.  Nothing else is checked: sessionCount, sessionHistory and
    every other key are free. *)
Theorem validateMetadata_accepts_exactly (now : string) (d : value) (w : world) :
  validateMetadata now d w = (Normal d, add_line "Metadata validated successfully" w)
  <-> valid_snapshot d.
Proof.
  rewrite validateMetadata_cases. split.
  - destruct (truthy d) eqn:Ht; cbn [negb].
    + destruct (passes_validation d) eqn:Hp.
      * intros _. apply passes_validation_valid. assumption.
      * intros H. injection H as _ H. apply app_inv_head in H. discriminate.
    + intros H. injection H as _ H. apply app_inv_head in H. discriminate.
  - intros Hv. pose proof (valid_passes_validation d Hv) as Hp. rewrite Hp.
    unfold passes_validation in Hp. apply andb_true_iff in Hp as [-> _].
    reflexivity.
Qed.

(** A repaired document is an object whose essential section is complete. *)
Lemma repaired_shape_clock (now later : string) (r : value) :
  now <> "" -> repaired_shape now r -> repaired_shape later r.
Proof.
  intros Hnow (V & L & A & B & p & N & hist & -> & HV & HL & HA & HB & HN & Hh).
  exists V, L, A, B, p, N, hist. repeat split; auto.
  left. destruct HL as [HL| ->]; [assumption|].
  cbn. destruct (String.eqb_spec now ""); [contradiction|reflexivity].
Qed.

Lemma createDefaultMetadata_shape (now : string) :
  repaired_shape now (createDefaultMetadata now).
Proof.
  exists (VNum SCHEMA_VERSION), (VStr now), (VStr "Unknown"),
    (VStr "Node.js + npm + Vite + TypeScript + TanStack"), [], (VNum 0), [].
  repeat split; auto.
Qed.

(** What [validateMetadata] returns is valid or has the repaired shape. *)
Lemma validateMetadata_result (now : string) (d : value) (w : world) :
  exists r, fst (validateMetadata now d w) = Normal r
            /\ (valid_snapshot r \/ repaired_shape now r).
Proof.
  rewrite validateMetadata_cases.
  destruct (truthy d); cbn [negb].
  - destruct (passes_validation d) eqn:Hp; eexists; (split; [reflexivity|]).
    + left. apply passes_validation_valid. assumption.
    + right. apply repairMetadata_shape.
  - eexists. split; [reflexivity|]. right. apply createDefaultMetadata_shape.
Qed.

Lemma repaired_shape_truthy (now : string) (r : value) :
  repaired_shape now r -> truthy r = true.
Proof. intros (V & L & A & B & p & N & hist & -> & _). reflexivity. Qed.

(** [validateMetadata] writes console lines only, and returns a truthy
    value. *)
Lemma validateMetadata_world (now : string) (d : value) (w : world) :
  exists r ls,
    validateMetadata now d w
    = (Normal r,
       mkWorld (metadata_json w) (metadata_gz w) (deltas_jsonl w) (console w ++ ls))
    /\ truthy r = true.
Proof.
  rewrite validateMetadata_cases.
  destruct (truthy d) eqn:Ht; cbn [negb].
  - destruct (passes_validation d); do 2 eexists; (split; [reflexivity|]).
    + assumption.
    + apply (repaired_shape_truthy now). apply repairMetadata_shape.
  - do 2 eexists. split; reflexivity.
Qed.

(** X2: validating twice is validating once.  What [validateMetadata]
    returns (the document itself, a fresh default, or the repaired document)
    goes through a later [validateMetadata] as it is, also when the repaired
    document still fails the validator; the clock of the first call reads a
    non-empty time. *)
Theorem validateMetadata_idempotent (now later : string) (d : value) (w w' : world) :
  now <> "" ->
  exists r,
    fst (validateMetadata now d w) = Normal r
    /\ fst (validateMetadata later r w') = Normal r.
Proof.
  intros Hnow.
  destruct (validateMetadata_result now d w) as (r & Hr & Hshape).
  exists r. split; [assumption|].
  rewrite validateMetadata_cases.
  destruct Hshape as [Hv|Hs].
  - pose proof (valid_passes_validation r Hv) as Hp. rewrite Hp.
    unfold passes_validation in Hp. apply andb_true_iff in Hp as [-> _].
    reflexivity.
  - rewrite (repaired_shape_truthy now r Hs). cbn [negb].
    destruct (passes_validation r); [reflexivity|]. cbn [fst]. f_equal.
    apply repairMetadata_fixed. apply (repaired_shape_clock now); assumption.
Qed.

Lemma validateMetadata_idempotent_witness :
  exists r,
    fst (validateMetadata "2026-01-18T10:00:00.000Z" corrupted_test_metadata fresh_world)
    = Normal r
    /\ fst (validateMetadata "2026-01-19T10:00:00.000Z" r fresh_world) = Normal r.
Proof.
  apply (validateMetadata_idempotent "2026-01-18T10:00:00.000Z"
           "2026-01-19T10:00:00.000Z" corrupted_test_metadata fresh_world fresh_world).
  discriminate.
Defined.

(** X3: [validateMetadata] never throws, and whatever it is given it
    returns an object whose essential is an object with an array projects
    and truthy lastSession and stack, and whose version is truthy: the
    fields that the callers read without a check
    ([metadata.essential.projects.join]). *)
Theorem validateMetadata_essential_complete (now : string) (d : value) (w : world) :
  exists r ps es pr,
    fst (validateMetadata now d w) = Normal r
    /\ r = VObj ps
    /\ get r "essential" = VObj es
    /\ get (VObj es) "projects" = VArr pr
    /\ truthy (get r "version") = true
    /\ truthy (get (VObj es) "lastSession") = true
    /\ truthy (get (VObj es) "stack") = true.
Proof.
  destruct (validateMetadata_result now d w) as (r & Hr & [Hv|Hs]).
  - destruct Hv as (ps & es & n & pr & -> & Hver & Hn & Hl & He & Hls & Hst & Hpr).
    exists (VObj ps), ps, es, pr. rewrite He, Hver.
    destruct Hls as (s1 & -> & Hs1). destruct Hst as (s2 & -> & Hs2).
    repeat split; auto; cbn.
    + destruct (String.eqb_spec s1 ""); [contradiction|reflexivity].
    + destruct (String.eqb_spec s2 ""); [contradiction|reflexivity].
  - destruct Hs as (V & L & A & B & p & N & hist & -> & HV & HL & HA & HB & HN & Hh).
    do 4 eexists. split; [exact Hr|]. split; [reflexivity|].
    split; [reflexivity|]. split; [reflexivity|]. auto.
Qed.

(** ** When a repaired document is valid *)

(** The validator on a document with the repaired fields: one test per
    field. *)
Lemma passes_validation_repaired_doc (V L A B P N : value) hist :
  passes_validation (repaired_doc V L A B P N hist)
  = (truthy V && is_number V) && (truthy L && is_string L)
    && (truthy A && is_string A) && (truthy B && is_string B) && isArray P.
Proof.
  unfold passes_validation, validation_errors.
  destruct (repaired_doc_fields V L A B P N hist) as (-> & -> & -> & _).
  change (get (VObj [("lastSession", A); ("stack", B); ("projects", P);
                     ("sessionCount", N)]) "lastSession") with A.
  change (get (VObj [("lastSession", A); ("stack", B); ("projects", P);
                     ("sessionCount", N)]) "stack") with B.
  change (get (VObj [("lastSession", A); ("stack", B); ("projects", P);
                     ("sessionCount", N)]) "projects") with P.
  change (truthy (repaired_doc V L A B P N hist)) with true.
  change (is_object (repaired_doc V L A B P N hist)) with true.
  cbn [truthy is_object typeof negb orb andb]. rewrite <- !negb_andb.
  destruct (truthy V && is_number V), (truthy L && is_string L),
    (truthy A && is_string A), (truthy B && is_string B), (isArray P);
    reflexivity.
Qed.

Lemma copied_field_checked (g : bool) (x dflt : value) (check : value -> bool) :
  truthy dflt = true -> check dflt = true ->
  truthy (if g && truthy x then x else dflt) && check (if g && truthy x then x else dflt)
  = implb (g && truthy x) (check x).
Proof.
  intros Hd Hc. destruct g; cbn [andb implb]; [|rewrite Hd, Hc; reflexivity].
  destruct (truthy x) eqn:E; cbn [implb]; [rewrite E|rewrite Hd, Hc]; reflexivity.
Qed.

(** X4: the output of repair passes the validator exactly when every field
    that repair copies from the candidate on truthiness alone (version,
    lastUpdated, essential.lastSession, essential.stack) has the type the
    validator asks for. *)
Theorem repairMetadata_valid_iff (now : string) (c : value) :
  let ok := truthy c && is_object c in
  let e := get c "essential" in
  let eok := ok && (truthy e && is_object e) in
  now <> "" ->
  (passes_validation (repairMetadata now c) = true
   <-> (ok && truthy (get c "version") = true -> is_number (get c "version") = true)
       /\ (ok && truthy (get c "lastUpdated") = true
           -> is_string (get c "lastUpdated") = true)
       /\ (eok && truthy (get e "lastSession") = true
           -> is_string (get e "lastSession") = true)
       /\ (eok && truthy (get e "stack") = true -> is_string (get e "stack") = true)).
Proof.
  cbv zeta. intros Hnow.
  assert (Hn : truthy (VStr now) = true).
  { cbn. destruct (String.eqb_spec now ""); [contradiction|reflexivity]. }
  rewrite repairMetadata_closed_form. cbv zeta.
  rewrite passes_validation_repaired_doc.
  rewrite !copied_field_checked by (assumption || reflexivity).
  set (ok := truthy c && is_object c).
  set (eok := ok && (truthy (get c "essential") && is_object (get c "essential"))).
  assert (HP : isArray (if eok && isArray (get (get c "essential") "projects")
                        then get (get c "essential") "projects" else VArr []) = true).
  { destruct eok; cbn [andb]; [|reflexivity].
    destruct (isArray (get (get c "essential") "projects")) eqn:E; [exact E|reflexivity]. }
  rewrite HP, andb_true_r.
  assert (Himp : forall a b : bool, implb a b = true <-> (a = true -> b = true)).
  { intros [|] [|]; cbn; intuition discriminate. }
  rewrite <- !Himp. rewrite !andb_true_iff. tauto.
Qed.

Lemma repairMetadata_valid_iff_witness :
  passes_validation (repairMetadata "2026-01-18T10:00:00.000Z" corrupted_test_metadata)
  = true
  <-> (truthy corrupted_test_metadata && is_object corrupted_test_metadata
       && truthy (get corrupted_test_metadata "version") = true
       -> is_number (get corrupted_test_metadata "version") = true)
      /\ (truthy corrupted_test_metadata && is_object corrupted_test_metadata
          && truthy (get corrupted_test_metadata "lastUpdated") = true
          -> is_string (get corrupted_test_metadata "lastUpdated") = true)
      /\ (truthy corrupted_test_metadata && is_object corrupted_test_metadata
          && (truthy (get corrupted_test_metadata "essential")
              && is_object (get corrupted_test_metadata "essential"))
          && truthy (get (get corrupted_test_metadata "essential") "lastSession") = true
          -> is_string (get (get corrupted_test_metadata "essential") "lastSession")
             = true)
      /\ (truthy corrupted_test_metadata && is_object corrupted_test_metadata
          && (truthy (get corrupted_test_metadata "essential")
              && is_object (get corrupted_test_metadata "essential"))
          && truthy (get (get corrupted_test_metadata "essential") "stack") = true
          -> is_string (get (get corrupted_test_metadata "essential") "stack") = true).
Proof.
  apply (repairMetadata_valid_iff "2026-01-18T10:00:00.000Z" corrupted_test_metadata).
  discriminate.
Defined.

(** ** The applier: what a delta writes *)

Lemma lookup_remove_same {A} k (ps : list (string * A)) :
  lookup_prop k (remove_prop k ps) = None.
Proof.
  induction ps as [|[k' v'] ps IH]; cbn; [reflexivity|].
  destruct (String.eqb k' k) eqn:E; cbn; [exact IH|]. rewrite E. exact IH.
Qed.

Lemma lookup_remove_other {A} k k' (ps : list (string * A)) :
  k <> k' -> lookup_prop k' (remove_prop k ps) = lookup_prop k' ps.
Proof.
  intros Hne. induction ps as [|[k0 v0] ps IH]; cbn; [reflexivity|].
  destruct (String.eqb k0 k) eqn:E; cbn.
  - apply String.eqb_eq in E. subst k0.
    destruct (String.eqb k k') eqn:E'; [apply String.eqb_eq in E'; contradiction|exact IH].
  - destruct (String.eqb k0 k'); [reflexivity|exact IH].
Qed.

(** Reading what was deleted. *)
Lemma get_del_same t k t' : del t k = Normal t' -> get t' k = VUndef.
Proof.
  destruct t as [| | | | |l|ps]; cbn [del]; try discriminate;
    try (intros [= <-]; reflexivity).
  - destruct (array_index k) as [i|] eqn:E.
    + intros [= <-]. cbn [get]. rewrite E.
      destruct (Nat.ltb_spec i (length l)); cbv iota.
      * rewrite list_lookup_insert_eq by assumption. reflexivity.
      * rewrite lookup_ge_None_2 by assumption. reflexivity.
    + destruct (String.eqb k "length") eqn:El; [discriminate|].
      intros [= <-]. cbn. rewrite E, El. reflexivity.
  - intros [= <-]. cbn. rewrite lookup_remove_same. reflexivity.
Qed.

Lemma get_path_cons t k ks : get_path t (k :: ks) = get_path (get t k) ks.
Proof. reflexivity. Qed.

Lemma get_path_snoc t ks k : get_path t (ks ++ [k]) = get (get_path t ks) k.
Proof. unfold get_path. rewrite fold_left_app. reflexivity. Qed.

(** A value that the navigation loop replaces reads like the empty object
    that replaces it. *)
Lemma get_replaced child k :
  negb (truthy child) || negb (is_object child) = true -> get child k = VUndef.
Proof. destruct child; cbn; try reflexivity; discriminate. Qed.

Lemma nav_get keys : forall target lastKey,
  get (nav target keys) lastKey = get_path target (keys ++ [lastKey]).
Proof.
  induction keys as [|key keys IH]; intros target lastKey; [reflexivity|].
  cbn [nav app]. rewrite get_path_cons.
  destruct (negb (truthy (get target key)) || negb (is_object (get target key))) eqn:E;
    [|apply IH].
  rewrite IH. destruct keys as [|key' keys]; cbn [app]; rewrite !get_path_cons.
  - rewrite (get_replaced (get target key)) by assumption. reflexivity.
  - rewrite (get_replaced (get target key)) by assumption. reflexivity.
Qed.

Lemma nav_container keys : forall target,
  container target = true -> container (nav target keys) = true.
Proof.
  induction keys as [|key keys IH]; intros target Hc; cbn [nav]; [assumption|].
  destruct (negb (truthy (get target key)) || negb (is_object (get target key))) eqn:E.
  - apply IH. reflexivity.
  - apply IH. apply truthy_object_container. assumption.
Qed.

Lemma del_container t k t' : container t = true -> del t k = Normal t' -> container t' = true.
Proof.
  destruct t as [| | | | |l|ps]; try discriminate; intros _; cbn [del].
  - destruct (array_index k); [intros [= <-]; reflexivity|].
    destruct (String.eqb k "length"); [discriminate|intros [= <-]; reflexivity].
  - intros [= <-]. reflexivity.
Qed.

(** The switch leaves a property holder a property holder. *)
Lemma apply_op_container t k op v t' :
  container t = true -> apply_op t k op v = Normal t' -> container t' = true.
Proof.
  intros Hc. unfold apply_op.
  assert (Hput : forall x, put t k x = Normal t' -> container t' = true).
  { intros x Hx. destruct (put_container t k x Hc) as [(t1 & E & H1)|E];
      rewrite E in Hx; [injection Hx as <-; assumption|discriminate]. }
  destruct op; try (intros [= <-]; assumption).
  destruct (known_op (VStr s) && String.eqb k "__proto__"); [discriminate|].
  destruct (String.eqb s "set"); [apply Hput|].
  destruct (String.eqb s "add").
  - destruct (get t k) as [| | |x| |l|qs]; try apply Hput.
    destruct (js_add (VNum x) v); cbn [obind]; try discriminate. apply Hput.
  - destruct (String.eqb s "remove"); [apply del_container; assumption|].
    intros [= <-]. assumption.
Qed.

(** The navigation followed by the switch, by outcome: outside [Exotic],
    the outcome is that of the switch on the object the navigation
    arrives at. *)
Lemma apply_at_outcome keys : forall target lastKey op v,
  container target = true ->
  apply_at target keys lastKey op v = Exotic
  \/ (exists r, apply_at target keys lastKey op v = Normal r
                /\ apply_op (nav target keys) lastKey op v = Normal (get_path r keys)
                /\ container r = true)
  \/ (exists e, apply_at target keys lastKey op v = Throws e
                /\ apply_op (nav target keys) lastKey op v = Throws e).
Proof.
  induction keys as [|key keys IH]; intros target lastKey op v Hc; cbn [apply_at nav].
  - destruct (apply_op target lastKey op v) as [r|e|] eqn:E; [|eauto|auto].
    right. left. exists r. split; [reflexivity|]. split; [reflexivity|].
    eapply apply_op_container; eassumption.
  - destruct (String.eqb key "__proto__"); [auto|].
    assert (Hback : forall t1 child,
      container t1 = true -> container child = true ->
      apply_op (nav child keys) lastKey op v = apply_op (nav child keys) lastKey op v ->
      put t1 key child = Exotic
      \/ exists r, put t1 key child = Normal r /\ get r key = child
                   /\ container r = true).
    { intros t1 child H1 _ _.
      destruct (put_container t1 key child H1) as [(r & E & Hr)|E]; [right|auto].
      exists r. split; [assumption|]. split; [|assumption].
      eapply get_put_same. eassumption. }
    destruct (negb (truthy (get target key)) || negb (is_object (get target key))) eqn:Ec.
    + destruct (put_container target key (VObj []) Hc) as [(t1 & -> & H1)| ->];
        [|auto]. cbn [obind].
      destruct (IH (VObj []) lastKey op v eq_refl)
        as [-> |[(child & -> & Hop & Hch)|(e & -> & Hop)]]; cbn [obind]; [auto| |eauto].
      destruct (Hback t1 child H1 Hch eq_refl) as [-> |(r & -> & Hg & Hr)]; [auto|].
      right. left. exists r. split; [reflexivity|].
      rewrite get_path_cons, Hg. auto.
    + pose proof (truthy_object_container _ Ec) as Hchild.
      destruct (IH (get target key) lastKey op v Hchild)
        as [-> |[(child & -> & Hop & Hch)|(e & -> & Hop)]]; cbn [obind]; [auto| |eauto].
      destruct (Hback target child Hc Hch eq_refl) as [-> |(r & -> & Hg & Hr)]; [auto|].
      right. left. exists r. split; [reflexivity|].
      rewrite get_path_cons, Hg. auto.
Qed.

Lemma effective_base_container now base : container (effective_base now base) = true.
Proof.
  unfold effective_base.
  destruct (negb (truthy base) || negb (is_object base)) eqn:E; [reflexivity|].
  apply truthy_object_container. assumption.
Qed.

(** [applySingleDelta] by outcome, for a delta whose field is a string. *)
Lemma applySingleDelta_outcome now base delta field :
  get delta "field" = VStr field ->
  let keys := removelast (tail (split_dot field)) in
  let lastKey := List.last (split_dot field) "" in
  let target := nav (effective_base now base) keys in
  container target = true
  /\ (applySingleDelta now base delta = Exotic
      \/ (exists r, applySingleDelta now base delta = Normal r
                    /\ apply_op target lastKey (get delta "op") (get delta "value")
                       = Normal (get_path r keys))
      \/ (exists e, applySingleDelta now base delta = Throws e
                    /\ apply_op target lastKey (get delta "op") (get delta "value")
                       = Throws e)).
Proof.
  intros Hf. cbv zeta.
  split; [apply nav_container, effective_base_container|].
  unfold applySingleDelta. fold (effective_base now base).
  assert (Hd : match delta with VUndef | VNull => False | _ => True end).
  { destruct delta; try exact I; discriminate. }
  destruct (apply_at_outcome (removelast (tail (split_dot field)))
              (effective_base now base) (List.last (split_dot field) "")
              (get delta "op") (get delta "value") (effective_base_container now base))
    as [E|[(r & E & Hop & _)|(e & E & Hop)]];
    destruct delta; try contradiction; rewrite Hf; cbv zeta; rewrite E; eauto.
Qed.

(** A set delta does not throw, and its value is then read along the
    path. *)
Lemma applySingleDelta_set (now : string) (base delta : value) (field : string) :
  get delta "field" = VStr field ->
  get delta "op" = VStr "set" ->
  applySingleDelta now base delta = Exotic
  \/ exists r, applySingleDelta now base delta = Normal r
               /\ get_path r (delta_path field) = get delta "value".
Proof.
  intros Hf Hop.
  destruct (applySingleDelta_outcome now base delta field Hf) as [Hc H].
  cbv zeta in *. rewrite Hop in H. unfold apply_op in H.
  cbn [known_op String.eqb Ascii.eqb Bool.eqb orb andb] in H.
  destruct H as [H|[(r & H & Hs)|(e & H & Hs)]]; [auto| |].
  - right. exists r. split; [assumption|].
    unfold delta_path. rewrite get_path_snoc.
    destruct (String.eqb (List.last (split_dot field) "") "__proto__"); [discriminate|].
    eapply get_put_same. exact Hs.
  - exfalso.
    destruct (String.eqb (List.last (split_dot field) "") "__proto__"); [discriminate|].
    destruct (put_container _ (List.last (split_dot field) "") (get delta "value") Hc)
      as [(t' & E & _)|E]; rewrite E in Hs; discriminate.
Qed.

Lemma js_add_not_exotic a b : js_add a b <> Exotic.
Proof.
  unfold js_add. destruct (concatenates a || concatenates b); [|discriminate].
  destruct (to_str a); [destruct (to_str b)|]; discriminate.
Qed.

(** [+] throws a TypeError only. *)
Lemma js_add_throws a b e : js_add a b = Throws e -> e = TypeError.
Proof.
  unfold js_add. destruct (concatenates a || concatenates b); [|discriminate].
  destruct (to_str a); [destruct (to_str b)|]; try discriminate;
    intros [= <-]; reflexivity.
Qed.

Lemma del_not_exotic t k : del t k <> Exotic.
Proof.
  destruct t; cbn [del]; try discriminate.
  destruct (array_index k); [discriminate|].
  destruct (String.eqb k "length"); discriminate.
Qed.

(** On a plain key the switch stays within the data model. *)
Lemma apply_op_plain t k op v :
  container t = true -> plain_key t k = true -> apply_op t k op v <> Exotic.
Proof.
  intros Hc Hk. unfold apply_op.
  assert (Hput : forall x, put t k x <> Exotic).
  { intros x. destruct (put_plain t k x Hc Hk) as (-> & _). discriminate. }
  unfold plain_key in Hk. apply andb_true_iff in Hk as [Hp _].
  apply negb_true_iff in Hp. rewrite Hp, andb_false_r.
  destruct op; try discriminate.
  destruct (String.eqb s "set"); [apply Hput|].
  destruct (String.eqb s "add").
  - destruct (get t k) as [| | |x| |l|qs]; try apply Hput.
    pose proof (js_add_not_exotic (VNum x) v) as Hj.
    destruct (js_add (VNum x) v); cbn [obind];
      [apply Hput|discriminate|contradiction].
  - destruct (String.eqb s "remove"); [apply del_not_exotic|discriminate].
Qed.

(** On a plain path the navigation and the switch stay within the data
    model. *)
Lemma apply_at_plain keys : forall target lastKey op v,
  container target = true -> plain_path target keys lastKey = true ->
  apply_at target keys lastKey op v <> Exotic.
Proof.
  unfold plain_path.
  induction keys as [|key keys IH]; intros target lastKey op v Hc Hp;
    apply andb_true_iff in Hp as [Hw Hl]; cbn [apply_at nav plain_walk] in *.
  - apply apply_op_plain; assumption.
  - apply andb_true_iff in Hw as [Hk Hw]. cbv zeta in Hw.
    pose proof Hk as Hk'. unfold plain_key in Hk'.
    apply andb_true_iff in Hk' as [Hne _]. apply negb_true_iff in Hne. rewrite Hne.
    destruct (negb (truthy (get target key)) || negb (is_object (get target key))) eqn:E.
    + destruct (put_plain target key (VObj []) Hc Hk) as (-> & Hc1 & Hk1).
      cbn [obind].
      pose proof (IH (VObj []) lastKey op v eq_refl) as Hin.
      rewrite Hw, Hl in Hin. specialize (Hin eq_refl).
      destruct (apply_at (VObj []) keys lastKey op v) as [child| |]; cbn [obind];
        [|discriminate|contradiction].
      destruct (put_plain _ key child Hc1 Hk1) as (-> & _). discriminate.
    + pose proof (truthy_object_container _ E) as Hchild.
      pose proof (IH (get target key) lastKey op v Hchild) as Hin.
      rewrite Hw, Hl in Hin. specialize (Hin eq_refl).
      destruct (apply_at (get target key) keys lastKey op v) as [child| |];
        cbn [obind]; [|discriminate|contradiction].
      destruct (put_plain target key child Hc Hk) as (-> & _). discriminate.
Qed.

Lemma applySingleDelta_plain now base delta field :
  get delta "field" = VStr field ->
  plain_path (effective_base now base) (removelast (tail (split_dot field)))
    (List.last (split_dot field) "") = true ->
  applySingleDelta now base delta <> Exotic.
Proof.
  intros Hf Hp. unfold applySingleDelta. fold (effective_base now base).
  destruct delta; try discriminate; rewrite Hf; cbv zeta;
    apply apply_at_plain; try assumption; apply effective_base_container.
Qed.

(** X5: a set delta on a plain path (no segment [__proto__], arrays
    addressed by an index) returns normally, and in the snapshot it returns
    the value of the delta is read along the segments of the field after
    the first (along the only segment when there is one). *)
Theorem set_delta_read_back (now : string) (base delta : value) (field : string) :
  get delta "field" = VStr field ->
  get delta "op" = VStr "set" ->
  plain_path (effective_base now base) (removelast (tail (split_dot field)))
    (List.last (split_dot field) "") = true ->
  exists r, applySingleDelta now base delta = Normal r
            /\ get_path r (delta_path field) = get delta "value".
Proof.
  intros Hf Hop Hp.
  destruct (applySingleDelta_set now base delta field Hf Hop) as [E|H]; [|exact H].
  exfalso. eapply applySingleDelta_plain; eassumption.
Qed.

Lemma set_delta_read_back_witness :
  exists r,
    applySingleDelta "2026-01-18T11:00:00.000Z" sample_snapshot set_session_delta
    = Normal r
    /\ get_path r (delta_path "essential.lastSession") = get set_session_delta "value".
Proof.
  apply (set_delta_read_back "2026-01-18T11:00:00.000Z" sample_snapshot
           set_session_delta "essential.lastSession"); reflexivity.
Defined.

(** [delete] throws on the length of an array only. *)
Lemma del_throws t k e :
  container t = true -> del t k = Throws e ->
  e = TypeError /\ k = "length" /\ isArray t = true.
Proof.
  destruct t as [| | | | |l|ps]; try discriminate; intros _; cbn [del].
  destruct (array_index k); [discriminate|].
  destruct (String.eqb_spec k "length"); [|discriminate].
  intros [= <-]. auto.
Qed.

(** X6: a remove delta on a plain path returns normally, and in the
    snapshot it returns the path of the field reads [undefined]: the
    property is gone, or the element of the array is empty. *)
Theorem remove_delta_read_back (now : string) (base delta : value) (field : string) :
  get delta "field" = VStr field ->
  get delta "op" = VStr "remove" ->
  plain_path (effective_base now base) (removelast (tail (split_dot field)))
    (List.last (split_dot field) "") = true ->
  exists r, applySingleDelta now base delta = Normal r
            /\ get_path r (delta_path field) = VUndef.
Proof.
  intros Hf Hop Hp.
  pose proof (applySingleDelta_plain now base delta field Hf Hp) as Hne.
  destruct (applySingleDelta_outcome now base delta field Hf) as [Hc H].
  cbv zeta in *. rewrite Hop in H. unfold apply_op in H.
  cbn [known_op String.eqb Ascii.eqb Bool.eqb orb andb] in H.
  unfold plain_path in Hp. apply andb_true_iff in Hp as [_ Hl].
  pose proof Hl as Hl'. unfold plain_key in Hl'.
  apply andb_true_iff in Hl' as [Hproto Hidx]. apply negb_true_iff in Hproto.
  rewrite Hproto in H.
  destruct H as [H|[(r & H & Hs)|(e & H & Hs)]]; [contradiction| |].
  - exists r. split; [assumption|].
    unfold delta_path. rewrite get_path_snoc.
    eapply get_del_same. exact Hs.
  - exfalso. destruct (del_throws _ _ _ Hc Hs) as (_ & Hlen & Ha).
    rewrite Hlen in Hidx.
    destruct (nav (effective_base now base) (removelast (tail (split_dot field))));
      discriminate.
Qed.

Lemma remove_delta_read_back_witness :
  exists r,
    applySingleDelta "2026-01-18T11:00:00.000Z" sample_snapshot remove_version_delta
    = Normal r
    /\ get_path r (delta_path "version") = VUndef.
Proof.
  apply (remove_delta_read_back "2026-01-18T11:00:00.000Z" sample_snapshot
           remove_version_delta "version"); reflexivity.
Defined.

(** X7: an add delta on a plain path appends its value when the path holds
    an array, applies JavaScript's [+] when it holds a number, and sets the
    value over anything else.  It throws only in the second case, a
    TypeError, when [+] does: the value is an object that cannot be
    converted to a primitive. *)
Theorem add_delta_read_back (now : string) (base delta : value) (field : string) :
  get delta "field" = VStr field ->
  get delta "op" = VStr "add" ->
  plain_path (effective_base now base) (removelast (tail (split_dot field)))
    (List.last (split_dot field) "") = true ->
  let old := get_path (effective_base now base) (delta_path field) in
  match old with
  | VArr l =>
      exists r, applySingleDelta now base delta = Normal r
                /\ get_path r (delta_path field) = VArr (l ++ [get delta "value"])
  | VNum _ =>
      (exists r sum, js_add old (get delta "value") = Normal sum
                     /\ applySingleDelta now base delta = Normal r
                     /\ get_path r (delta_path field) = sum)
      \/ (js_add old (get delta "value") = Throws TypeError
          /\ applySingleDelta now base delta = Throws TypeError)
  | _ =>
      exists r, applySingleDelta now base delta = Normal r
                /\ get_path r (delta_path field) = get delta "value"
  end.
Proof.
  intros Hf Hop Hp old. subst old.
  pose proof (applySingleDelta_plain now base delta field Hf Hp) as Hne.
  destruct (applySingleDelta_outcome now base delta field Hf) as [Hc H].
  cbv zeta in *. rewrite Hop in H. unfold apply_op in H.
  cbn [known_op String.eqb Ascii.eqb Bool.eqb orb andb] in H.
  unfold plain_path in Hp. apply andb_true_iff in Hp as [_ Hl].
  unfold delta_path. rewrite <- nav_get.
  set (target := nav (effective_base now base) (removelast (tail (split_dot field)))) in *.
  set (lastKey := List.last (split_dot field) "") in *.
  pose proof Hl as Hl'. unfold plain_key in Hl'.
  apply andb_true_iff in Hl' as [Hproto _]. apply negb_true_iff in Hproto.
  rewrite Hproto in H.
  assert (Hput : forall x, put target lastKey x = Normal (write target lastKey x)).
  { intros x. apply (put_plain target lastKey x Hc Hl). }
  assert (Hback : forall x r,
            applySingleDelta now base delta = Normal r ->
            Normal (write target lastKey x)
            = Normal (get_path r (removelast (tail (split_dot field)))) ->
            get_path r (removelast (tail (split_dot field)) ++ [lastKey]) = x).
  { intros x r _ [= E]. rewrite get_path_snoc, <- E. apply get_write; assumption. }
  destruct (get target lastKey) as [| | |x| |l|qs];
    try (rewrite Hput in H;
         destruct H as [H|[(r & H & Hs)|(e & H & Hs)]];
           [contradiction|exists r; split; [exact H|eapply Hback; eassumption]
           |discriminate]).
  pose proof (js_add_not_exotic (VNum x) (get delta "value")) as Hj.
  destruct (js_add (VNum x) (get delta "value")) as [sum|e'|] eqn:Ej;
    cbn [obind] in H; [|right|contradiction].
  - left. rewrite Hput in H.
    destruct H as [H|[(r & H & Hs)|(e & H & Hs)]]; [contradiction| |discriminate].
    exists r, sum. split; [reflexivity|]. split; [exact H|].
    eapply Hback; eassumption.
  - pose proof (js_add_throws _ _ _ Ej) as ->.
    destruct H as [H|[(r & H & Hs)|(e & H & Hs)]]; [contradiction|discriminate|].
    injection Hs as <-. auto.
Qed.

Lemma add_delta_read_back_witness :
  let now := "2026-01-18T11:00:00.000Z" in
  let delta := VObj [("timestamp", VStr "2026-01-18T10:00:00.000Z"); ("op", VStr "add");
                     ("field", VStr "metadata.essential.sessionCount");
                     ("value", VNum 2)] in
  (exists r sum,
      js_add (VNum 0) (VNum 2) = Normal sum
      /\ applySingleDelta now sample_snapshot delta = Normal r
      /\ get_path r (delta_path "metadata.essential.sessionCount") = sum)
  \/ (js_add (VNum 0) (VNum 2) = Throws TypeError
      /\ applySingleDelta now sample_snapshot delta = Throws TypeError).
Proof.
  apply (add_delta_read_back "2026-01-18T11:00:00.000Z" sample_snapshot
           (VObj [("timestamp", VStr "2026-01-18T10:00:00.000Z"); ("op", VStr "add");
                  ("field", VStr "metadata.essential.sessionCount");
                  ("value", VNum 2)])
           "metadata.essential.sessionCount"); reflexivity.
Defined.

Lemma get_remove_other k k' ps :
  k <> k' -> get (VObj (remove_prop k ps)) k' = get (VObj ps) k'.
Proof. intros H. cbn. rewrite lookup_remove_other by assumption. reflexivity. Qed.

Lemma get_put_other ps k k' v t' :
  k <> k' -> put (VObj ps) k v = Normal t' -> get t' k' = get (VObj ps) k'.
Proof. intros Hne [= <-]. apply get_assign_other. assumption. Qed.

(** The switch on an object changes no key but its own. *)
Lemma apply_op_frame ps lastKey op v r k :
  lastKey <> k -> apply_op (VObj ps) lastKey op v = Normal r ->
  get r k = get (VObj ps) k.
Proof.
  intros Hne. unfold apply_op.
  destruct op; try (intros [= <-]; reflexivity).
  destruct (known_op (VStr s) && String.eqb lastKey "__proto__"); [discriminate|].
  destruct (String.eqb s "set"); [apply get_put_other; assumption|].
  destruct (String.eqb s "add").
  - destruct (get (VObj ps) lastKey) as [| | |x| |l|qs];
      try (apply get_put_other; assumption).
    destruct (js_add (VNum x) v); cbn [obind]; try discriminate.
    apply get_put_other; assumption.
  - destruct (String.eqb s "remove").
    + cbn [del]. intros [= <-]. apply get_remove_other. assumption.
    + intros [= <-]. reflexivity.
Qed.

(** The navigation and the switch on an object change no top-level key but
    the first of the path. *)
Lemma apply_at_frame ps keys lastKey op v r k :
  hd lastKey keys <> k ->
  apply_at (VObj ps) keys lastKey op v = Normal r ->
  get r k = get (VObj ps) k.
Proof.
  destruct keys as [|key keys]; cbn [hd apply_at]; intros Hne.
  - apply apply_op_frame. assumption.
  - destruct (String.eqb key "__proto__"); [discriminate|].
    destruct (negb (truthy (get (VObj ps) key)) || negb (is_object (get (VObj ps) key))).
    + cbn [put obind].
      destruct (apply_at (VObj []) keys lastKey op v); cbn [obind]; try discriminate.
      intros [= <-]. rewrite !get_assign_other by assumption. reflexivity.
    + destruct (apply_at (get (VObj ps) key) keys lastKey op v); cbn [obind];
        try discriminate.
      intros [= <-]. apply get_assign_other. assumption.
Qed.

(** X8: a delta changes at most one top-level key of an object snapshot,
    the first key of its path (the second segment of the field, or the only
    segment); every other top-level key reads as before. *)
Theorem delta_touches_one_key (now : string) (base delta r : value) (field k : string) :
  isArray base = false ->
  get delta "field" = VStr field ->
  applySingleDelta now base delta = Normal r ->
  hd "" (delta_path field) <> k ->
  get r k = get (effective_base now base) k.
Proof.
  intros Ha Hf H Hk. unfold applySingleDelta in H. fold (effective_base now base) in H.
  assert (Hobj : exists ps, effective_base now base = VObj ps).
  { unfold effective_base.
    destruct (negb (truthy base) || negb (is_object base)) eqn:E; [eexists; reflexivity|].
    pose proof (truthy_object_container _ E) as Hc.
    destruct base; try discriminate Hc; [discriminate Ha|eauto]. }
  destruct Hobj as [ps Hps]. rewrite Hps in *.
  assert (Hk' : hd (List.last (split_dot field) "") (removelast (tail (split_dot field)))
                <> k).
  { unfold delta_path in Hk.
    destruct (removelast (tail (split_dot field))); exact Hk. }
  destruct delta; try discriminate; rewrite Hf in H; cbv zeta in H;
    eapply apply_at_frame; eassumption.
Qed.

Lemma delta_touches_one_key_witness :
  get pending_folded "essential"
  = get (effective_base "2026-01-18T11:00:00.000Z" sample_snapshot) "essential".
Proof.
  apply (delta_touches_one_key "2026-01-18T11:00:00.000Z" sample_snapshot
           set_session_delta pending_folded "essential.lastSession" "essential").
  - reflexivity.
  - reflexivity.
  - vm_compute. reflexivity.
  - vm_compute. discriminate.
Defined.

(** Applying a set along a path, then another set along the same path, is
    applying the second alone. *)
Lemma apply_at_set_twice keys : forall target lastKey v1 v2 r1,
  container target = true ->
  apply_at target keys lastKey (VStr "set") v1 = Normal r1 ->
  apply_at r1 keys lastKey (VStr "set") v2
  = apply_at target keys lastKey (VStr "set") v2.
Proof.
  induction keys as [|key keys IH]; intros target lastKey v1 v2 r1 Hc; cbn [apply_at].
  - unfold apply_op. cbn [known_op String.eqb Ascii.eqb Bool.eqb orb andb].
    destruct (String.eqb lastKey "__proto__"); [discriminate|]. apply put_put.
  - destruct (String.eqb key "__proto__"); [discriminate|].
    destruct (negb (truthy (get target key)) || negb (is_object (get target key))) eqn:Ec.
    + destruct (put target key (VObj [])) as [t1| |] eqn:Et; cbn [obind];
        try discriminate.
      destruct (apply_at_outcome keys (VObj []) lastKey (VStr "set") v1 eq_refl)
        as [E|[(c1 & E & _ & Hc1)|(e & E & _)]]; rewrite E; cbn [obind];
        try discriminate.
      intros Hr. rewrite (get_put_same _ _ _ _ Hr).
      rewrite (container_not_replaced _ Hc1).
      rewrite (IH (VObj []) lastKey v1 v2 c1 eq_refl E).
      destruct (apply_at (VObj []) keys lastKey (VStr "set") v2) as [c2| |];
        cbn [obind]; try reflexivity.
      rewrite (put_put _ _ _ c2 _ Hr). reflexivity.
    + pose proof (truthy_object_container _ Ec) as Hchild.
      destruct (apply_at_outcome keys (get target key) lastKey (VStr "set") v1 Hchild)
        as [E|[(c1 & E & _ & Hc1)|(e & E & _)]]; rewrite E; cbn [obind];
        try discriminate.
      intros Hr. rewrite (get_put_same _ _ _ _ Hr).
      rewrite (container_not_replaced _ Hc1).
      rewrite (IH (get target key) lastKey v1 v2 c1 Hchild E).
      destruct (apply_at (get target key) keys lastKey (VStr "set") v2) as [c2| |];
        cbn [obind]; try reflexivity.
      apply (put_put _ _ _ c2 _ Hr).
Qed.

(** X9: of two set deltas with the same field the second wins: applying
    it after the first gives what applying it alone gives.  In particular
    a set delta replayed twice is a set delta replayed once. *)
Theorem set_delta_last_write_wins (now : string) (base d1 d2 r1 : value)
    (field : string) :
  get d1 "field" = VStr field -> get d1 "op" = VStr "set" ->
  get d2 "field" = VStr field -> get d2 "op" = VStr "set" ->
  applySingleDelta now base d1 = Normal r1 ->
  applySingleDelta now r1 d2 = applySingleDelta now base d2.
Proof.
  intros Hf1 Ho1 Hf2 Ho2 H1.
  assert (Hr1 : container r1 = true).
  { unfold applySingleDelta in H1. fold (effective_base now base) in H1.
    destruct (apply_at_outcome (removelast (tail (split_dot field)))
                (effective_base now base) (List.last (split_dot field) "")
                (get d1 "op") (get d1 "value") (effective_base_container now base))
      as [E|[(r & E & _ & Hr)|(e & E & _)]];
      destruct d1; try discriminate; rewrite Hf1 in H1; cbv zeta in H1;
      rewrite E in H1; try discriminate; injection H1 as <-; exact Hr. }
  unfold applySingleDelta in *. fold (effective_base now base) in *.
  rewrite (container_not_replaced _ Hr1).
  assert (Hd1 : match d1 with VUndef | VNull => False | _ => True end)
    by (destruct d1; try exact I; discriminate).
  assert (Hd2 : match d2 with VUndef | VNull => False | _ => True end)
    by (destruct d2; try exact I; discriminate).
  destruct d1; try contradiction; destruct d2; try contradiction;
    rewrite Hf1, Ho1 in H1; rewrite Hf2, Ho2; cbv zeta in *;
    eapply apply_at_set_twice;
    try eassumption; apply effective_base_container.
Qed.

Lemma set_delta_last_write_wins_witness :
  applySingleDelta "2026-01-18T11:00:00.000Z" pending_folded
    (VObj [("op", VStr "set"); ("field", VStr "essential.lastSession");
           ("value", VStr "2026-01-19")])
  = applySingleDelta "2026-01-18T11:00:00.000Z" sample_snapshot
      (VObj [("op", VStr "set"); ("field", VStr "essential.lastSession");
             ("value", VStr "2026-01-19")]).
Proof.
  apply (set_delta_last_write_wins "2026-01-18T11:00:00.000Z" sample_snapshot
           set_session_delta
           (VObj [("op", VStr "set"); ("field", VStr "essential.lastSession");
                  ("value", VStr "2026-01-19")])
           pending_folded "essential.lastSession"); reflexivity.
Defined.


(** ** Replay *)

(** A delta that is [null], or whose field is not a string, cannot be
    applied: [delta.field.split] is a TypeError. *)
Lemma applySingleDelta_no_field now base delta :
  is_string (get delta "field") = false ->
  applySingleDelta now base delta = Throws TypeError.
Proof.
  unfold applySingleDelta. intros H.
  destruct delta; try reflexivity; destruct (get _ "field"); try reflexivity;
    discriminate.
Qed.

Lemma fold_deltas_no_field (now : string) (d : value) (lines : list file) :
  In (JsonText d) lines ->
  is_string (get (json_roundtrip d) "field") = false ->
  forall result r, fold_deltas now result lines <> Normal r.
Proof.
  intros Hin Hd. induction lines as [|[d'|] rest IH]; intros result r;
    cbn [fold_deltas].
  - destruct Hin.
  - destruct Hin as [[= ->]|Hin].
    + rewrite applySingleDelta_no_field by assumption. discriminate.
    + destruct (applySingleDelta now result (json_roundtrip d')); cbn [obind];
        try discriminate. apply IH. assumption.
  - discriminate.
Qed.

(** X10: a journal line that is JSON but holds no string field ([null], a
    number, an object without [field]) stops the replay as a line that is
    not JSON does: the caller gets the base snapshot and the console the
    line 'Error applying deltas:'. *)
Theorem delta_without_field_stops_replay (now : string) (base d : value) (w : world)
    (lines : list file) :
  deltas_jsonl w = Some lines ->
  In (JsonText d) lines ->
  is_string (get (json_roundtrip d) "field") = false ->
  applyDeltasToMetadata now base w = (Normal base, add_line "Error applying deltas:" w)
  \/ applyDeltasToMetadata now base w = (Exotic, w).
Proof.
  intros Hj Hin Hd. rewrite applyDeltasToMetadata_cases, Hj.
  destruct (In_nonempty _ _ Hin) as (y & l' & ->).
  pose proof (fold_deltas_no_field now d _ Hin Hd (fold_start now base)) as Hn.
  destruct (fold_deltas now (fold_start now base) (y :: l')); auto.
  exfalso. eapply Hn. reflexivity.
Qed.

Lemma delta_without_field_stops_replay_witness :
  let w := mkWorld (Some (JsonText sample_snapshot)) None
             (Some [JsonText set_session_delta;
                    JsonText (VObj [("op", VStr "set"); ("value", VNum 1)])]) [] in
  applyDeltasToMetadata "2026-01-18T11:00:00.000Z" sample_snapshot w
  = (Normal sample_snapshot, add_line "Error applying deltas:" w)
  \/ applyDeltasToMetadata "2026-01-18T11:00:00.000Z" sample_snapshot w = (Exotic, w).
Proof.
  apply (delta_without_field_stops_replay "2026-01-18T11:00:00.000Z" sample_snapshot
           (VObj [("op", VStr "set"); ("value", VNum 1)])
           (mkWorld (Some (JsonText sample_snapshot)) None
              (Some [JsonText set_session_delta;
                     JsonText (VObj [("op", VStr "set"); ("value", VNum 1)])]) [])
           [JsonText set_session_delta;
            JsonText (VObj [("op", VStr "set"); ("value", VNum 1)])]).
  - reflexivity.
  - right. left. reflexivity.
  - reflexivity.
Defined.

(** X11: [applyDeltasToMetadata] never throws and writes no file; it adds
    at most one console line; with no journal file, or an empty one, it
    returns the base and leaves the world as it is. *)
Theorem applyDeltasToMetadata_swallows_errors (now : string) (base : value) (w : world) :
  let run := applyDeltasToMetadata now base w in
  ((exists r, fst run = Normal r) \/ fst run = Exotic)
  /\ metadata_json (snd run) = metadata_json w
  /\ metadata_gz (snd run) = metadata_gz w
  /\ deltas_jsonl (snd run) = deltas_jsonl w
  /\ (exists lines, console (snd run) = console w ++ lines /\ (length lines <= 1)%nat)
  /\ (journal w = [] -> run = (Normal base, w)).
Proof.
  cbv zeta.
  destruct (applyDeltasToMetadata_files now base w) as (Hm & Hg & Hj).
  split; [|split; [exact Hm|split; [exact Hg|split; [exact Hj|]]]];
    rewrite applyDeltasToMetadata_cases; unfold journal;
    destruct (deltas_jsonl w) as [[|line rest]|]; cbn [fst snd default];
    try destruct (fold_deltas now (fold_start now base) (line :: rest));
    cbn [fst snd add_line console]; eauto.
  all: try (split; [exists []; rewrite app_nil_r; split; [reflexivity|cbn; lia]
                   |intros; reflexivity || discriminate]).
  all: split; [eexists; split; [reflexivity|cbn; lia]|discriminate].
Qed.


(** ** From [saveDelta] to the next replay *)

Lemma fold_deltas_app now l1 : forall l2 result,
  fold_deltas now result (l1 ++ l2)
  = let? r := fold_deltas now result l1 in fold_deltas now r l2.
Proof.
  induction l1 as [|[d|] l1 IH]; intros l2 result; cbn [app fold_deltas obind].
  - reflexivity.
  - destruct (applySingleDelta now result (json_roundtrip d)); cbn [obind];
      [apply IH|reflexivity|reflexivity].
  - reflexivity.
Qed.

(** X12: from [saveDelta] to the next replay.  Below the compaction
    threshold, [saveDelta('set', f, v)] makes the journal one line longer
    and leaves the snapshot file alone; when the journal so far replays
    without error, the next replay does not throw, and outside [Exotic] it
    returns a snapshot in which the JSON image of [v] is read along the
    path of [f]. *)
Theorem saved_set_is_replayed (now later : string) (f : string) (v base r0 : value)
    (w : world) :
  (length (journal w) < 49)%nat ->
  fold_deltas later (fold_start later base) (journal w) = Normal r0 ->
  v <> VUndef ->
  let w' := snd (saveDelta now (VStr "set") (VStr f) v w) in
  length (journal w') = S (length (journal w))
  /\ metadata_json w' = metadata_json w
  /\ (fst (applyDeltasToMetadata later base w') = Exotic
      \/ exists r,
           fst (applyDeltasToMetadata later base w') = Normal r
           /\ get_path r (delta_path f) = json_roundtrip v).
Proof.
  intros Hlen Hold Hv. cbv zeta.
  pose proof (save_threshold (mkUpdate now "set" f v) w) as Hs.
  unfold save in Hs. cbn [u_now u_op u_field u_value] in Hs. rewrite Hs. clear Hs.
  destruct (Nat.leb_spec 50 (S (length (journal w)))); [lia|]. cbn [snd].
  set (u := mkUpdate now "set" f v).
  split; [apply journal_record_delta|]. split; [reflexivity|].
  rewrite applyDeltasToMetadata_cases.
  set (delta := VObj [("timestamp", VStr now); ("op", VStr "set"); ("field", VStr f);
                      ("value", v)]).
  assert (Hj : deltas_jsonl (record_delta u w) = Some (journal w ++ [JsonText delta]))
    by reflexivity.
  rewrite Hj. clear Hj.
  destruct (journal w ++ [JsonText delta]) as [|line rest] eqn:E.
  { apply app_eq_nil in E as [_ E]. discriminate. }
  rewrite <- E. clear E line rest.
  rewrite fold_deltas_app, Hold. cbn [obind fold_deltas].
  assert (Hd : json_roundtrip delta
               = VObj [("timestamp", VStr now); ("op", VStr "set"); ("field", VStr f);
                       ("value", json_roundtrip v)]).
  { unfold delta. cbn [json_roundtrip keep_defined].
    destruct v; try contradiction; reflexivity. }
  destruct (applySingleDelta_set later r0 (json_roundtrip delta) f) as [Ex|(r & Er & Hr)];
    try (rewrite Hd; reflexivity).
  - rewrite Ex. cbn [obind fst]. auto.
  - rewrite Er. cbn [obind fst]. right. exists r. split; [reflexivity|].
    rewrite Hr, Hd. reflexivity.
Qed.

Lemma saved_set_is_replayed_witness :
  let now := "2026-01-18T10:00:00.000Z" in
  let later := "2026-01-18T12:00:00.000Z" in
  let w' := snd (saveDelta now (VStr "set") (VStr "essential.lastSession")
                   (VStr "2026-01-18") fresh_world) in
  length (journal w') = S (length (journal fresh_world))
  /\ metadata_json w' = metadata_json fresh_world
  /\ (fst (applyDeltasToMetadata later sample_snapshot w') = Exotic
      \/ exists r,
           fst (applyDeltasToMetadata later sample_snapshot w') = Normal r
           /\ get_path r (delta_path "essential.lastSession")
              = json_roundtrip (VStr "2026-01-18")).
Proof.
  apply (saved_set_is_replayed "2026-01-18T10:00:00.000Z" "2026-01-18T12:00:00.000Z"
           "essential.lastSession" (VStr "2026-01-18") sample_snapshot
           (json_roundtrip sample_snapshot) fresh_world).
  - cbn. lia.
  - reflexivity.
  - discriminate.
Defined.

(** ** Loading and compaction at the edges *)

(** [loadMetadata] never throws and writes console lines only. *)
Lemma loadMetadata_world (w : world) :
  exists m ls,
    loadMetadata w
    = (Normal m,
       mkWorld (metadata_json w) (metadata_gz w) (deltas_jsonl w) (console w ++ ls)).
Proof.
  unfold loadMetadata, try_catch. unfold bind at 1. cbn [read_world read_state].
  destruct w as [mj gz dj c]. cbn [metadata_json metadata_gz deltas_jsonl console].
  destruct gz as [[g|]|]; [| |destruct mj as [[v|]|]];
    cbn; try (do 2 eexists; reflexivity);
    exists VNull, []; rewrite app_nil_r; reflexivity.
Qed.

Lemma applyDeltasToMetadata_never_throws now base w e :
  fst (applyDeltasToMetadata now base w) <> Throws e.
Proof.
  rewrite applyDeltasToMetadata_cases.
  destruct (deltas_jsonl w) as [[|line rest]|]; try discriminate.
  destruct (fold_deltas now (fold_start now base) (line :: rest)); discriminate.
Qed.

(** X13: the load (read the snapshot, apply the pending deltas, validate)
    writes no file and does not throw, whatever the files hold; outside
    [Exotic] it returns an object whose essential is an object with an
    array projects. *)
Theorem initialize_metadata_always_usable (now : string) (w : world) :
  let run := initialize_metadata now w in
  metadata_json (snd run) = metadata_json w
  /\ metadata_gz (snd run) = metadata_gz w
  /\ deltas_jsonl (snd run) = deltas_jsonl w
  /\ (fst run = Exotic
      \/ exists r ps es pr,
           fst run = Normal r
           /\ r = VObj ps
           /\ get r "essential" = VObj es
           /\ get (VObj es) "projects" = VArr pr).
Proof.
  cbv zeta.
  assert (Hrun : exists o w',
    initialize_metadata now w = (o, w')
    /\ metadata_json w' = metadata_json w /\ metadata_gz w' = metadata_gz w
    /\ deltas_jsonl w' = deltas_jsonl w
    /\ (o = Exotic
        \/ exists r, o = Normal r /\ (valid_snapshot r \/ repaired_shape now r))).
  { unfold initialize_metadata.
    destruct (loadMetadata_world w) as (m & ls & El).
    unfold bind at 1. rewrite El. unfold bind.
    match goal with |- context [applyDeltasToMetadata now m ?w0] =>
      destruct (applyDeltasToMetadata_files now m w0) as (Hm & Hg & Hj);
      pose proof (applyDeltasToMetadata_never_throws now m w0) as Hn;
      destruct (applyDeltasToMetadata now m w0) as [[d|e|] w1]
    end; cbn [fst snd metadata_json metadata_gz deltas_jsonl] in *.
    - destruct (validateMetadata_world now d w1) as (r & ls' & Ev & _).
      destruct (validateMetadata_result now d w1) as (r' & Er & Hshape).
      rewrite Ev in *. cbn [fst] in Er. injection Er as <-.
      do 2 eexists. split; [reflexivity|].
      cbn [metadata_json metadata_gz deltas_jsonl]. eauto 10.
    - exfalso. eapply Hn. reflexivity.
    - do 2 eexists. split; [reflexivity|]. auto. }
  destruct Hrun as (o & w' & -> & Hm & Hg & Hj & Ho). cbn [fst snd].
  split; [exact Hm|]. split; [exact Hg|]. split; [exact Hj|].
  destruct Ho as [-> |(r & -> & Hshape)]; [auto|right].
  destruct Hshape as [Hv|Hs].
  - destruct Hv as (ps & es & n & pr & -> & _ & _ & _ & He & _ & _ & Hpr).
    exists (VObj ps), ps, es, pr. auto.
  - destruct Hs as (V & L & A & B & p & N & hist & -> & _).
    do 4 eexists. split; [reflexivity|]. split; [reflexivity|].
    split; reflexivity.
Qed.

(** X14: a compressed snapshot whose text is not JSON makes [loadMetadata]
    return [null] without a console line, whatever the plain snapshot file
    holds: the plain file is not tried.  With no pending delta the load
    then returns a fresh default. *)
Theorem unreadable_compressed_snapshot_hides_plain (now : string) (w : world) :
  metadata_gz w = Some OtherText ->
  loadMetadata w = (Normal VNull, w)
  /\ (journal w = [] ->
      fst (initialize_metadata now w) = Normal (createDefaultMetadata now)).
Proof.
  intros Hgz.
  assert (Hl : loadMetadata w = (Normal VNull, w)).
  { unfold loadMetadata, try_catch. unfold bind at 1. cbn [read_world read_state].
    rewrite Hgz. reflexivity. }
  split; [exact Hl|]. intros Hj.
  unfold initialize_metadata. unfold bind at 1. rewrite Hl. unfold bind at 1.
  rewrite applyDeltasToMetadata_cases. unfold journal in Hj.
  destruct (deltas_jsonl w) as [[|line rest]|]; try discriminate; reflexivity.
Qed.

Lemma unreadable_compressed_snapshot_hides_plain_witness :
  let w := mkWorld (Some (JsonText sample_snapshot)) (Some OtherText) None [] in
  loadMetadata w = (Normal VNull, w)
  /\ (journal w = [] ->
      fst (initialize_metadata "2026-01-18T11:00:00.000Z" w)
      = Normal (createDefaultMetadata "2026-01-18T11:00:00.000Z")).
Proof.
  apply (unreadable_compressed_snapshot_hides_plain "2026-01-18T11:00:00.000Z"
           (mkWorld (Some (JsonText sample_snapshot)) (Some OtherText) None [])).
  reflexivity.
Defined.

(** X15: compaction with no journal file still rewrites the snapshot file
    ([lastUpdated] stamped, [sessionCount] incremented) and then fails on
    removing the journal: the console gets 'Error compacting deltas:'. *)
Theorem compaction_without_journal (now : string) (w : world) (base P : value) :
  deltas_jsonl w = None ->
  compaction_base now w = Normal base ->
  finalize_compaction now base = Normal P ->
  compactDeltas now w
  = (Normal tt,
     mkWorld (Some (JsonText P)) (metadata_gz w) None
       (console w ++ ["Error compacting deltas:"])).
Proof.
  intros Hj Hb HP. rewrite compactDeltas_cases, Hb.
  rewrite applyDeltasToMetadata_no_journal by assumption. rewrite HP, Hj. reflexivity.
Qed.

Lemma compaction_without_journal_witness :
  compactDeltas "2026-01-18T11:00:00.000Z" fresh_world
  = (Normal tt,
     mkWorld
       (Some (JsonText
                (VObj [("version", VNum 3);
                       ("lastUpdated", VStr "2026-01-18T11:00:00.000Z");
                       ("essential",
                        VObj [("lastSession", VStr "Unknown");
                              ("stack",
                               VStr "Node.js + npm + Vite + TypeScript + TanStack");
                              ("projects", VArr []);
                              ("sessionCount", VNum 1)])])))
       (metadata_gz fresh_world) None
       (console fresh_world ++ ["Error compacting deltas:"])).
Proof.
  apply (compaction_without_journal "2026-01-18T11:00:00.000Z" fresh_world
           sample_snapshot); reflexivity.
Defined.

(** X16: compaction over a journal with a line that is not JSON: the
    replay is given up, the finalized base snapshot is written and the
    journal file is removed, so that the deltas of the journal, those before
    the bad line included, are in no file afterwards. *)
Theorem compaction_discards_unreadable_journal (now : string) (w : world)
    (lines : list file) (base P : value) :
  deltas_jsonl w = Some lines ->
  In OtherText lines ->
  compaction_base now w = Normal base ->
  finalize_compaction now base = Normal P ->
  compactDeltas now w
  = (Normal tt,
     mkWorld (Some (JsonText P)) (metadata_gz w) None
       (console w ++ ["Error applying deltas:"; "Deltas compacted to base context"]))
  \/ compactDeltas now w = (Exotic, w).
Proof.
  intros Hj Hin Hb HP. rewrite compactDeltas_cases, Hb.
  destruct (applyDeltasToMetadata_bad_line now base w lines Hj Hin) as [E|E];
    rewrite E; [left|right; reflexivity].
  rewrite HP. cbn [add_line deltas_jsonl metadata_gz console]. rewrite Hj.
  rewrite <- app_assoc. reflexivity.
Qed.

Lemma compaction_discards_unreadable_journal_witness :
  let now := "2026-01-18T11:00:00.000Z" in
  compactDeltas now corrupted_journal_world
  = (Normal tt,
     mkWorld
       (Some (JsonText
                (VObj [("version", VNum 3);
                       ("lastUpdated", VStr now);
                       ("essential",
                        VObj [("lastSession", VStr "Unknown");
                              ("stack",
                               VStr "Node.js + npm + Vite + TypeScript + TanStack");
                              ("projects", VArr []);
                              ("sessionCount", VNum 1)])])))
       (metadata_gz corrupted_journal_world) None
       (console corrupted_journal_world
        ++ ["Error applying deltas:"; "Deltas compacted to base context"]))
  \/ compactDeltas now corrupted_journal_world = (Exotic, corrupted_journal_world).
Proof.
  apply (compaction_discards_unreadable_journal "2026-01-18T11:00:00.000Z"
           corrupted_journal_world [JsonText set_session_delta; OtherText]
           sample_snapshot).
  - reflexivity.
  - right. left. reflexivity.
  - reflexivity.
  - reflexivity.
Defined.

Lemma compactDeltas_gz now w : metadata_gz (snd (compactDeltas now w)) = metadata_gz w.
Proof.
  rewrite compactDeltas_cases.
  destruct (compaction_base now w) as [base| |]; try reflexivity.
  destruct (applyDeltasToMetadata_files now base w) as (_ & Hg & _).
  destruct (applyDeltasToMetadata now base w) as [[F| |] w1]; cbn [snd] in *;
    try assumption.
  destruct (finalize_compaction now F); cbn [snd]; try assumption.
  destruct (deltas_jsonl w1); assumption.
Qed.

(** X17: [compactDeltas] never throws and never writes the compressed
    snapshot; when the plain snapshot file is not JSON it changes no file
    and adds one console line. *)
Theorem compaction_contains_its_errors (now : string) (w : world) :
  (fst (compactDeltas now w) = Normal tt \/ fst (compactDeltas now w) = Exotic)
  /\ metadata_gz (snd (compactDeltas now w)) = metadata_gz w
  /\ (metadata_json w = Some OtherText ->
      compactDeltas now w = (Normal tt, add_line "Error compacting deltas:" w)).
Proof.
  split; [|split; [apply compactDeltas_gz|]].
  - pose proof (compactDeltas_never_throws now w) as Hn.
    destruct (fst (compactDeltas now w)) as [[]|e|]; auto.
    exfalso. eapply Hn. reflexivity.
  - intros Hm. rewrite compactDeltas_cases. unfold compaction_base. rewrite Hm.
    reflexivity.
Qed.

(** X18: with a compressed snapshot present, [loadMetadata] returns after
    compaction what it returned before it: compaction folds the journal
    into the plain file, which [loadMetadata] does not read then. *)
Theorem compaction_invisible_behind_compressed (now : string) (w : world) (g : file) :
  metadata_gz w = Some g ->
  fst (loadMetadata (snd (compactDeltas now w))) = fst (loadMetadata w)
  /\ fst (loadMetadata w)
     = Normal (match g with JsonText v => json_roundtrip v | OtherText => VNull end).
Proof.
  intros Hgz.
  assert (Hl : forall w', metadata_gz w' = Some g ->
            fst (loadMetadata w')
            = Normal (match g with JsonText v => json_roundtrip v | OtherText => VNull end)).
  { intros w' H. unfold loadMetadata, try_catch. unfold bind at 1.
    cbn [read_world read_state]. rewrite H. destruct g; reflexivity. }
  rewrite (Hl w Hgz). split; [|reflexivity].
  apply Hl. rewrite compactDeltas_gz. assumption.
Qed.

Lemma compaction_invisible_behind_compressed_witness :
  let w := mkWorld (Some (JsonText sample_snapshot)) (Some (JsonText sample_snapshot))
             (Some [JsonText set_session_delta]) [] in
  fst (loadMetadata (snd (compactDeltas "2026-01-18T11:00:00.000Z" w)))
  = fst (loadMetadata w)
  /\ fst (loadMetadata w) = Normal (json_roundtrip sample_snapshot).
Proof.
  apply (compaction_invisible_behind_compressed "2026-01-18T11:00:00.000Z"
           (mkWorld (Some (JsonText sample_snapshot)) (Some (JsonText sample_snapshot))
              (Some [JsonText set_session_delta]) [])
           (JsonText sample_snapshot)).
  reflexivity.
Defined.

(** ** The commands on the snapshot file *)

(** X19: [saveMetadata] writes the compressed and the plain snapshot, and
    [loadMetadata] then returns the JSON image of what was saved; saving
    [undefined] writes nothing and is reported on the console. *)
Theorem saveMetadata_then_load (metadata : value) (w : world) :
  metadata <> VUndef ->
  let w' := snd (saveMetadata metadata w) in
  saveMetadata metadata w = (Normal tt, w')
  /\ metadata_json w' = Some (JsonText metadata)
  /\ metadata_gz w' = Some (JsonText metadata)
  /\ deltas_jsonl w' = deltas_jsonl w
  /\ fst (loadMetadata w') = Normal (json_roundtrip metadata)
  /\ saveMetadata VUndef w = (Normal tt, add_line "Could not save metadata:" w).
Proof.
  intros Hm. cbv zeta.
  assert (E : saveMetadata metadata w
              = (Normal tt,
                 mkWorld (Some (JsonText metadata)) (Some (JsonText metadata))
                   (deltas_jsonl w)
                   (console w ++ ["Metadata saved (compressed + plain)"]))).
  { destruct metadata; try contradiction; reflexivity. }
  rewrite E. cbn [snd metadata_json metadata_gz deltas_jsonl].
  repeat split; reflexivity.
Qed.

Lemma saveMetadata_then_load_witness :
  let w' := snd (saveMetadata pending_folded fresh_world) in
  saveMetadata pending_folded fresh_world = (Normal tt, w')
  /\ metadata_json w' = Some (JsonText pending_folded)
  /\ metadata_gz w' = Some (JsonText pending_folded)
  /\ deltas_jsonl w' = deltas_jsonl fresh_world
  /\ fst (loadMetadata w') = Normal (json_roundtrip pending_folded)
  /\ saveMetadata VUndef fresh_world
     = (Normal tt, add_line "Could not save metadata:" fresh_world).
Proof.
  apply (saveMetadata_then_load pending_folded fresh_world). discriminate.
Defined.

(** ** The commands [--validate] and [--repair] *)

Lemma try_catch_bind {S A B} (m : St S A) (f : A -> St S B) (h : St S B) w a w1 :
  m w = (Normal a, w1) -> try_catch (bind m f) h w = try_catch (f a) h w1.
Proof. intros E. unfold try_catch, bind. rewrite E. reflexivity. Qed.

(** The report of [validateContext] after the validation: the line
    'Context is valid' and what follows it. *)
Lemma validateContext_report (validated : value) (w : world) :
  exists ls,
    try_catch
      (do _ <- log "Context is valid";
       do version <- template (get validated "version");
       do _ <- log ("   Version: " +:+ version);
       do lastUpdated <- template (get validated "lastUpdated");
       do _ <- log ("   Last updated: " +:+ lastUpdated);
       do sessions <-
         template (js_or (get (get validated "essential") "sessionCount") (VNum 0));
       log ("   Sessions: " +:+ sessions))
      (log "Context validation failed:") w
    = (Normal tt,
       mkWorld (metadata_json w) (metadata_gz w) (deltas_jsonl w)
         (console w ++ "Context is valid" :: ls)).
Proof.
  unfold try_catch, bind, template, log, add_line, ret, throw.
  cbn [metadata_json metadata_gz deltas_jsonl console].
  destruct (to_str (get validated "version")) as [s1|];
    [destruct (to_str (get validated "lastUpdated")) as [s2|];
     [destruct (to_str (js_or (get (get validated "essential") "sessionCount")
                          (VNum 0))) as [s3|]|]|];
    cbn [metadata_json metadata_gz deltas_jsonl console];
    rewrite <- ?app_assoc; cbn [app]; eexists; reflexivity.
Qed.

Lemma validateContext_cases (now : string) (w : world) (v : value) :
  metadata_json w = Some (JsonText v) ->
  exists ls1 ls2,
    validateContext now w
    = (Normal tt,
       mkWorld (metadata_json w) (metadata_gz w) (deltas_jsonl w)
         (console w ++ ls1 ++ "Context is valid" :: ls2)).
Proof.
  intros Hm. unfold validateContext.
  unfold bind at 1. cbn [log]. unfold bind at 1. cbn [read_world read_state].
  unfold add_line at 1. cbn [metadata_json]. rewrite Hm.
  rewrite (try_catch_bind (parse (JsonText v)) _ _ _ (json_roundtrip v) _ eq_refl).
  destruct (validateMetadata_world now (json_roundtrip v)
              (add_line ("Validating context..." +:+ newline) w))
    as (r & ls & E & Hr).
  rewrite (try_catch_bind _ _ _ _ _ _ E). rewrite Hr.
  match goal with |- context [try_catch ?body ?h ?w1] =>
    destruct (validateContext_report r w1) as [ls' ->] end.
  unfold add_line. cbn [metadata_json metadata_gz deltas_jsonl console].
  exists (("Validating context..." +:+ newline) :: ls), ls'.
  rewrite <- !app_assoc, ?Hm. reflexivity.
Qed.

(** X20: the command [--validate] changes no file and does not throw; for
    every snapshot file that parses it prints 'Context is valid', also when
    the validator found violations and the document was repaired in
    memory. *)
Theorem validateContext_reports_valid (now : string) (w : world) (v : value) :
  metadata_json w = Some (JsonText v) ->
  let run := validateContext now w in
  fst run = Normal tt
  /\ metadata_json (snd run) = metadata_json w
  /\ metadata_gz (snd run) = metadata_gz w
  /\ deltas_jsonl (snd run) = deltas_jsonl w
  /\ In "Context is valid" (console (snd run)).
Proof.
  intros Hm. cbv zeta.
  destruct (validateContext_cases now w v Hm) as (ls1 & ls2 & ->).
  cbn [fst snd metadata_json metadata_gz deltas_jsonl console].
  repeat split.
  apply in_or_app. right. apply in_or_app. right. left. reflexivity.
Qed.

Lemma validateContext_reports_valid_witness :
  let w := mkWorld (Some (JsonText corrupted_test_metadata)) None None [] in
  let run := validateContext "2026-01-18T11:00:00.000Z" w in
  fst run = Normal tt
  /\ metadata_json (snd run) = metadata_json w
  /\ metadata_gz (snd run) = metadata_gz w
  /\ deltas_jsonl (snd run) = deltas_jsonl w
  /\ In "Context is valid" (console (snd run)).
Proof.
  apply (validateContext_reports_valid "2026-01-18T11:00:00.000Z"
           (mkWorld (Some (JsonText corrupted_test_metadata)) None None [])
           corrupted_test_metadata).
  reflexivity.
Defined.

(** [repairContext] on a snapshot file that parses. *)
Lemma repairContext_writes (now : string) (w : world) (v : value) :
  metadata_json w = Some (JsonText v) ->
  exists ls,
    repairContext now w
    = (Normal tt,
       mkWorld (Some (JsonText (repairMetadata now (json_roundtrip v))))
         (metadata_gz w) (deltas_jsonl w)
         (console w ++ ("Repairing context..." +:+ newline) :: "Metadata repaired"
                       :: "Context repaired" :: ls)).
Proof.
  intros Hm. unfold repairContext.
  unfold bind at 1. cbn [log]. unfold bind at 1. cbn [read_world read_state].
  unfold add_line at 1. cbn [metadata_json]. rewrite Hm.
  unfold repairMetadata_logged, try_catch, bind, parse, write_metadata_json, template,
    log, add_line, ret, throw.
  cbn [metadata_json metadata_gz deltas_jsonl console].
  set (r := repairMetadata now (json_roundtrip v)).
  destruct (to_str (get r "version")) as [s1|];
    [destruct (to_str (get (get r "essential") "lastSession")) as [s2|]|];
    cbn [metadata_json metadata_gz deltas_jsonl console];
    rewrite <- ?app_assoc; cbn [app]; eexists; reflexivity.
Qed.

(** What [loadMetadata] returns, by the files it finds. *)
Lemma loadMetadata_value (w : world) :
  fst (loadMetadata w)
  = Normal match metadata_gz w with
           | Some (JsonText g) => json_roundtrip g
           | Some OtherText => VNull
           | None =>
               match metadata_json w with
               | Some (JsonText v) => json_roundtrip v
               | _ => VNull
               end
           end.
Proof.
  unfold loadMetadata, try_catch. unfold bind at 1. cbn [read_world read_state].
  destruct (metadata_gz w) as [[g|]|]; [reflexivity|reflexivity|].
  destruct (metadata_json w) as [[v|]|]; reflexivity.
Qed.

(** X21: the command [--repair] rewrites the plain snapshot file alone.
    For a snapshot file that parses it writes the repaired document there,
    prints 'Context repaired' and does not throw; the compressed snapshot
    and the journal stay as they are.  The load prefers the compressed
    snapshot: when there is one, the load after the repair reads what it
    read before, and when there is none it reads the repaired document as
    JSON text holds it. *)
Theorem repairContext_rewrites_plain_snapshot (now : string) (w : world) (v : value) :
  metadata_json w = Some (JsonText v) ->
  let repaired := repairMetadata now (json_roundtrip v) in
  let run := repairContext now w in
  fst run = Normal tt
  /\ metadata_json (snd run) = Some (JsonText repaired)
  /\ metadata_gz (snd run) = metadata_gz w
  /\ deltas_jsonl (snd run) = deltas_jsonl w
  /\ In "Context repaired" (console (snd run))
  /\ fst (loadMetadata (snd run))
     = match metadata_gz w with
       | Some _ => fst (loadMetadata w)
       | None => Normal (json_roundtrip repaired)
       end.
Proof.
  intros Hm. cbv zeta.
  destruct (repairContext_writes now w v Hm) as [ls ->].
  cbn [fst snd metadata_json metadata_gz deltas_jsonl console].
  do 4 (split; [reflexivity|]).
  split.
  - apply in_or_app. right. right. right. left. reflexivity.
  - rewrite !loadMetadata_value. cbn [metadata_json metadata_gz].
    destruct (metadata_gz w) as [[g|]|]; reflexivity.
Qed.

Lemma repairContext_rewrites_plain_snapshot_witness :
  let w := mkWorld (Some (JsonText corrupted_test_metadata))
             (Some (JsonText corrupted_test_metadata)) None [] in
  let repaired := repairMetadata "2026-01-18T11:00:00.000Z"
                    (json_roundtrip corrupted_test_metadata) in
  let run := repairContext "2026-01-18T11:00:00.000Z" w in
  fst run = Normal tt
  /\ metadata_json (snd run) = Some (JsonText repaired)
  /\ metadata_gz (snd run) = metadata_gz w
  /\ deltas_jsonl (snd run) = deltas_jsonl w
  /\ In "Context repaired" (console (snd run))
  /\ fst (loadMetadata (snd run))
     = match metadata_gz w with
       | Some _ => fst (loadMetadata w)
       | None => Normal (json_roundtrip repaired)
       end.
Proof.
  apply (repairContext_rewrites_plain_snapshot "2026-01-18T11:00:00.000Z"
           (mkWorld (Some (JsonText corrupted_test_metadata))
              (Some (JsonText corrupted_test_metadata)) None [])
           corrupted_test_metadata).
  reflexivity.
Defined.

(** ** Updates through the loader *)

Lemma saveDelta_outcome now op field v w :
  fst (saveDelta now op field v w) = Normal tt \/ fst (saveDelta now op field v w) = Exotic.
Proof.
  unfold saveDelta, try_catch.
  match goal with |- context [match ?body w with _ => _ end] =>
    destruct (body w) as [[[]|e|] w'] end; cbn; auto.
Qed.

(** The first step of [addToHistory]: a file that is missing or does not
    parse counts as an empty history. *)
Lemma addToHistory_reads now entry s :
  addToHistory now entry s =
  match stored_history s with
  | VArr h =>
      let h := h ++ [entry] in
      let h := if (10 <? length h)%nat then slice_last10 h else h in
      try_catch
        (do _ <- write_history (VArr h);
         on_files (saveDelta now (VStr "set") (VStr "sessionHistory") (VArr h)))
        (on_files (log "Could not save session history")) s
  | _ => (Throws TypeError, s)
  end.
Proof.
  unfold addToHistory, stored_history. unfold bind at 1. unfold try_catch at 1.
  unfold bind at 1. cbn [read_state].
  destruct (session_history s) as [[v|]|] eqn:E.
  - unfold on_files, parse, ret. destruct s as [m ctx hist w]. cbn in *. subst hist.
    destruct (json_roundtrip v); reflexivity.
  - unfold on_files, parse, throw, ret. destruct s as [m ctx hist w]. cbn in *.
    subst hist. reflexivity.
  - reflexivity.
Qed.

Lemma last_ten_bound (l : list value) :
  (if (10 <? length l)%nat then slice_last10 l else l) = drop (length l - 10) l.
Proof.
  unfold slice_last10. destruct (Nat.ltb_spec 10 (length l)); [reflexivity|].
  replace (length l - 10)%nat with 0%nat by lia. reflexivity.
Qed.

(** X22: [addToHistory] writes to the history file the last ten entries
    of the stored history with the new entry appended (a missing or
    unparsable file is an empty history): at most ten entries, the new one
    last.  The same array is journaled as a set of [sessionHistory], and
    [this.metadata] is not touched. *)
Theorem addToHistory_keeps_last_ten (now : string) (entry : value) (s : loader)
    (h : list value) :
  stored_history s = VArr h ->
  let run := addToHistory now entry s in
  let kept := drop (length (h ++ [entry]) - 10) (h ++ [entry]) in
  (fst run = Normal tt \/ fst run = Exotic)
  /\ session_history (snd run) = Some (JsonText (VArr kept))
  /\ (length kept <= 10)%nat
  /\ List.last kept VUndef = entry
  /\ this_metadata (snd run) = this_metadata s
  /\ files (snd run)
     = snd (saveDelta now (VStr "set") (VStr "sessionHistory") (VArr kept) (files s)).
Proof.
  intros Hh. cbv zeta. rewrite addToHistory_reads, Hh. cbv zeta.
  rewrite last_ten_bound.
  set (kept := drop (length (h ++ [entry]) - 10) (h ++ [entry])).
  unfold try_catch, bind, write_history, on_files.
  cbn [this_metadata session_history files].
  pose proof (saveDelta_outcome now (VStr "set") (VStr "sessionHistory") (VArr kept)
                (files s)) as Ho.
  destruct (saveDelta now (VStr "set") (VStr "sessionHistory") (VArr kept) (files s))
    as [o w']. cbn [fst snd] in *.
  assert (Hlen : (length kept <= 10)%nat).
  { unfold kept. rewrite length_drop. lia. }
  assert (Hlast : List.last kept VUndef = entry).
  { unfold kept. rewrite length_app. cbn [length].
    destruct (Nat.le_gt_cases (length h) 9) as [Hs|Hs].
    - replace (length h + 1 - 10)%nat with 0%nat by lia. cbn [drop].
      apply last_last.
    - rewrite drop_app_le by lia.
      apply last_last. }
  destruct Ho as [-> | ->]; cbn [fst snd session_history this_metadata files]; auto 10.
Qed.

Lemma addToHistory_keeps_last_ten_witness :
  let s := mkLoader sample_snapshot VNull (Some (JsonText (VArr (repeat (VStr "old") 10))))
             fresh_world in
  let now := "2026-01-18T11:00:00.000Z" in
  let run := addToHistory now (VStr "new") s in
  let kept := drop (length (repeat (VStr "old") 10 ++ [VStr "new"]) - 10)
                (repeat (VStr "old") 10 ++ [VStr "new"]) in
  (fst run = Normal tt \/ fst run = Exotic)
  /\ session_history (snd run) = Some (JsonText (VArr kept))
  /\ (length kept <= 10)%nat
  /\ List.last kept VUndef = VStr "new"
  /\ this_metadata (snd run) = this_metadata s
  /\ files (snd run)
     = snd (saveDelta now (VStr "set") (VStr "sessionHistory") (VArr kept) (files s)).
Proof.
  apply (addToHistory_keeps_last_ten "2026-01-18T11:00:00.000Z" (VStr "new")
           (mkLoader sample_snapshot VNull (Some (JsonText (VArr (repeat (VStr "old") 10))))
              fresh_world)
           (repeat (VStr "old") 10)).
  reflexivity.
Defined.

(** X23: when the history file holds JSON that is not an array,
    [addToHistory] throws a TypeError ([history.push] is not a function)
    before it writes anything. *)
Theorem addToHistory_needs_array (now : string) (entry : value) (s : loader) :
  isArray (stored_history s) = false ->
  addToHistory now entry s = (Throws TypeError, s).
Proof.
  intros Hh. rewrite addToHistory_reads.
  destruct (stored_history s); try reflexivity. discriminate.
Qed.

Lemma addToHistory_needs_array_witness :
  let s := mkLoader sample_snapshot VNull (Some (JsonText (VObj [("entries", VArr [])])))
             fresh_world in
  addToHistory "2026-01-18T11:00:00.000Z" (VStr "new") s = (Throws TypeError, s).
Proof.
  apply (addToHistory_needs_array "2026-01-18T11:00:00.000Z" (VStr "new")
           (mkLoader sample_snapshot VNull (Some (JsonText (VObj [("entries", VArr [])])))
              fresh_world)).
  reflexivity.
Defined.

(** The world after [saveDelta], whatever the loader does next. *)
Lemma updateMetadata_journals now field v s :
  exists o,
    on_files (saveDelta now (VStr "set") field v) s
    = (o, mkLoader (this_metadata s) (this_sessionContext s) (session_history s)
            (snd (saveDelta now (VStr "set") field v (files s))))
    /\ o = fst (saveDelta now (VStr "set") field v (files s))
    /\ (o = Normal tt \/ o = Exotic).
Proof.
  unfold on_files.
  pose proof (saveDelta_outcome now (VStr "set") field v (files s)) as Ho.
  destruct (saveDelta now (VStr "set") field v (files s)) as [o w'].
  exists o. cbn [fst snd] in *. auto.
Qed.

Lemma split_dot_no_dot_cons c s :
  Ascii.eqb c (Ascii.ascii_of_nat 46) = false ->
  split_dot (String c s)
  = match split_dot s with
    | [] => [String c ""]
    | h :: t => String c h :: t
    end.
Proof. intros H. cbn [split_dot]. rewrite H. reflexivity. Qed.

Lemma prefix_app p s : String.prefix p (p +:+ s) = true.
Proof.
  induction p as [|a p IH]; [destruct s; reflexivity|].
  change (String a p +:+ s) with (String a (p +:+ s)). cbn [String.prefix].
  destruct (ascii_dec a a); [exact IH|contradiction].
Qed.

Lemma split_dot_essential K :
  split_dot ("essential." +:+ K) = "essential" :: split_dot K.
Proof.
  change ("essential." +:+ K)
    with (String "e" (String "s" (String "s" (String "e" (String "n"
           (String "t" (String "i" (String "a" (String "l" (String "." K)))))))))).
  rewrite !split_dot_no_dot_cons by reflexivity.
  change (split_dot (String "." K)) with ("" :: split_dot K). reflexivity.
Qed.

(** [updateMetadata] on a loaded snapshot, for a field below [essential]. *)
Lemma updateMetadata_essential (now : string) (rest : string) (v : value) (s : loader) :
  truthy (this_metadata s) = true ->
  let field := VStr ("essential." +:+ rest) in
  let keys := split_dot rest in
  updateMetadata now field v s
  = let w' := snd (saveDelta now (VStr "set") field v (files s)) in
    let s1 := mkLoader (this_metadata s) (this_sessionContext s) (session_history s) w' in
    match fst (saveDelta now (VStr "set") field v (files s)) with
    | Normal _ =>
        match assign_in (get (this_metadata s) "essential")
                (removelast keys) (List.last keys "") v with
        | Normal essential =>
            match put (this_metadata s) "essential" essential with
            | Normal metadata => (Normal tt, mkLoader metadata (this_sessionContext s) (session_history s) w')
            | Throws e => (Throws e, s1)
            | Exotic => (Exotic, s1)
            end
        | Throws e => (Throws e, s1)
        | Exotic => (Exotic, s1)
        end
    | Throws e => (Throws e, s1)
    | Exotic => (Exotic, s1)
    end.
Proof.
  intros Hm. cbv zeta. unfold updateMetadata.
  destruct (updateMetadata_journals now (VStr ("essential." +:+ rest)) v s)
    as (o & E & Eo & _).
  unfold bind at 1. rewrite E, <- Eo.
  destruct o as [[]|e|]; try reflexivity.
  unfold bind at 1. cbn [read_state this_metadata]. rewrite Hm.
  rewrite prefix_app.
  rewrite split_dot_essential. cbn [tail].
  assert (Hl : List.last ("essential" :: split_dot rest) "" = List.last (split_dot rest) "").
  { pose proof (split_dot_nonempty rest). destruct (split_dot rest); [contradiction|].
    reflexivity. }
  rewrite Hl. unfold bind, lift, set_metadata.
  destruct (assign_in _ _ _ _); reflexivity.
Qed.

(** X24: [updateMetadata('essential.K', v)] on a loaded snapshot whose
    essential is an object: the delta is journaled by [saveDelta], and
    outside [Exotic] [this.metadata.essential.K] is [v] afterwards, every
    other field being as before. *)
Theorem updateMetadata_sets_essential_field (now : string) (K : string) (v : value)
    (s : loader) (ps es : list (string * value)) :
  this_metadata s = VObj ps ->
  get (VObj ps) "essential" = VObj es ->
  split_dot K = [K] ->
  K <> "__proto__" ->
  let field := VStr ("essential." +:+ K) in
  let run := updateMetadata now field v s in
  session_history (snd run) = session_history s
  /\ files (snd run) = snd (saveDelta now (VStr "set") field v (files s))
  /\ ((fst run = Exotic /\ this_metadata (snd run) = this_metadata s)
      \/ (fst run = Normal tt
          /\ this_metadata (snd run)
             = VObj (assign_prop "essential" (VObj (assign_prop K v es)) ps)
          /\ get (get (this_metadata (snd run)) "essential") K = v)).
Proof.
  intros Hm He HK Hproto. cbv zeta.
  rewrite updateMetadata_essential by (rewrite Hm; reflexivity). cbv zeta.
  rewrite HK, Hm, He. cbn [removelast List.last assign_in].
  destruct (String.eqb_spec K "__proto__"); [contradiction|]. cbn [put].
  destruct (saveDelta_outcome now (VStr "set") (VStr ("essential." +:+ K)) v (files s))
    as [-> | ->]; cbn [fst snd this_metadata session_history files].
  - split; [reflexivity|]. split; [reflexivity|]. right.
    split; [reflexivity|]. split; [reflexivity|].
    rewrite get_assign_same. apply get_assign_same.
  - auto.
Qed.

Lemma updateMetadata_sets_essential_field_witness :
  let s := mkLoader sample_snapshot VNull None fresh_world in
  let now := "2026-01-18T10:00:00.000Z" in
  let field := VStr ("essential." +:+ "lastSession") in
  let run := updateMetadata now field (VStr "2026-01-18") s in
  session_history (snd run) = session_history s
  /\ files (snd run)
     = snd (saveDelta now (VStr "set") field (VStr "2026-01-18") (files s))
  /\ ((fst run = Exotic /\ this_metadata (snd run) = this_metadata s)
      \/ (fst run = Normal tt
          /\ this_metadata (snd run)
             = VObj (assign_prop "essential"
                       (VObj (assign_prop "lastSession" (VStr "2026-01-18")
                                [("lastSession", VStr "Unknown");
                                 ("stack",
                                  VStr "Node.js + npm + Vite + TypeScript + TanStack");
                                 ("projects", VArr []);
                                 ("sessionCount", VNum 0)]))
                       [("version", VNum 3);
                        ("lastUpdated", VStr "2026-01-17T08:00:00.000Z");
                        ("essential", DEFAULT_ESSENTIAL)])
          /\ get (get (this_metadata (snd run)) "essential") "lastSession"
             = VStr "2026-01-18")).
Proof.
  apply (updateMetadata_sets_essential_field "2026-01-18T10:00:00.000Z" "lastSession"
           (VStr "2026-01-18") (mkLoader sample_snapshot VNull None fresh_world)).
  - reflexivity.
  - reflexivity.
  - reflexivity.
  - discriminate.
Defined.

Lemma split_dot_app A B :
  split_dot (A +:+ "." +:+ B) = split_dot A ++ split_dot B.
Proof.
  induction A as [|c A IH].
  - reflexivity.
  - change (String c A +:+ "." +:+ B) with (String c (A +:+ "." +:+ B)).
    cbn [split_dot]. rewrite IH.
    destruct (Ascii.eqb c (Ascii.ascii_of_nat 46)); [reflexivity|].
    pose proof (split_dot_nonempty A).
    destruct (split_dot A) as [|h t]; [contradiction|reflexivity].
Qed.

(** X25: [updateMetadata('essential.A.B', v)] when essential has no [A]:
    the in-memory update throws a TypeError after [saveDelta] has journaled
    the delta; [this.metadata] is unchanged. *)
Theorem updateMetadata_missing_parent (now : string) (A B : string) (v : value)
    (s : loader) (ps es : list (string * value)) :
  this_metadata s = VObj ps ->
  get (VObj ps) "essential" = VObj es ->
  split_dot A = [A] -> split_dot B = [B] ->
  lookup_prop A es = None ->
  existsb (String.eqb A) object_prototype_names = false ->
  let field := VStr ("essential." +:+ A +:+ "." +:+ B) in
  let run := updateMetadata now field v s in
  this_metadata (snd run) = this_metadata s
  /\ session_history (snd run) = session_history s
  /\ files (snd run) = snd (saveDelta now (VStr "set") field v (files s))
  /\ (fst run = Throws TypeError \/ fst run = Exotic)
  /\ (fst run = Exotic <-> fst (saveDelta now (VStr "set") field v (files s)) = Exotic).
Proof.
  intros Hm He HA HB Hl Hin. cbv zeta.
  rewrite updateMetadata_essential by (rewrite Hm; reflexivity). cbv zeta.
  assert (Hs : split_dot (A +:+ "." +:+ B) = [A; B]).
  { rewrite split_dot_app, HA, HB. reflexivity. }
  rewrite Hs, Hm, He. cbn [removelast List.last assign_in read_member].
  rewrite Hl, Hin.
  cbn [obind assign_in].
  destruct (saveDelta_outcome now (VStr "set")
              (VStr ("essential." +:+ A +:+ "." +:+ B)) v (files s)) as [E|E];
    rewrite E; cbn [fst snd this_metadata session_history files];
    repeat split; auto; discriminate.
Qed.

Lemma updateMetadata_missing_parent_witness :
  let s := mkLoader sample_snapshot VNull None fresh_world in
  let now := "2026-01-18T10:00:00.000Z" in
  let field := VStr ("essential." +:+ "cache" +:+ "." +:+ "hits") in
  let run := updateMetadata now field (VNum 1) s in
  this_metadata (snd run) = this_metadata s
  /\ session_history (snd run) = session_history s
  /\ files (snd run) = snd (saveDelta now (VStr "set") field (VNum 1) (files s))
  /\ (fst run = Throws TypeError \/ fst run = Exotic)
  /\ (fst run = Exotic
      <-> fst (saveDelta now (VStr "set") field (VNum 1) (files s)) = Exotic).
Proof.
  apply (updateMetadata_missing_parent "2026-01-18T10:00:00.000Z" "cache" "hits"
           (VNum 1) (mkLoader sample_snapshot VNull None fresh_world)
           [("version", VNum 3); ("lastUpdated", VStr "2026-01-17T08:00:00.000Z");
            ("essential", DEFAULT_ESSENTIAL)]
           [("lastSession", VStr "Unknown");
            ("stack", VStr "Node.js + npm + Vite + TypeScript + TanStack");
            ("projects", VArr []); ("sessionCount", VNum 0)]);
    reflexivity.
Defined.

(** X26: [saveNewSession] on a loaded snapshot journals three deltas in
    order (lastSession, sessionCount, sessionHistory); in memory
    [essential.lastSession] becomes the date part of the time stamp and
    [essential.sessionCount] becomes [(sessionCount || 0) + 1]; the history
    file gets the new entry and the console the line 'Session saved with
    delta tracking'. *)
Theorem saveNewSession_records (now : string) (sessionType summary : value)
    (s : loader) (ps es : list (string * value)) (h : list value) (count : value) :
  this_metadata s = VObj ps ->
  get (VObj ps) "essential" = VObj es ->
  js_add (js_or (get (VObj es) "sessionCount") (VNum 0)) (VNum 1) = Normal count ->
  stored_history s = VArr h ->
  let entry :=
    VObj [("timestamp", VStr now); ("sessionType", sessionType); ("summary", summary);
          ("previousContext",
           VStr (if truthy (this_sessionContext s) then "loaded" else "none"))] in
  let kept := drop (length (h ++ [entry]) - 10) (h ++ [entry]) in
  let w1 := snd (saveDelta now (VStr "set") (VStr "essential.lastSession")
                   (VStr (before_T now)) (files s)) in
  let w2 := snd (saveDelta now (VStr "set") (VStr "essential.sessionCount") count w1) in
  let w3 := snd (saveDelta now (VStr "set") (VStr "sessionHistory") (VArr kept) w2) in
  let run := saveNewSession now sessionType summary s in
  fst run = Exotic
  \/ (run
      = (Normal tt,
         mkLoader
           (VObj (assign_prop "essential"
                    (VObj (assign_prop "sessionCount" count
                             (assign_prop "lastSession" (VStr (before_T now)) es)))
                    ps))
           (this_sessionContext s)
           (Some (JsonText (VArr kept)))
           (add_line "Session saved with delta tracking" w3))).
Proof.
  intros Hm He Hc Hh. cbv zeta.
  remember (saveNewSession now sessionType summary s) as run eqn:Hrun.
  unfold saveNewSession in Hrun. unfold bind at 1 in Hrun.
  change "essential.lastSession" with ("essential." +:+ "lastSession") in *.
  rewrite updateMetadata_essential in Hrun by (rewrite Hm; reflexivity).
  cbv zeta in Hrun.
  change (split_dot "lastSession") with ["lastSession"] in Hrun.
  rewrite Hm, He in Hrun.
  cbn [removelast List.last assign_in String.eqb Ascii.eqb Bool.eqb put] in Hrun.
  destruct (saveDelta_outcome now (VStr "set") (VStr ("essential." +:+ "lastSession"))
              (VStr (before_T now)) (files s)) as [E1|E1]; rewrite E1 in Hrun;
    [|left; rewrite Hrun; reflexivity].
  set (w1 := snd (saveDelta now (VStr "set") (VStr ("essential." +:+ "lastSession"))
                    (VStr (before_T now)) (files s))) in *.
  set (es1 := assign_prop "lastSession" (VStr (before_T now)) es) in *.
  unfold bind at 1 in Hrun. cbn [read_state this_metadata] in Hrun.
  rewrite get_assign_same in Hrun.
  replace (get (VObj es1) "sessionCount") with (get (VObj es) "sessionCount") in Hrun
    by (symmetry; apply get_assign_other; discriminate).
  unfold bind at 1 in Hrun. unfold lift at 1 in Hrun. rewrite Hc in Hrun.
  unfold bind at 1 in Hrun.
  change "essential.sessionCount" with ("essential." +:+ "sessionCount") in *.
  rewrite updateMetadata_essential in Hrun by reflexivity. cbv zeta in Hrun.
  change (split_dot "sessionCount") with ["sessionCount"] in Hrun.
  cbn [this_metadata this_sessionContext session_history files] in Hrun.
  rewrite get_assign_same in Hrun.
  cbn [removelast List.last assign_in String.eqb Ascii.eqb Bool.eqb put] in Hrun.
  rewrite assign_assign in Hrun.
  destruct (saveDelta_outcome now (VStr "set") (VStr ("essential." +:+ "sessionCount"))
              count w1) as [E2|E2]; rewrite E2 in Hrun;
    [|left; rewrite Hrun; reflexivity].
  set (w2 := snd (saveDelta now (VStr "set") (VStr ("essential." +:+ "sessionCount"))
                    count w1)) in *.
  unfold bind at 1 in Hrun. cbn [read_state this_sessionContext] in Hrun.
  unfold bind at 1 in Hrun. rewrite addToHistory_reads in Hrun.
  unfold stored_history in *. cbn [session_history] in Hrun. rewrite Hh in Hrun.
  cbv zeta in Hrun. rewrite last_ten_bound in Hrun.
  match goal with |- context [VArr (drop ?n ?l)] => set (kept := drop n l) in * end.
  unfold try_catch, bind, write_history, on_files in Hrun.
  cbn [this_metadata this_sessionContext session_history files] in Hrun.
  destruct (saveDelta_outcome now (VStr "set") (VStr "sessionHistory") (VArr kept) w2)
    as [E3|E3];
    destruct (saveDelta now (VStr "set") (VStr "sessionHistory") (VArr kept) w2)
      as [o3 w3]; cbn [fst snd] in *; subst o3;
    [|left; rewrite Hrun; reflexivity].
  right. exact Hrun.
Qed.

Lemma saveNewSession_records_witness :
  let now := "2026-01-18T10:00:00.000Z" in
  let s := mkLoader sample_snapshot VNull None fresh_world in
  let entry :=
    VObj [("timestamp", VStr now); ("sessionType", VStr "coding");
          ("summary", VStr "verified the store");
          ("previousContext",
           VStr (if truthy (this_sessionContext s) then "loaded" else "none"))] in
  let kept := drop (length ([] ++ [entry]) - 10) ([] ++ [entry]) in
  let w1 := snd (saveDelta now (VStr "set") (VStr "essential.lastSession")
                   (VStr (before_T now)) (files s)) in
  let w2 := snd (saveDelta now (VStr "set") (VStr "essential.sessionCount")
                   (VNum 1) w1) in
  let w3 := snd (saveDelta now (VStr "set") (VStr "sessionHistory") (VArr kept) w2) in
  let run := saveNewSession now (VStr "coding") (VStr "verified the store") s in
  fst run = Exotic
  \/ (run
      = (Normal tt,
         mkLoader
           (VObj (assign_prop "essential"
                    (VObj (assign_prop "sessionCount" (VNum 1)
                             (assign_prop "lastSession" (VStr (before_T now))
                                [("lastSession", VStr "Unknown");
                                 ("stack",
                                  VStr "Node.js + npm + Vite + TypeScript + TanStack");
                                 ("projects", VArr []);
                                 ("sessionCount", VNum 0)])))
                    [("version", VNum 3);
                     ("lastUpdated", VStr "2026-01-17T08:00:00.000Z");
                     ("essential", DEFAULT_ESSENTIAL)]))
           (this_sessionContext s)
           (Some (JsonText (VArr kept)))
           (add_line "Session saved with delta tracking" w3))).
Proof.
  apply (saveNewSession_records "2026-01-18T10:00:00.000Z" (VStr "coding")
           (VStr "verified the store")
           (mkLoader sample_snapshot VNull None fresh_world)
           [("version", VNum 3); ("lastUpdated", VStr "2026-01-17T08:00:00.000Z");
            ("essential", DEFAULT_ESSENTIAL)]
           [("lastSession", VStr "Unknown");
            ("stack", VStr "Node.js + npm + Vite + TypeScript + TanStack");
            ("projects", VArr []); ("sessionCount", VNum 0)]
           [] (VNum 1)); reflexivity.
Defined.

(** ** The store: the replay works on a copy *)

(** X27: [applyDeltasToMetadata] works on a copy.  When it is given an
    object, every object that was in the store before the call is there
    unchanged after it, whether the replay succeeded or failed: the
    snapshot passed in reads as before. *)
Theorem replay_works_on_a_copy (dp : nat) (now : string)
    (deltas : option (list file)) (b : nat) (h : list Store.cell) :
  Store.closed h -> (b < length h)%nat ->
  fst (Store.applyDeltasToMetadata dp now deltas (Store.Ref b) h) <> Exotic ->
  (exists fresh,
     snd (Store.applyDeltasToMetadata dp now deltas (Store.Ref b) h) = h ++ fresh)
  /\ forall fuel (r : Store.rval),
       Store.bounded_r (length h) r ->
       Store.read_tree fuel
         (snd (Store.applyDeltasToMetadata dp now deltas (Store.Ref b) h)) r
       = Store.read_tree fuel h r.
Proof.
  intros Hc Hb _.
  destruct (StoreFacts.keeps_applyDeltasToMetadata h dp now deltas b h
              (StoreFacts.extends_refl h)) as [(fresh & E & _) _].
  split; [exists fresh; exact E|].
  intros fuel r Hr. rewrite E. apply StoreFacts.read_tree_app; assumption.
Qed.

Lemma replay_works_on_a_copy_witness :
  let h := fst (Store.alloc_tree sample_snapshot [Store.Arr []]) in
  let run := Store.applyDeltasToMetadata 0%nat "2026-01-18T11:00:00.000Z"
               (Some [JsonText set_session_delta]) (Store.Ref 3%nat) h in
  (exists fresh, snd run = h ++ fresh)
  /\ forall fuel (r : Store.rval),
       Store.bounded_r (length h) r ->
       Store.read_tree fuel (snd run) r = Store.read_tree fuel h r.
Proof.
  apply (replay_works_on_a_copy 0%nat "2026-01-18T11:00:00.000Z"
           (Some [JsonText set_session_delta]) 3%nat
           (fst (Store.alloc_tree sample_snapshot [Store.Arr []]))).
  - unfold Store.closed. cbn. repeat (constructor; cbn; try lia).
  - cbn. lia.
  - vm_compute. discriminate.
Defined.
